(** * PlotPCB: the G-code to HPGL translator [gcodetohpgl.py]

    A shallow embedding of the translator ([change_mode], [parse_move],
    [parse_z], [parse_dwell], [parse_tool_change], [parse_spindle],
    [parse_line]), of the job sequencing in [main] and of the replay loop
    ([send_cmd], [tool_change] and the last loop of [main]), followed by
    the properties of the design document that concern them.

    Conventions of the embedding.
    - A Python [str] is a [string]; its characters are the code points
      below 256.
    - A Python [float] is an IEEE 754 binary64 number ([spec_float] with
      [prec = 53] and [emax = 1024]); arithmetic rounds to nearest even.
    - A Python [int] is a [Z].
    - An uncaught exception or a [sys.exit] ends the program: functions
      that can raise return a [res].
    - The files [glob] finds are given with the lines that reading them
      yields. The HPGL text is what has been written to [hpgl_file], the
      spooled temporary file or the file of [--output]; the replay works
      on what [hpgl_file.read()] returns.
    - The replay is the list of its events: what is written to and read
      from the serial object, the pauses, the reports of [send_cmd] and
      the prompts the operator answers. The other console output
      ([print], [cprint]) is left out, the three warnings of [main]
      excepted. *)

From Stdlib Require Import ZArith List String Ascii Bool Lia.
From Stdlib Require Import SpecFloat DecimalString.
Import ListNotations.

Local Open Scope string_scope.
Local Open Scope Z_scope.

(** ** Exceptions and results *)

(** An exception instance is its class name with the argument it carries;
    [sys.exit(n)] is [SystemExit n]. *)
Inductive exn : Type :=
| PyExc (cls : string) (arg : string)
| SystemExit (code : Z).

Inductive res (A : Type) : Type :=
| Ok (a : A)
| Err (e : exn).

Arguments Ok {A} a.
Arguments Err {A} e.

Definition res_bind {A B : Type} (r : res A) (k : A -> res B) : res B :=
  match r with
  | Ok a => k a
  | Err e => Err e
  end.

Declare Scope res_scope.
Delimit Scope res_scope with res.
Notation "x <- r ;; k" := (res_bind r (fun x => k))
  (at level 61, r at next level, right associativity) : res_scope.

(** ** Python strings *)

Module Py.

Definition code (c : ascii) : Z := Z.of_N (N_of_ascii c).

(** [str.isspace] on one character, which is what [str.strip] and the
    regular expression class [\s] use. *)
Definition isspace (c : ascii) : bool :=
  let n := code c in
  ((9 <=? n) && (n <=? 13)) || ((28 <=? n) && (n <=? 32))
  || (n =? 133) || (n =? 160).

Definition isdigit (c : ascii) : bool :=
  let n := code c in (48 <=? n) && (n <=? 57).

Definition len (s : string) : Z := Z.of_nat (String.length s).

(** [s.startswith(p)] *)
Fixpoint startswith (s p : string) {struct p} : bool :=
  match p with
  | EmptyString => true
  | String a p' =>
      match s with
      | EmptyString => false
      | String b s' => Ascii.eqb a b && startswith s' p'
      end
  end.

(** [p in s] *)
Fixpoint contains (p s : string) : bool :=
  startswith s p ||
  match s with
  | EmptyString => false
  | String _ t => contains p t
  end.

(** [s.find(c)] for a one-character [c]: the first index, or -1. *)
Fixpoint find (c : ascii) (s : string) : Z :=
  match s with
  | EmptyString => -1
  | String d t =>
      if Ascii.eqb d c then 0
      else let k := find c t in if k <? 0 then -1 else k + 1
  end.

(** [s.rfind(c)]: the last index, or -1. *)
Fixpoint rfind (c : ascii) (s : string) : Z :=
  match s with
  | EmptyString => -1
  | String d t =>
      let k := rfind c t in
      if 0 <=? k then k + 1 else if Ascii.eqb d c then 0 else -1
  end.

(** A slice bound, as Python clips it. *)
Definition clip (n i : Z) : Z :=
  if i <? 0 then Z.max (n + i) 0 else Z.min i n.

(** [s[lo:hi]]; [None] is an omitted bound. *)
Definition slice (s : string) (lo hi : option Z) : string :=
  let n := len s in
  let a := match lo with Some i => clip n i | None => 0 end in
  let b := match hi with Some i => clip n i | None => n end in
  String.substring (Z.to_nat a) (Z.to_nat (b - a)) s.

Fixpoint lstrip (s : string) : string :=
  match s with
  | EmptyString => EmptyString
  | String c t => if isspace c then lstrip t else s
  end.

Fixpoint rstrip (s : string) : string :=
  match s with
  | EmptyString => EmptyString
  | String c t =>
      match rstrip t with
      | EmptyString => if isspace c then EmptyString else String c EmptyString
      | t' => String c t'
      end
  end.

(** [s.strip()] *)
Definition strip (s : string) : string := rstrip (lstrip s).

(** [s.split(sep)] for a one-character separator. *)
Fixpoint split (sep : ascii) (s : string) : list string :=
  match s with
  | EmptyString => [EmptyString]
  | String c t =>
      if Ascii.eqb c sep then EmptyString :: split sep t
      else match split sep t with
           | [] => [String c EmptyString]
           | h :: r => String c h :: r
           end
  end.

(** The longest prefix whose characters satisfy [p], and the rest. *)
Fixpoint span (p : ascii -> bool) (s : string) : string * string :=
  match s with
  | EmptyString => (EmptyString, EmptyString)
  | String c t =>
      if p c then let '(a, b) := span p t in (String c a, b)
      else (EmptyString, s)
  end.

(** [Some r] when [s = p ++ r]. *)
Fixpoint strip_prefix (p s : string) : option string :=
  match p, s with
  | EmptyString, _ => Some s
  | String a p', String b s' =>
      if Ascii.eqb a b then strip_prefix p' s' else None
  | String _ _, EmptyString => None
  end.

(** ['%d' % n] *)
Definition fmt_d (n : Z) : string := NilZero.string_of_int (Z.to_int n).

(** [all(ord(c) < 128 for c in s)]: [s] can be encoded with, or is the
    decoding of, the ['ascii'] codec. *)
Fixpoint isascii (s : string) : bool :=
  match s with
  | EmptyString => true
  | String c t => (code c <? 128) && isascii t
  end.

End Py.

(** ** Python floats *)

Module PyFloat.

Definition prec : Z := 53.
Definition emax : Z := 1024.

Definition float : Type := spec_float.

Definition add (x y : float) : float := SFadd prec emax x y.
Definition mul (x y : float) : float := SFmul prec emax x y.

(** [x <= y] and [x > y]; both are false when an operand is a NaN. *)
Definition le (x y : float) : bool := SFleb x y.
Definition gt (x y : float) : bool := SFltb y x.

(** The float nearest to [(-1)^neg * m * 10^e10] (ties to even): what a
    decimal literal and [float(str)] denote. *)
Definition of_decimal (neg : bool) (m : N) (e10 : Z) : float :=
  match m with
  | N0 => S754_zero neg
  | Npos p =>
      if 0 <=? e10 then
        binary_round prec emax neg (Z.to_pos (Zpos p * 10 ^ e10)) 0
      else
        let '(q, e, l) :=
          SFdiv_core_binary prec emax (Zpos p) 0 (10 ^ (- e10)) 0 in
        binary_round_aux prec emax neg q e l
  end.

(** [float(n)] for an [int] that a float holds exactly. *)
Definition of_int (n : Z) : float := binary_normalize prec emax n 0 false.

(** [int(x)]: the fraction is dropped (truncation toward zero); a NaN
    raises [ValueError], an infinity [OverflowError]. *)
Definition to_int (x : float) : res Z :=
  match x with
  | S754_zero _ => Ok 0
  | S754_finite s m e => Ok (cond_Zopp s (Z.shiftl (Zpos m) e))
  | S754_infinity _ => Err (PyExc "OverflowError" "cannot convert float infinity to integer")
  | S754_nan => Err (PyExc "ValueError" "cannot convert float NaN to integer")
  end.

(** [m * 2^e] rounded to the nearest integer, ties to even. *)
Definition round_half_even (m : positive) (e : Z) : Z :=
  if 0 <=? e then Z.shiftl (Zpos m) e
  else
    let q := Z.shiftr (Zpos m) (- e) in
    let r := Zpos m - Z.shiftl q (- e) in
    let h := Z.shiftl 1 (- e - 1) in
    if (h <? r) || ((h =? r) && Z.odd q) then q + 1 else q.

(** ['%.0f' % x] *)
Definition fmt_0f (x : float) : string :=
  match x with
  | S754_zero s => if s then "-0" else "0"
  | S754_finite s m e =>
      (if s then "-" else "") ++ Py.fmt_d (round_half_even m e)
  | S754_infinity s => if s then "-inf" else "inf"
  | S754_nan => "nan"
  end.

(** *** [float(str)] *)

Definition lower (c : ascii) : ascii :=
  let n := Py.code c in
  if (65 <=? n) && (n <=? 90) then ascii_of_N (Z.to_N (n + 32)) else c.

Fixpoint lower_str (s : string) : string :=
  match s with
  | EmptyString => EmptyString
  | String c t => String (lower c) (lower_str t)
  end.

(** The whitespace [float] strips: the C locale's [isspace]. *)
Definition c_isspace (c : ascii) : bool :=
  let n := Py.code c in ((9 <=? n) && (n <=? 13)) || (n =? 32).

(** Characters from 127 up are replaced before parsing: a space by [" "],
    anything else by ["?"]. (A decimal digit of another script would be
    replaced by its ASCII digit; there is none among the characters below
    256.) *)
Definition to_ascii (c : ascii) : ascii :=
  if Py.code c <? 127 then c else if Py.isspace c then " "%char else "?"%char.

Fixpoint to_ascii_str (s : string) : string :=
  match s with
  | EmptyString => EmptyString
  | String c t => String (to_ascii c) (to_ascii_str t)
  end.

(** Underscores may only stand between two digits; they are removed.
    [prev] is the previous character. *)
Fixpoint drop_underscores (prev : ascii) (s : string) : option string :=
  match s with
  | EmptyString => if Ascii.eqb prev "_" then None else Some EmptyString
  | String c t =>
      if Ascii.eqb c "_" then
        if Py.isdigit prev then drop_underscores c t else None
      else if Ascii.eqb prev "_" && negb (Py.isdigit c) then None
      else match drop_underscores c t with
           | Some r => Some (String c r)
           | None => None
           end
  end.

Fixpoint rstrip_c (s : string) : string :=
  match s with
  | EmptyString => EmptyString
  | String c t =>
      match rstrip_c t with
      | EmptyString => if c_isspace c then EmptyString else String c EmptyString
      | t' => String c t'
      end
  end.

Fixpoint lstrip_c (s : string) : string :=
  match s with
  | EmptyString => EmptyString
  | String c t => if c_isspace c then lstrip_c t else s
  end.

(** The value of a string of decimal digits. *)
Fixpoint digits_val (acc : N) (s : string) : N :=
  match s with
  | EmptyString => acc
  | String c t => digits_val (acc * 10 + (N_of_ascii c - 48))%N t
  end.

(** An optional sign; [true] is ["-"]. *)
Definition take_sign (s : string) : bool * string :=
  match s with
  | String "-" t => (true, t)
  | String "+" t => (false, t)
  | _ => (false, s)
  end.

(** The optional exponent part, which must reach the end of the text. *)
Definition parse_exponent (s : string) : option Z :=
  match s with
  | EmptyString => Some 0
  | String c t =>
      if Ascii.eqb (lower c) "e" then
        let '(neg, t1) := take_sign t in
        let '(ds, t2) := Py.span Py.isdigit t1 in
        match ds, t2 with
        | String _ _, EmptyString =>
            Some (cond_Zopp neg (Z.of_N (digits_val 0 ds)))
        | _, _ => None
        end
      else None
  end.

(** A stripped, underscore-free text: sign, then [inf], [infinity], [nan]
    or a decimal numeral with an optional exponent. *)
Definition parse_number (s : string) : option float :=
  let '(neg, t) := take_sign s in
  let w := lower_str t in
  if String.eqb w "inf" || String.eqb w "infinity" then Some (S754_infinity neg)
  else if String.eqb w "nan" then Some S754_nan
  else
    let '(ip, t1) := Py.span Py.isdigit t in
    let '(fp, t2) :=
      match t1 with
      | String "." r => Py.span Py.isdigit r
      | _ => (EmptyString, t1)
      end in
    match ip ++ fp with
    | EmptyString => None
    | ds =>
        match parse_exponent t2 with
        | Some ex => Some (of_decimal neg (digits_val 0 ds) (ex - Py.len fp))
        | None => None
        end
    end.

(** [float(s)]; a text that is not a number raises [ValueError]. *)
Definition of_str (s : string) : res float :=
  match drop_underscores "000" (to_ascii_str s) with
  | None => Err (PyExc "ValueError" s)
  | Some t =>
      match parse_number (rstrip_c (lstrip_c t)) with
      | Some x => Ok x
      | None => Err (PyExc "ValueError" s)
      end
  end.

End PyFloat.

Import PyFloat.

Definition quote : string := String "034" EmptyString.
Definition newline : string := String "010" EmptyString.

(** ** Machine configuration *)

(** Steps per millimetre. *)
Definition calfactor : float := of_decimal false 13333 (-2).

(** Hard clip step limits. *)
Definition xmax : Z := 42000.
Definition ymax : Z := 24000.

(** Board start offset. *)
Definition xoff : float := of_decimal false 1 (-1).
Definition yoff : float := of_decimal false 1 (-1).

(** Milling feed in um/s, spindle speed in krpm. *)
Definition mill_feed : Z := 12000.
Definition spindle_speed : Z := 32.

(** ** Translator state *)

(** The global [mode] holds ['abs'] at start and is only ever assigned
    ['abs'] or ['rel'] (by [change_mode], called from [parse_line]). *)
Inductive Mode : Type := Abs | Rel.

Definition Mode_eqb (a b : Mode) : bool :=
  match a, b with
  | Abs, Abs | Rel, Rel => true
  | _, _ => false
  end.

(** The globals the parse functions read and write: [mode],
    [drill_dwell], and the position accumulators [parse_move.x] and
    [parse_move.y], which [parse_move] creates with value 0 on its first
    call. *)
Record globals : Type := mkGlobals {
  mode : Mode;
  drill_dwell : float;
  pos_x : Z;
  pos_y : Z
}.

Definition initial : globals :=
  {| mode := Abs; drill_dwell := of_decimal false 7 (-1); pos_x := 0; pos_y := 0 |}.

(** A parse function returns its HPGL text and the updated globals. *)
Definition parsed : Type := res (string * globals).

(** ** Parse functions *)

Local Open Scope res_scope.

Definition change_units (new : string) : res unit :=
  if String.eqb new "in" then Err (PyExc "Exception" "inch unit is unsupported")
  else Ok tt.

(** The text [change_mode] returns when it leaves relative mode. *)
Definition sync_marker : string :=
  "OS;" ++ newline ++ "CO " ++ quote ++ "wait for position response" ++ quote ++ newline.

Definition change_mode (new : Mode) (g : globals) : string * globals :=
  let hpgl := "" in
  if Mode_eqb (mode g) new then (hpgl, g)
  else
    let hpgl := if Mode_eqb (mode g) Rel then sync_marker else hpgl in
    (hpgl, {| mode := new; drill_dwell := drill_dwell g;
              pos_x := pos_x g; pos_y := pos_y g |}).

(** The two groups of the pattern of [parse_move] matched at the start of
    [gcode]: G0, then 0 or 1, then a space and X, a greedy run of
    non-space characters (group 1), a space and Y, a greedy run of
    non-space characters (group 2), then anything. A greedy run of
    non-space characters followed by a literal space cannot give characters
    back, so each group is the maximal run. *)
Definition match_xy (gcode : string) : option (string * string) :=
  match Py.strip_prefix "G0" gcode with
  | Some (String d r) =>
      if Ascii.eqb d "0" || Ascii.eqb d "1" then
        match Py.strip_prefix " X" r with
        | Some r1 =>
            let '(g1, r2) := Py.span (fun c => negb (Py.isspace c)) r1 in
            match Py.strip_prefix " Y" r2 with
            | Some r3 =>
                let '(g2, _) := Py.span (fun c => negb (Py.isspace c)) r3 in
                Some (g1, g2)
            | None => None
            end
        | None => None
        end
      else None
  | _ => None
  end.

(** The group of the pattern of [parse_z]: G0, then 0 or 1, then a space
    and Z, a greedy run of non-space characters (the group), then
    anything. *)
Definition match_z (gcode : string) : option string :=
  match Py.strip_prefix "G0" gcode with
  | Some (String d r) =>
      if Ascii.eqb d "0" || Ascii.eqb d "1" then
        match Py.strip_prefix " Z" r with
        | Some r1 => Some (fst (Py.span (fun c => negb (Py.isspace c)) r1))
        | None => None
        end
      else None
  | _ => None
  end.

(** The two groups of the pattern of [parse_tool_change]: M06, a space
    and T, a greedy run of digits (group 1), a space and an opening
    parenthesis, a greedy run of any characters but a newline (group 2), a
    closing parenthesis, then anything. Group 2 ends before the last
    closing parenthesis on the first line of the text. *)
Definition match_tool (gcode : string) : option (string * string) :=
  match Py.strip_prefix "M06 T" gcode with
  | Some r =>
      let '(g1, r1) := Py.span Py.isdigit r in
      match Py.strip_prefix " (" r1 with
      | Some r2 =>
          let seg := fst (Py.span (fun c => negb (Ascii.eqb c "010")) r2) in
          let k := Py.rfind ")" seg in
          if k <? 0 then None else Some (g1, Py.slice seg None (Some k))
      | None => None
      end
  | None => None
  end.

(** [xycmd.group(n)] on [None]. *)
Definition no_match : exn :=
  PyExc "AttributeError" "'NoneType' object has no attribute 'group'".

(** [int(calfactor * (off + float(text)))] *)
Definition device_coord (off : float) (text : string) : res Z :=
  v <- of_str text ;; to_int (mul calfactor (add off v)).

(** [int(calfactor * (float(text)))] *)
Definition device_delta (text : string) : res Z :=
  v <- of_str text ;; to_int (mul calfactor v).

Definition parse_move (gcode : string) (g : globals) : parsed :=
  match match_xy gcode with
  | None => Err no_match
  | Some (g1, g2) =>
      match mode g with
      | Abs =>
          newx <- device_coord xoff g1 ;;
          newy <- device_coord yoff g2 ;;
          if newx >? xmax then Err (SystemExit 12)
          else if newy >? ymax then Err (SystemExit 12)
          else
            let hpgl := "PA" ++ Py.fmt_d newx ++ "," ++ Py.fmt_d newy ++ ";" in
            Ok (hpgl, {| mode := mode g; drill_dwell := drill_dwell g;
                         pos_x := pos_x g + newx; pos_y := pos_y g + newy |})
      | Rel =>
          newx <- device_delta g1 ;;
          newy <- device_delta g2 ;;
          if pos_x g + newx >? xmax then Err (SystemExit 12)
          else if pos_y g + newy >? ymax then Err (SystemExit 12)
          else
            let hpgl := "PR" ++ Py.fmt_d (pos_x g + newx) ++ ","
                             ++ Py.fmt_d (pos_y g + newy) ++ ";" in
            Ok (hpgl, {| mode := mode g; drill_dwell := drill_dwell g;
                         pos_x := pos_x g + newx; pos_y := pos_y g + newy |})
      end
  end.

(** ['!TW%.0f;' % (t * 1000)] *)
Definition timed_wait (t : float) : string :=
  "!TW" ++ fmt_0f (mul t (of_int 1000)) ++ ";".

(** [parse_dwell(line)]: the operand is what follows the first [P], or
    the whole line when it has none. *)
Definition parse_dwell (line : string) : res string :=
  t <- of_str (Py.slice line (Some (Py.find "P" line + 1)) None) ;;
  Ok (timed_wait t).

(** [parse_z] calls [parse_dwell('G04 P%s' % drill_dwell)]: the operand
    read back is the text [str] gives for the float [drill_dwell], and
    [float(str(d))] is [d] for every float, so the call returns
    [timed_wait drill_dwell]. When [newz] is a NaN neither test holds and
    [hpgl] is unbound at the [return]. *)
Definition parse_z (gcode : string) (drill : bool) (g : globals) : res string :=
  match match_z gcode with
  | None => Err no_match
  | Some g1 =>
      newz <- of_str g1 ;;
      if le newz (S754_zero false) then
        Ok ("PD;" ++ (if drill then timed_wait (drill_dwell g) else ""))
      else if gt newz (S754_zero false) then Ok "PU;"
      else Err (PyExc "UnboundLocalError" "hpgl")
  end.

Definition parse_tool_change (gcode : string) (g : globals) : parsed :=
  match match_tool gcode with
  | None => Err no_match
  | Some (g1, g2) =>
      let tool := Py.strip g1 in
      let size := Py.strip g2 in
      let hpgl := "PA0,0;" ++ newline ++ "CO " ++ quote ++ "Insert tool #" ++ tool
                  ++ ": size " ++ size ++ quote ++ newline in
      if String.eqb size "routing" || String.eqb size "milling" then Ok (hpgl, g)
      else
        v <- of_str size ;;
        Ok (hpgl, {| mode := mode g; drill_dwell := mul (of_int 20) v;
                     pos_x := pos_x g; pos_y := pos_y g |})
  end.

Definition parse_spindle (start : bool) : string :=
  if start then "!OC;!RM" ++ Py.fmt_d spindle_speed ++ ";!CC;"
  else "!RM0;".

Definition parse_line (line : string) (drill : bool) (g : globals) : parsed :=
  let hpgl := "" in
  if Py.startswith line "G20" then
    _ <- change_units "in" ;; Ok (hpgl, g)
  else if Py.startswith line "G21" then
    _ <- change_units "mm" ;; Ok (hpgl, g)
  else if Py.startswith line "G90" then Ok (change_mode Abs g)
  else if Py.startswith line "G91" then Ok (change_mode Rel g)
  else if Py.startswith line "G00" || Py.startswith line "G01" then
    if Py.contains "Z" line then
      hpgl <- parse_z line drill g ;; Ok (hpgl, g)
    else parse_move line g
  else if Py.startswith line "G04" then
    hpgl <- parse_dwell line ;; Ok (hpgl, g)
  else if Py.startswith line "M03" then Ok (parse_spindle true, g)
  else if Py.startswith line "M05" then Ok (parse_spindle false, g)
  else if Py.startswith line "M06" then parse_tool_change line g
  else Ok (hpgl, g).

(** ** Job sequencing: the first half of [main] *)

(** A G-code file that [glob] found: its path and the lines that iterating
    over the open file yields, for a file that [open] opens and whose
    bytes are text. *)
Record gfile : Type := mkFile {
  path : string;
  lines : list string
}.

(** The three lists [main] globs for. *)
Record job : Type := mkJob {
  drills : list gfile;
  routes : list gfile;
  mills : list gfile
}.

(** The text written to [hpgl_file] before the first phase. *)
Definition preamble : string :=
  "IN;!CT1;VS" ++ Py.fmt_d mill_feed ++ ";!OC;!SV140;!SM32;!WR0,8,8;!CC;!CM1;".

(** The three writes between the first-side traces and the other side. *)
Definition flip_boundary : string :=
  parse_spindle false ++ "PU;"
  ++ (newline ++ "CO " ++ quote ++ "Please flip board." ++ quote ++ newline).

(** The last write. *)
Definition postamble : string := "!OC;!RM0;!CC;PU;".

(** [layer]: characters -11 to -8 of the drill file's path, or ['top']. *)
Definition layer (j : job) : string :=
  match drills j with
  | d :: _ => Py.slice (path d) (Some (-11)) (Some (-8))
  | [] => "top"
  end.

(** [olayer = ('top', 'bot')[layer == 'top']], or ['bot'] without a drill
    file. *)
Definition olayer (j : job) : string :=
  match drills j with
  | _ :: _ => if String.eqb (layer j) "top" then "bot" else "top"
  | [] => "bot"
  end.

(** [[f for f in files if side in f]] *)
Definition on_side (side : string) (files : list gfile) : list gfile :=
  filter (fun f => Py.contains side (path f)) files.

(** [[f for f in files if side in f][0]] *)
Definition first_on_side (side : string) (files : list gfile) : res gfile :=
  match on_side side files with
  | f :: _ => Ok f
  | [] => Err (PyExc "IndexError" "list index out of range")
  end.

(** The state of the sequencing: the translator's globals and the text
    written to [hpgl_file] so far. *)
Definition gen_state : Type := (globals * string)%type.

(** One turn of a [for line in f] loop. *)
Definition run_line (drill : bool) (raw : string) (st : gen_state) : res gen_state :=
  let line := Py.strip raw in
  if Py.startswith line "(" then Ok st
  else
    r <- parse_line line drill (fst st) ;;
    Ok (snd r, snd st ++ fst r).

Fixpoint run_lines (drill : bool) (ls : list string) (st : gen_state) : res gen_state :=
  match ls with
  | [] => Ok st
  | raw :: rest => st' <- run_line drill raw st ;; run_lines drill rest st'
  end.

(** [hpgl_file.write(text)] *)
Definition write (text : string) (st : gen_state) : gen_state :=
  (fst st, snd st ++ text).

(** [hpgl_file.write(parse_tool_change(gcode))] *)
Definition write_tool_change (gcode : string) (st : gen_state) : res gen_state :=
  r <- parse_tool_change gcode (fst st) ;;
  Ok (snd r, snd st ++ fst r).

Definition drill_phase (j : job) (st : gen_state) : res gen_state :=
  match drills j with
  | d :: _ => run_lines true (lines d) st
  | [] => Ok st
  end.

Definition near_route_phase (j : job) (st : gen_state) : res gen_state :=
  match routes j with
  | _ :: _ =>
      f <- first_on_side (layer j) (routes j) ;;
      st' <- write_tool_change "M06 T98 (routing )" st ;;
      run_lines false (lines f) st'
  | [] => Ok st
  end.

Definition far_route_phase (j : job) (st : gen_state) : res gen_state :=
  if (1 <? Z.of_nat (List.length (routes j))) then
    f <- first_on_side (olayer j) (routes j) ;;
    run_lines false (lines f) st
  else Ok st.

Definition mill_phase (j : job) (st : gen_state) : res gen_state :=
  match on_side (olayer j) (mills j) with
  | f :: _ =>
      st' <- write_tool_change "M06 T99 (milling )" st ;;
      run_lines false (lines f) st'
  | [] => Ok st
  end.

(** The HPGL generation of [main], from the check on the number of drill
    files to the last write: the final globals and the whole text of
    [hpgl_file]. *)
Definition generate (j : job) : res gen_state :=
  if (1 <? Z.of_nat (List.length (drills j))) then Err (SystemExit 10)
  else
    st1 <- drill_phase j (write preamble (initial, "")) ;;
    st2 <- near_route_phase j st1 ;;
    st3 <- far_route_phase j (write flip_boundary st2) ;;
    st4 <- mill_phase j st3 ;;
    Ok (write postamble st4).

(** The yellow warnings printed before the generation. *)
Definition warnings (j : job) : list string :=
  ((match mills j with [] => ["No milling layer present."] | _ => [] end)
   ++ (match drills j with [] => ["No drilling layer present."] | _ => [] end)
   ++ (match routes j with [] => ["No routing layer present."] | _ => [] end))%list.

(** ** Replay: the second half of [main] *)

(** What the operator and the serial line can observe. *)
Inductive event : Type :=
| Write (data : string)
| Sleep
| Read (count : Z)
| Report (error : bool) (hpgl response : string)
| Input (prompt : string).

(** What [ser.read] returns: [bytes] from a serial port; the [SerialDummy]
    of a dry run returns the [str] ['']. *)
Inductive reply : Type :=
| Bytes (b : string)
| Text (s : string).

(** The serial object: the number of bytes waiting at start and the reply
    to the n-th command written. *)
Record channel : Type := mkChannel {
  inWaiting : Z;
  replies : nat -> reply
}.

Definition SerialDummy : channel :=
  {| inWaiting := 0; replies := fun _ => Text "" |}.

(** The events of a piece of program, and the exception that ended it. *)
Definition trace : Type := (list event * option exn)%type.

Definition and_then (a b : trace) : trace :=
  match snd a with
  | Some _ => a
  | None => ((fst a ++ fst b)%list, snd b)
  end.

(** [tool_change(hpgl)]: the prompt is the text between the first and the
    last double quote. *)
Definition tool_change (hpgl : string) : trace :=
  let drill := Py.slice hpgl (Some (Py.find "034" hpgl + 1)) (Some (Py.rfind "034" hpgl)) in
  ([Input (drill ++ newline ++ "Press enter when done.")], None).

(** [send_cmd(ser, hpgl)], for the [n]-th command sent. [bytes(_, 'ascii')]
    and [decode('ascii')] raise on a character above 127, and a [str] has
    no [decode]. *)
Definition send_cmd (ser : channel) (n : nat) (hpgl : string) : trace :=
  if Py.isascii (hpgl ++ ";") then
    match replies ser n with
    | Bytes c =>
        if Py.isascii c then
          ([Write (hpgl ++ ";"); Sleep; Read 128; Report (Py.contains "E" c) hpgl c], None)
        else
          ([Write (hpgl ++ ";"); Sleep; Read 128], Some (PyExc "UnicodeDecodeError" c))
    | Text _ =>
        ([Write (hpgl ++ ";"); Sleep; Read 128],
         Some (PyExc "AttributeError" "'str' object has no attribute 'decode'"))
    end
  else ([], Some (PyExc "UnicodeEncodeError" (hpgl ++ ";"))).

Definition flip_prompt : string :=
  "Please flip board." ++ newline ++ "Press Enter when ready.".

Definition exit_prompt : string :=
  "Wait until plotter finishes and press enter to exit".

(** The commands of the two nested loops, in order: every line of the
    text, cut at the semicolons. *)
Definition commands (hpgl : string) : list string :=
  flat_map (Py.split ";") (Py.split "010" hpgl).

(** The body of the inner loop, over the commands that remain; [n]
    commands have been sent. *)
Fixpoint replay_commands (ser : channel) (n : nat) (cmds : list string) : trace :=
  match cmds with
  | [] => ([], None)
  | command :: rest =>
      if String.eqb command "" then replay_commands ser n rest
      else if Py.startswith command "CO" then
        if Py.contains "tool" command then
          and_then (tool_change command) (replay_commands ser n rest)
        else if Py.contains "flip" command then
          and_then ([Input flip_prompt], None) (replay_commands ser n rest)
        else replay_commands ser n rest
      else and_then (send_cmd ser n command) (replay_commands ser (S n) rest)
  end.

(** The machine control of [main] on the text read back from
    [hpgl_file]. *)
Definition replay (ser : channel) (hpgl : string) : trace :=
  and_then ([Read (inWaiting ser)], None)
    (and_then (replay_commands ser 0 (commands hpgl))
       ([Input exit_prompt], None)).

(** [hpgl_file]: the spooled temporary file when [args.save_hpgl] has its
    default value, or the file that [-o FILE] names, which [open] opens
    for writing or fails to open ([failure] is then its exception, an
    [OSError]). *)
Inductive output : Type :=
| Temp
| File (failure : option exn).

(** [open(args.save_hpgl, 'w')] *)
Definition open_output (out : output) : res unit :=
  match out with
  | File (Some e) => Err e
  | _ => Ok tt
  end.

(** [max_size] of the spooled temporary file: once its position is above
    this number, the file is rolled over from memory to a temporary file
    on disk, opened with the same mode, ['w']. The position is counted in
    characters, one byte each. *)
Definition max_size : Z := 10000000.

(** [hpgl_file.read()] on a file opened for writing only. *)
Definition not_readable : exn := PyExc "UnsupportedOperation" "not readable".

(** [hpgl_file.seek(0, 0)] and [hpgl_file.read()] after the writes: the
    text, from the spooled file while it is in memory; a file opened with
    mode ['w'] cannot be read. *)
Definition read_back (out : output) (text : string) : res string :=
  match out with
  | Temp => if max_size <? Py.len text then Err not_readable else Ok text
  | File _ => Err not_readable
  end.

(** [main]: [dry] is the [--dry-run] flag, [out] what [--output] selects,
    [port] the serial port opened when the run is not dry. The number of
    drill files is checked before [hpgl_file] is opened; the serial object
    is read once before the text is read back. *)
Definition main (dry : bool) (out : output) (port : channel) (j : job) : trace :=
  if (1 <? Z.of_nat (List.length (drills j))) then ([], Some (SystemExit 10))
  else
    match open_output out with
    | Err e => ([], Some e)
    | Ok _ =>
        match generate j with
        | Err e => ([], Some e)
        | Ok st =>
            let ser := if dry then SerialDummy else port in
            match read_back out (snd st) with
            | Ok hpgl => replay ser hpgl
            | Err e => ([Read (inWaiting ser)], Some e)
            end
        end
    end.

(** ** Notions used in the statements *)

(** The exact value of a finite float is [num x / den x]. *)
Definition num (x : float) : Z :=
  match x with
  | S754_finite s m e => cond_Zopp s (Zpos m * 2 ^ Z.max e 0)
  | _ => 0
  end.

Definition den (x : float) : Z :=
  match x with
  | S754_finite _ _ e => 2 ^ Z.max (- e) 0
  | _ => 1
  end.

Definition is_finite (x : float) : bool :=
  match x with
  | S754_zero _ | S754_finite _ _ _ => true
  | _ => false
  end.

(** The integer part of the exact value: toward zero, and toward minus
    infinity. *)
Definition truncation (x : float) : Z := Z.quot (num x) (den x).
Definition floor (x : float) : Z := Z.div (num x) (den x).

(** The integer nearest to the exact value, ties to even. *)
Definition nearest (x : float) : Z :=
  match x with
  | S754_finite s m e => cond_Zopp s (round_half_even m e)
  | _ => 0
  end.

(** The HPGL move command of a mode. *)
Definition move_command (m : Mode) (cx cy : Z) : string :=
  (match m with Abs => "PA" | Rel => "PR" end)
  ++ Py.fmt_d cx ++ "," ++ Py.fmt_d cy ++ ";".

(** The device coordinates [parse_move] checks against the bed and puts
    in its command: the scaled operands in absolute mode, the running
    totals in relative mode. *)
Definition target (g : globals) (g1 g2 : string) : res (Z * Z) :=
  match mode g with
  | Abs =>
      newx <- device_coord xoff g1 ;;
      newy <- device_coord yoff g2 ;;
      Ok (newx, newy)
  | Rel =>
      newx <- device_delta g1 ;;
      newy <- device_delta g2 ;;
      Ok (pos_x g + newx, pos_y g + newy)
  end.

Definition set_pos (g : globals) (x y : Z) : globals :=
  {| mode := mode g; drill_dwell := drill_dwell g; pos_x := x; pos_y := y |}.

Definition set_mode (g : globals) (m : Mode) : globals :=
  {| mode := m; drill_dwell := drill_dwell g; pos_x := pos_x g; pos_y := pos_y g |}.

(** The lines [parse_line] takes for a move. *)
Definition is_move (line : string) : bool :=
  Py.startswith line "G00" || Py.startswith line "G01".

(** The exceptions the parse functions can end with. *)
Definition translator_exn (e : exn) : Prop :=
  match e with
  | PyExc cls _ =>
      In cls ["Exception"; "AttributeError"; "ValueError"; "OverflowError";
              "UnboundLocalError"]
  | SystemExit code => code = 12
  end.

(** The exception the design document asks for on a malformed line. *)
Definition ParseError (line : string) : exn := PyExc "ParseError" line.

(** The non-empty commands of an HPGL text, those the replay loop acts on. *)
Definition units (hpgl : string) : list string :=
  filter (fun c => negb (String.eqb c "")) (commands hpgl).

(** A marker pseudo-command. *)
Definition is_marker (command : string) : bool := Py.startswith command "CO".

(** A marker the replay loop stops at for the operator. *)
Definition is_interactive (command : string) : bool :=
  is_marker command && (Py.contains "tool" command || Py.contains "flip" command).

(** A marker the replay loop passes over. *)
Definition is_dropped (command : string) : bool :=
  is_marker command && negb (Py.contains "tool" command || Py.contains "flip" command).

(** The data written to the serial object, and the prompts the operator
    answered, in order. *)
Definition written (t : trace) : list string :=
  flat_map (fun e => match e with Write d => [d] | _ => [] end) (fst t).

Definition prompts (t : trace) : list string :=
  flat_map (fun e => match e with Input p => [p] | _ => [] end) (fst t).

(** The prompt of an interactive marker. *)
Definition prompt_of (command : string) : string :=
  if Py.contains "tool" command then
    Py.slice command (Some (Py.find "034" command + 1)) (Some (Py.rfind "034" command))
    ++ newline ++ "Press enter when done."
  else flip_prompt.

(** A serial port whose replies are all ASCII bytes. *)
Definition replies_decodable (ser : channel) : Prop :=
  forall n, exists c, replies ser n = Bytes c /\ Py.isascii c = true.

(** A far-side source: a second routing file, or a milling file of the
    other layer. *)
Definition far_side_present (j : job) : bool :=
  (1 <? Z.of_nat (List.length (routes j)))
  || match on_side (olayer j) (mills j) with [] => false | _ :: _ => true end.

(** The sequencing before the flip boundary. *)
Definition near_side (j : job) : res gen_state :=
  if (1 <? Z.of_nat (List.length (drills j))) then Err (SystemExit 10)
  else
    st1 <- drill_phase j (write preamble (initial, "")) ;;
    near_route_phase j st1.

(** The steps of the sequencing, one after the other. *)
Inductive action : Type :=
| Line (drill : bool) (raw : string)
| Tool (gcode : string)
| Emit (text : string)
| Fail (e : exn).

Definition step (a : action) (st : gen_state) : res gen_state :=
  match a with
  | Line drill raw => run_line drill raw st
  | Tool gcode => write_tool_change gcode st
  | Emit text => Ok (write text st)
  | Fail e => Err e
  end.

Fixpoint run_actions (l : list action) (st : gen_state) : res gen_state :=
  match l with
  | [] => Ok st
  | a :: rest => st' <- step a st ;; run_actions rest st'
  end.

Definition file_actions (drill : bool) (f : res gfile) (before : list action) : list action :=
  match f with
  | Ok f => (before ++ map (Line drill) (lines f))%list
  | Err e => [Fail e]
  end.

(** The steps [main] takes for a job. *)
Definition plan (j : job) : list action :=
  if (1 <? Z.of_nat (List.length (drills j))) then [Fail (SystemExit 10)]
  else
    ([Emit preamble]
     ++ match drills j with
        | d :: _ => map (Line true) (lines d)
        | [] => []
        end
     ++ match routes j with
        | _ :: _ => file_actions false (first_on_side (layer j) (routes j))
                      [Tool "M06 T98 (routing )"]
        | [] => []
        end
     ++ [Emit flip_boundary]
     ++ (if (1 <? Z.of_nat (List.length (routes j)))
         then file_actions false (first_on_side (olayer j) (routes j)) []
         else [])
     ++ match on_side (olayer j) (mills j) with
        | f :: _ => Tool "M06 T99 (milling )" :: map (Line false) (lines f)
        | [] => []
        end
     ++ [Emit postamble])%list.

(** ** Notions used in the further properties *)

(** The two characters that end a command in the HPGL text. *)
Definition is_sep (c : ascii) : bool := Ascii.eqb c ";" || Ascii.eqb c "010".

(** A text that is empty or ends with a semicolon or a newline. *)
Fixpoint terminated (s : string) : bool :=
  match s with
  | EmptyString => true
  | String c t =>
      match t with
      | EmptyString => is_sep c
      | String _ _ => terminated t
      end
  end.

(** A text with neither a semicolon nor a newline in it. *)
Fixpoint no_sep (s : string) : bool :=
  match s with
  | EmptyString => true
  | String c t => negb (is_sep c) && no_sep t
  end.

(** The prefixes [parse_line] tests for, in its order. *)
Definition opcodes : list string :=
  ["G20"; "G21"; "G90"; "G91"; "G00"; "G01"; "G04"; "M03"; "M05"; "M06"].

(** A line that starts with none of them. *)
Definition unrecognized (line : string) : bool :=
  forallb (fun p => negb (Py.startswith line p)) opcodes.

(** Every write is followed by a pause and a read of at most 128 bytes. *)
Fixpoint paced (l : list event) : bool :=
  match l with
  | [] => true
  | Write _ :: l1 =>
      match l1 with
      | Sleep :: Read count :: l2 => (count =? 128) && paced l2
      | _ => false
      end
  | Sleep :: _ => false
  | _ :: l1 => paced l1
  end.

(** The positions after each of a list of displacements. *)
Fixpoint totals (x y : Z) (ds : list (Z * Z)) : list (Z * Z) :=
  match ds with
  | [] => []
  | (dx, dy) :: rest => (x + dx, y + dy) :: totals (x + dx) (y + dy) rest
  end.

(** The texts of a list, one after the other. *)
Fixpoint concat_text (l : list string) : string :=
  match l with
  | [] => ""
  | s :: rest => s ++ concat_text rest
  end.

(** The position after a list of displacements. *)
Definition final_total (x y : Z) (ds : list (Z * Z)) : Z * Z :=
  last (totals x y ds) (x, y).

(** Every character of a text satisfies [p]. *)
Fixpoint allc (p : ascii -> bool) (s : string) : bool :=
  match s with
  | EmptyString => true
  | String c t => p c && allc p t
  end.

(** The first, and the last, character of a text satisfies [p]. *)
Definition head_is (p : ascii -> bool) (s : string) : bool :=
  match s with
  | EmptyString => false
  | String c _ => p c
  end.

Fixpoint last_is (p : ascii -> bool) (s : string) : bool :=
  match s with
  | EmptyString => false
  | String c t =>
      match t with
      | EmptyString => p c
      | String _ _ => last_is p t
      end
  end.

(** The characters a text that [float] accepts can be made of, once the
    spaces around it are gone: digits, letters, signs, the point and the
    underscore. *)
Definition number_char (c : ascii) : bool :=
  let n := Py.code c in
  Py.isdigit c
  || ((65 <=? n) && (n <=? 90)) || ((97 <=? n) && (n <=? 122))
  || (n =? 43) || (n =? 45) || (n =? 46) || (n =? 95).

(** The two markers that are no tool change. *)
Definition flip_unit : string := "CO " ++ quote ++ "Please flip board." ++ quote.
Definition sync_unit : string :=
  "CO " ++ quote ++ "wait for position response" ++ quote.

(** A command at which the replay loop takes its second branch, the one
    that asks to flip the board. *)
Definition takes_flip_branch (u : string) : bool :=
  is_marker u && negb (Py.contains "tool" u) && Py.contains "flip" u.

(** A command of the phases: a device command, a marker with [tool] in
    it, or the marker of [change_mode]. *)
Definition phase_unit (u : string) : bool :=
  negb (is_marker u) || Py.contains "tool" u || String.eqb u sync_unit.

(** A text of the phases: it is empty or ends with a separator, and its
    commands are those of the phases. *)
Definition phase_text (s : string) : bool :=
  terminated s && forallb phase_unit (units s).

(** A command that the replay loop can pass on: a marker, which is never
    encoded, or ASCII text. *)
Definition sendable (u : string) : bool := is_marker u || Py.isascii u.

(** A text that is empty or ends with a separator, all of whose commands
    can be passed on. *)
Definition sendable_text (s : string) : bool :=
  terminated s && forallb sendable (units s).

(** * Properties *)

(** ** [int] of a float *)

Lemma shiftl_pos_exact (m : positive) (e : Z) :
  Z.shiftl (Zpos m) e = Z.quot (Zpos m * 2 ^ Z.max e 0) (2 ^ Z.max (- e) 0).
Proof.
  destruct (Z.le_gt_cases 0 e) as [He | He].
  - rewrite Z.max_l, Z.max_r by lia.
    rewrite Z.shiftl_mul_pow2 by assumption.
    change (2 ^ 0) with 1. now rewrite Z.quot_1_r.
  - rewrite Z.max_r, Z.max_l by lia.
    change (2 ^ 0) with 1. rewrite Z.mul_1_r.
    assert (Hp : 0 < 2 ^ (- e)) by (apply Z.pow_pos_nonneg; lia).
    rewrite Z.quot_div_nonneg by lia.
    replace e with (- (- e)) at 1 by lia.
    rewrite Z.shiftl_opp_r.
    apply Z.shiftr_div_pow2. lia.
Qed.

Lemma den_pos (x : float) : 0 < den x.
Proof.
  destruct x; simpl; try lia; apply Z.pow_pos_nonneg; lia.
Qed.

Lemma to_int_truncation (x : float) :
  is_finite x = true -> to_int x = Ok (truncation x).
Proof.
  destruct x as [s | s | | s m e]; simpl; try discriminate; intros _.
  - reflexivity.
  - f_equal. unfold truncation; simpl.
    rewrite shiftl_pos_exact.
    assert (Hp : 0 < 2 ^ Z.max (- e) 0) by (apply Z.pow_pos_nonneg; lia).
    destruct s; simpl; [ | reflexivity ].
    rewrite Z.quot_opp_l by lia. reflexivity.
Qed.

Lemma truncation_floor (x : float) : 0 <= num x -> truncation x = floor x.
Proof.
  intros H. unfold truncation, floor.
  apply Z.quot_div_nonneg; [ assumption | apply den_pos ].
Qed.

(** ** [parse_move] *)

Lemma gtb_false (a b : Z) : a <= b -> (a >? b) = false.
Proof. intros H. rewrite Z.gtb_ltb. apply Z.ltb_ge. assumption. Qed.

Lemma gtb_true (a b : Z) : b < a -> (a >? b) = true.
Proof. intros H. rewrite Z.gtb_ltb. apply Z.ltb_lt. assumption. Qed.

Lemma parse_move_abs (gcode g1 g2 : string) (g : globals) (newx newy : Z) :
  mode g = Abs ->
  match_xy gcode = Some (g1, g2) ->
  device_coord xoff g1 = Ok newx ->
  device_coord yoff g2 = Ok newy ->
  newx <= xmax -> newy <= ymax ->
  parse_move gcode g
  = Ok (move_command Abs newx newy, set_pos g (pos_x g + newx) (pos_y g + newy)).
Proof.
  intros Hm Hxy Hx Hy Bx By.
  unfold parse_move. rewrite Hxy, Hm, Hx. simpl. rewrite Hy. simpl.
  rewrite (gtb_false _ _ Bx), (gtb_false _ _ By).
  unfold set_pos. rewrite Hm. reflexivity.
Qed.

Lemma parse_move_rel (gcode g1 g2 : string) (g : globals) (newx newy : Z) :
  mode g = Rel ->
  match_xy gcode = Some (g1, g2) ->
  device_delta g1 = Ok newx ->
  device_delta g2 = Ok newy ->
  pos_x g + newx <= xmax -> pos_y g + newy <= ymax ->
  parse_move gcode g
  = Ok (move_command Rel (pos_x g + newx) (pos_y g + newy),
        set_pos g (pos_x g + newx) (pos_y g + newy)).
Proof.
  intros Hm Hxy Hx Hy Bx By.
  unfold parse_move. rewrite Hxy, Hm, Hx. simpl. rewrite Hy. simpl.
  rewrite (gtb_false _ _ Bx), (gtb_false _ _ By).
  unfold set_pos. rewrite Hm. reflexivity.
Qed.

(** What [parse_move] does with the coordinates it computes: it leaves
    with status 12 when one is above its limit and emits them otherwise. *)
Lemma parse_move_target (gcode g1 g2 : string) (g : globals) (cx cy : Z) :
  match_xy gcode = Some (g1, g2) ->
  target g g1 g2 = Ok (cx, cy) ->
  (xmax < cx \/ ymax < cy -> parse_move gcode g = Err (SystemExit 12))
  /\ (cx <= xmax /\ cy <= ymax ->
      exists g', parse_move gcode g = Ok (move_command (mode g) cx cy, g')).
Proof.
  intros Hxy Ht. unfold target in Ht. unfold parse_move. rewrite Hxy.
  destruct (mode g) eqn:Hm.
  - destruct (device_coord xoff g1) as [nx | e]; simpl in Ht; [ | discriminate ].
    destruct (device_coord yoff g2) as [ny | e]; simpl in Ht; [ | discriminate ].
    injection Ht as -> ->. simpl. split.
    + intros [H | H].
      * now rewrite (gtb_true _ _ H).
      * destruct (cx >? xmax); [ reflexivity | ]. now rewrite (gtb_true _ _ H).
    + intros [Bx By]. rewrite (gtb_false _ _ Bx), (gtb_false _ _ By).
      eexists. reflexivity.
  - destruct (device_delta g1) as [nx | e]; simpl in Ht; [ | discriminate ].
    destruct (device_delta g2) as [ny | e]; simpl in Ht; [ | discriminate ].
    injection Ht as <- <-. simpl. split.
    + intros [H | H].
      * now rewrite (gtb_true _ _ H).
      * destruct (pos_x g + nx >? xmax); [ reflexivity | ].
        now rewrite (gtb_true _ _ H).
    + intros [Bx By]. rewrite (gtb_false _ _ Bx), (gtb_false _ _ By).
      eexists. reflexivity.
Qed.

(** ** Mode changes *)

(** C1, as the code has it. Reissuing the current mode returns the empty
    text and changes nothing. Leaving relative mode for absolute mode
    returns the sync marker, whose only device command is [OS], and sets
    the mode. Entering relative mode from absolute mode returns the empty
    text and sets the mode. *)
Theorem change_mode_transitions (dw : float) (x y : Z) :
  (forall m, change_mode m (mkGlobals m dw x y) = ("", mkGlobals m dw x y))
  /\ change_mode Abs (mkGlobals Rel dw x y) = (sync_marker, mkGlobals Abs dw x y)
  /\ change_mode Rel (mkGlobals Abs dw x y) = ("", mkGlobals Rel dw x y)
  /\ units sync_marker
     = ["OS"; "CO " ++ quote ++ "wait for position response" ++ quote].
Proof.
  repeat split.
  intros []; reflexivity.
Qed.

(** C1 fails as stated: from absolute mode, the change to relative mode
    emits no command at all, and the change back to absolute mode emits
    the [OS] command with its marker. *)
Lemma change_mode_direction_counterexample :
  mode initial = Abs
  /\ units (fst (change_mode Rel initial)) = []
  /\ mode (snd (change_mode Rel initial)) = Rel
  /\ units (fst (change_mode Abs (snd (change_mode Rel initial))))
     = ["OS"; "CO " ++ quote ++ "wait for position response" ++ quote].
Proof. repeat split. Qed.

(** ** Absolute moves *)

(** C2 on the code: the same in-bounds absolute move twice. Both calls
    emit [PA146,279;]; after the first the position is (146, 279), after
    the second it is (292, 558): the coordinates are added to the
    position, they do not replace it. *)
Theorem parse_move_abs_adds_to_position :
  parse_move "G00 X1.0 Y2.0" initial
  = Ok ("PA146,279;", set_pos initial 146 279)
  /\ parse_move "G00 X1.0 Y2.0" (set_pos initial 146 279)
     = Ok ("PA146,279;", set_pos initial 292 558).
Proof. split; vm_compute; reflexivity. Qed.

(** C7, as the code has it. In absolute mode each coordinate of the
    command is the product [calfactor * (offset + operand)], computed in
    floating point, with its fraction dropped (truncation toward zero);
    this is the floor of the product whenever the product is not
    negative, and it can be above the floor otherwise. The move
    [G00 X1.0 Y2.0] gives [PA146,279;]: its Y product, about 279.993, is
    not rounded to 280. For the operand -0.2 the product is about -13.333
    and its truncation -13 is above its floor. *)
Theorem absolute_move_truncates
    (gcode g1 g2 : string) (g : globals) (vx vy : float) :
  mode g = Abs ->
  match_xy gcode = Some (g1, g2) ->
  of_str g1 = Ok vx ->
  of_str g2 = Ok vy ->
  let px := mul calfactor (add xoff vx) in
  let py := mul calfactor (add yoff vy) in
  is_finite px = true ->
  is_finite py = true ->
  truncation px <= xmax ->
  truncation py <= ymax ->
  (exists g',
     parse_move gcode g
     = Ok (move_command Abs (truncation px) (truncation py), g'))
  /\ (0 <= num px -> truncation px = floor px)
  /\ (0 <= num py -> truncation py = floor py)
  /\ (exists g', parse_move "G00 X1.0 Y2.0" initial = Ok ("PA146,279;", g'))
  /\ (truncation (mul calfactor (add yoff (of_decimal false 20 (-1)))) = 279
      /\ nearest (mul calfactor (add yoff (of_decimal false 20 (-1)))) = 280)
  /\ (truncation (mul calfactor (add xoff (of_decimal true 2 (-1)))) = -13
      /\ floor (mul calfactor (add xoff (of_decimal true 2 (-1)))) = -14).
Proof.
  intros Hm Hxy Hx Hy px py Fx Fy Bx By.
  split; [ | split; [ | split; [ | split; [ | split ] ] ] ].
  - eexists. apply (parse_move_abs gcode g1 g2 g); try assumption.
    + unfold device_coord. rewrite Hx. simpl. apply to_int_truncation, Fx.
    + unfold device_coord. rewrite Hy. simpl. apply to_int_truncation, Fy.
  - apply truncation_floor.
  - apply truncation_floor.
  - eexists. vm_compute. reflexivity.
  - split; vm_compute; reflexivity.
  - split; vm_compute; reflexivity.
Qed.

(** The move of the design document: operands 1.0 and 2.0. *)
Lemma absolute_move_truncates_witness :
  exists g', parse_move "G00 X1.0 Y2.0" initial = Ok ("PA146,279;", g').
Proof.
  destruct (absolute_move_truncates "G00 X1.0 Y2.0" "1.0" "2.0" initial
              (of_decimal false 10 (-1)) (of_decimal false 20 (-1)))
    as [H _]; try (vm_compute; reflexivity); try (vm_compute; discriminate).
  exact H.
Defined.

(** C7 fails as stated: the absolute move to X = -0.2 is within the bed
    limits, its X product [calfactor * (xoff + -0.2)] is about -13.333,
    whose floor is -14, and the coordinate in the command is -13. *)
Lemma negative_product_counterexample :
  mode initial = Abs
  /\ match_xy "G00 X-0.2 Y0" = Some ("-0.2", "0")
  /\ of_str "-0.2" = Ok (of_decimal true 2 (-1))
  /\ floor (mul calfactor (add xoff (of_decimal true 2 (-1)))) = -14
  /\ parse_move "G00 X-0.2 Y0" initial
     = Ok ("PA-13,13;", set_pos initial (-13) 13)
  /\ move_command Abs (-13) 13
     <> move_command Abs
          (floor (mul calfactor (add xoff (of_decimal true 2 (-1))))) 13.
Proof.
  repeat split; try (vm_compute; reflexivity).
  vm_compute. discriminate.
Qed.

(** ** Relative moves *)

(** C3. An in-bounds relative move emits [PR] with the running totals and
    leaves the position at these totals. The total of an axis is the
    position before the move plus the scaled delta of the move, which is
    the product [calfactor * operand], computed in floating point, with
    its fraction dropped. From position (146, 279) the move by 2 and 5
    millimetres, whose scaled deltas are 266 and 666, emits [PR412,945;],
    not [PR266,666;], and leaves the position at (412, 945). *)
Theorem relative_move_running_total
    (gcode g1 g2 : string) (g : globals) (vx vy : float) :
  mode g = Rel ->
  match_xy gcode = Some (g1, g2) ->
  of_str g1 = Ok vx ->
  of_str g2 = Ok vy ->
  let dx := truncation (mul calfactor vx) in
  let dy := truncation (mul calfactor vy) in
  is_finite (mul calfactor vx) = true ->
  is_finite (mul calfactor vy) = true ->
  pos_x g + dx <= xmax ->
  pos_y g + dy <= ymax ->
  (exists g',
     parse_move gcode g
     = Ok (move_command Rel (pos_x g + dx) (pos_y g + dy), g')
     /\ pos_x g' = pos_x g + dx
     /\ pos_y g' = pos_y g + dy)
  /\ (truncation (mul calfactor (of_decimal false 2 0)) = 266
      /\ truncation (mul calfactor (of_decimal false 5 0)) = 666)
  /\ parse_move "G01 X2 Y5" (mkGlobals Rel (drill_dwell initial) 146 279)
     = Ok ("PR412,945;", mkGlobals Rel (drill_dwell initial) 412 945).
Proof.
  intros Hm Hxy Hx Hy dx dy Fx Fy Bx By.
  split; [ | split; [ split | ]; vm_compute; reflexivity ].
  exists (set_pos g (pos_x g + dx) (pos_y g + dy)).
  split; [ | split; reflexivity ].
  apply (parse_move_rel gcode g1 g2); try assumption.
  - unfold device_delta. rewrite Hx. simpl. apply to_int_truncation, Fx.
  - unfold device_delta. rewrite Hy. simpl. apply to_int_truncation, Fy.
Qed.

(** From position (146, 279) the move by 2 and 5 millimetres, 266 and
    666 steps, emits the totals and not the deltas. *)
Lemma relative_move_running_total_witness :
  exists g',
    parse_move "G01 X2 Y5" (mkGlobals Rel (drill_dwell initial) 146 279)
    = Ok ("PR412,945;", g')
    /\ pos_x g' = 412 /\ pos_y g' = 945.
Proof.
  destruct (relative_move_running_total "G01 X2 Y5" "2" "5"
              (mkGlobals Rel (drill_dwell initial) 146 279)
              (of_decimal false 2 0) (of_decimal false 5 0))
    as [H _]; try (vm_compute; reflexivity); try (vm_compute; discriminate).
  exact H.
Defined.

(** ** The bounds check *)

(** C9. With the coordinates [parse_move] computes, the run is left with
    status 12 exactly when one of them is strictly above its maximum.
    There is no lower bound: a coordinate that is zero or negative is put
    in the command as it is, the other one being at most its maximum. *)
Theorem bounds_check_is_upper_only
    (gcode g1 g2 : string) (g : globals) (cx cy : Z) :
  match_xy gcode = Some (g1, g2) ->
  target g g1 g2 = Ok (cx, cy) ->
  (parse_move gcode g = Err (SystemExit 12) <-> (xmax < cx \/ ymax < cy))
  /\ (cx <= 0 -> cy <= ymax ->
      exists g', parse_move gcode g = Ok (move_command (mode g) cx cy, g'))
  /\ (cy <= 0 -> cx <= xmax ->
      exists g', parse_move gcode g = Ok (move_command (mode g) cx cy, g')).
Proof.
  intros Hxy Ht.
  destruct (parse_move_target gcode g1 g2 g cx cy Hxy Ht) as [Hout Hin].
  split; [ split | split ].
  - intros He.
    destruct (Z.le_gt_cases cx xmax) as [Bx | Bx]; [ | now left ].
    destruct (Z.le_gt_cases cy ymax) as [By | By]; [ | now right ].
    destruct (Hin (conj Bx By)) as [g' Hg]. rewrite Hg in He. discriminate.
  - exact Hout.
  - intros Hx Hy. apply Hin. unfold xmax. lia.
  - intros Hy Hx. apply Hin. unfold ymax. lia.
Qed.

(** A move to negative coordinates on both axes. *)
Lemma bounds_check_is_upper_only_witness :
  (parse_move "G00 X-0.2 Y-5" initial = Err (SystemExit 12)
   <-> (xmax < -13 \/ ymax < -653))
  /\ (-13 <= 0 -> -653 <= ymax ->
      exists g', parse_move "G00 X-0.2 Y-5" initial = Ok ("PA-13,-653;", g'))
  /\ (-653 <= 0 -> -13 <= xmax ->
      exists g', parse_move "G00 X-0.2 Y-5" initial = Ok ("PA-13,-653;", g')).
Proof.
  apply (bounds_check_is_upper_only "G00 X-0.2 Y-5" "-0.2" "-5" initial (-13) (-653));
    vm_compute; reflexivity.
Defined.

(** ** Dispatch in [parse_line] *)

Lemma strip_prefix_app (p s r : string) :
  Py.strip_prefix p s = Some r -> s = p ++ r.
Proof.
  revert s. induction p as [ | a p IH ]; intros s H; simpl in H.
  - now injection H as ->.
  - destruct s as [ | b s ]; [ discriminate | ].
    destruct (Ascii.eqb_spec a b) as [-> | ]; [ | discriminate ].
    simpl. f_equal. now apply IH.
Qed.

Lemma startswith_app (s p : string) :
  Py.startswith s p = true -> exists r, s = p ++ r.
Proof.
  revert s. induction p as [ | a p IH ]; intros s H.
  - exists s. reflexivity.
  - destruct s as [ | b s ]; simpl in H; [ discriminate | ].
    destruct (Ascii.eqb_spec a b) as [-> | ]; [ | discriminate ].
    destruct (IH s H) as [r ->]. exists r. reflexivity.
Qed.

Lemma is_move_shape (line : string) :
  is_move line = true ->
  exists r, line = "G00" ++ r \/ line = "G01" ++ r.
Proof.
  unfold is_move. intros H. apply orb_true_iff in H.
  destruct H as [H | H]; apply startswith_app in H; destruct H as [r ->];
    exists r; [ now left | now right ].
Qed.

Lemma parse_line_move (line : string) (drill : bool) (g : globals) :
  is_move line = true ->
  parse_line line drill g
  = if Py.contains "Z" line
    then res_bind (parse_z line drill g) (fun hpgl => Ok (hpgl, g))
    else parse_move line g.
Proof.
  intros H. destruct (is_move_shape line H) as [r [-> | ->]]; reflexivity.
Qed.

Lemma parse_line_dwell (line : string) (drill : bool) (g : globals) :
  Py.startswith line "G04" = true ->
  parse_line line drill g
  = res_bind (parse_dwell line) (fun hpgl => Ok (hpgl, g)).
Proof.
  intros H. destruct (startswith_app line _ H) as [r ->]. reflexivity.
Qed.

Lemma parse_line_tool (line : string) (drill : bool) (g : globals) :
  Py.startswith line "M06" = true ->
  parse_line line drill g = parse_tool_change line g.
Proof.
  intros H. destruct (startswith_app line _ H) as [r ->]. reflexivity.
Qed.

Lemma match_xy_is_move (line g1 g2 : string) :
  match_xy line = Some (g1, g2) -> is_move line = true.
Proof.
  unfold match_xy. intros H.
  destruct (Py.strip_prefix "G0" line) as [ [ | d r ] | ] eqn:Hp; try discriminate.
  apply strip_prefix_app in Hp. subst line.
  destruct (Ascii.eqb_spec d "0") as [-> | ]; [ reflexivity | ].
  destruct (Ascii.eqb_spec d "1") as [-> | ]; [ reflexivity | discriminate ].
Qed.

(** ** The exceptions of the translator *)

Lemma of_str_error (s : string) (e : exn) :
  of_str s = Err e -> e = PyExc "ValueError" s.
Proof.
  unfold of_str.
  destruct (drop_underscores _ _) as [t | ]; [ | now intros [= <-] ].
  destruct (parse_number _); [ discriminate | now intros [= <-] ].
Qed.

Lemma to_int_error (x : float) (e : exn) :
  to_int x = Err e -> translator_exn e.
Proof.
  destruct x; simpl; intros [= <-]; simpl; tauto.
Qed.

Lemma scaled_error (off : option float) (s : string) (e : exn) :
  match off with
  | Some o => device_coord o s
  | None => device_delta s
  end = Err e ->
  translator_exn e.
Proof.
  unfold device_coord, device_delta.
  destruct off; destruct (of_str s) as [v | e'] eqn:Hs; simpl; intros H;
    try (apply to_int_error in H; exact H);
    injection H as <-; apply of_str_error in Hs; subst; simpl; tauto.
Qed.

Lemma parse_move_error (gcode : string) (g : globals) (e : exn) :
  parse_move gcode g = Err e -> translator_exn e.
Proof.
  unfold parse_move, no_match.
  destruct (match_xy gcode) as [ [g1 g2] | ]; [ | intros [= <-]; simpl; tauto ].
  destruct (mode g).
  - destruct (device_coord xoff g1) as [nx | ex] eqn:Hx; simpl;
      [ | intros [= <-]; exact (scaled_error (Some xoff) g1 ex Hx) ].
    destruct (device_coord yoff g2) as [ny | ey] eqn:Hy; simpl;
      [ | intros [= <-]; exact (scaled_error (Some yoff) g2 ey Hy) ].
    destruct (nx >? xmax); [ intros [= <-]; reflexivity | ].
    destruct (ny >? ymax); [ intros [= <-]; reflexivity | discriminate ].
  - destruct (device_delta g1) as [nx | ex] eqn:Hx; simpl;
      [ | intros [= <-]; exact (scaled_error None g1 ex Hx) ].
    destruct (device_delta g2) as [ny | ey] eqn:Hy; simpl;
      [ | intros [= <-]; exact (scaled_error None g2 ey Hy) ].
    destruct (pos_x g + nx >? xmax); [ intros [= <-]; reflexivity | ].
    destruct (pos_y g + ny >? ymax); [ intros [= <-]; reflexivity | discriminate ].
Qed.

Lemma parse_z_error (gcode : string) (drill : bool) (g : globals) (e : exn) :
  parse_z gcode drill g = Err e -> translator_exn e.
Proof.
  unfold parse_z, no_match.
  destruct (match_z gcode) as [g1 | ]; [ | intros [= <-]; simpl; tauto ].
  destruct (of_str g1) as [v | e'] eqn:Hs; simpl.
  - destruct (le v _); [ discriminate | ].
    destruct (gt v _); [ discriminate | ].
    intros [= <-]; simpl; tauto.
  - intros [= <-]. apply of_str_error in Hs. subst. simpl. tauto.
Qed.

Lemma parse_dwell_error (line : string) (e : exn) :
  parse_dwell line = Err e -> translator_exn e.
Proof.
  unfold parse_dwell.
  destruct (of_str _) as [v | e'] eqn:Hs; simpl; [ discriminate | ].
  intros [= <-]. apply of_str_error in Hs. subst. simpl. tauto.
Qed.

Lemma parse_tool_change_error (gcode : string) (g : globals) (e : exn) :
  parse_tool_change gcode g = Err e -> translator_exn e.
Proof.
  unfold parse_tool_change, no_match.
  destruct (match_tool gcode) as [ [g1 g2] | ]; [ | intros [= <-]; simpl; tauto ].
  destruct (_ || _); [ discriminate | ].
  destruct (of_str _) as [v | e'] eqn:Hs; simpl; [ discriminate | ].
  intros [= <-]. apply of_str_error in Hs. subst. simpl. tauto.
Qed.

Lemma parse_line_error (line : string) (drill : bool) (g : globals) (e : exn) :
  parse_line line drill g = Err e -> translator_exn e.
Proof.
  unfold parse_line.
  destruct (Py.startswith line "G20");
    [ simpl; intros [= <-]; simpl; tauto | ].
  destruct (Py.startswith line "G21"); [ discriminate | ].
  destruct (Py.startswith line "G90"); [ discriminate | ].
  destruct (Py.startswith line "G91"); [ discriminate | ].
  destruct (_ || _).
  - destruct (Py.contains "Z" line).
    + destruct (parse_z line drill g) as [h | e'] eqn:Hz; simpl; [ discriminate | ].
      intros [= <-]. now apply parse_z_error in Hz.
    + apply parse_move_error.
  - destruct (Py.startswith line "G04").
    + destruct (parse_dwell line) as [h | e'] eqn:Hd; simpl; [ discriminate | ].
      intros [= <-]. now apply parse_dwell_error in Hd.
    + destruct (Py.startswith line "M03"); [ discriminate | ].
      destruct (Py.startswith line "M05"); [ discriminate | ].
      destruct (Py.startswith line "M06"); [ | discriminate ].
      apply parse_tool_change_error.
Qed.

(** ** Malformed lines *)

(** C4, as the code has it. No line makes the translator raise a
    [ParseError]. A move, dwell or tool-change line whose operands do not
    have the expected shape ends the run with a built-in exception: an
    [AttributeError] when the line does not match the pattern of its
    command (there is no match object to take the groups from), a
    [ValueError] when the operand is not the text of a number. *)
Theorem malformed_line_raises_builtin_exception
    (line : string) (drill : bool) (g : globals) :
  (forall arg, parse_line line drill g <> Err (PyExc "ParseError" arg))
  /\ (is_move line = true -> Py.contains "Z" line = false ->
      (match_xy line = None -> parse_line line drill g = Err no_match)
      /\ (forall g1 g2 e, match_xy line = Some (g1, g2) -> of_str g1 = Err e ->
          parse_line line drill g = Err (PyExc "ValueError" g1))
      /\ (forall g1 g2 newx e, match_xy line = Some (g1, g2) ->
          match mode g with
          | Abs => device_coord xoff g1
          | Rel => device_delta g1
          end = Ok newx ->
          of_str g2 = Err e ->
          parse_line line drill g = Err (PyExc "ValueError" g2)))
  /\ (is_move line = true -> Py.contains "Z" line = true ->
      (match_z line = None -> parse_line line drill g = Err no_match)
      /\ (forall g1 e, match_z line = Some g1 -> of_str g1 = Err e ->
          parse_line line drill g = Err (PyExc "ValueError" g1)))
  /\ (Py.startswith line "G04" = true ->
      forall e,
        of_str (Py.slice line (Some (Py.find "P" line + 1)) None) = Err e ->
        parse_line line drill g
        = Err (PyExc "ValueError" (Py.slice line (Some (Py.find "P" line + 1)) None)))
  /\ (Py.startswith line "M06" = true ->
      (match_tool line = None -> parse_line line drill g = Err no_match)
      /\ (forall g1 g2 e, match_tool line = Some (g1, g2) ->
          Py.strip g2 <> "routing" -> Py.strip g2 <> "milling" ->
          of_str (Py.strip g2) = Err e ->
          parse_line line drill g = Err (PyExc "ValueError" (Py.strip g2)))).
Proof.
  split; [ | split; [ | split; [ | split ] ] ].
  - intros arg H. apply parse_line_error in H. simpl in H.
    repeat (destruct H as [H | H]; [ discriminate | ]). exact H.
  - intros Hm Hz. rewrite (parse_line_move line drill g Hm), Hz.
    split; [ | split ].
    + intros Hxy. unfold parse_move. now rewrite Hxy.
    + intros g1 g2 e Hxy Hs. pose proof (of_str_error _ _ Hs) as ->.
      unfold parse_move, device_coord, device_delta. rewrite Hxy, Hs.
      now destruct (mode g).
    + intros g1 g2 newx e Hxy Hx Hs. pose proof (of_str_error _ _ Hs) as ->.
      unfold parse_move. rewrite Hxy.
      destruct (mode g); rewrite Hx; simpl;
        unfold device_coord, device_delta; now rewrite Hs.
  - intros Hm Hz. rewrite (parse_line_move line drill g Hm), Hz. split.
    + intros Hn. unfold parse_z. now rewrite Hn.
    + intros g1 e Hn Hs. pose proof (of_str_error _ _ Hs) as ->.
      unfold parse_z. now rewrite Hn, Hs.
  - intros Hd e Hs. pose proof (of_str_error _ _ Hs) as ->.
    rewrite (parse_line_dwell line drill g Hd). unfold parse_dwell.
    now rewrite Hs.
  - intros Ht. rewrite (parse_line_tool line drill g Ht). split.
    + intros Hn. unfold parse_tool_change. now rewrite Hn.
    + intros g1 g2 e Hn Hr Hmi Hs. pose proof (of_str_error _ _ Hs) as ->.
      unfold parse_tool_change. rewrite Hn.
      apply String.eqb_neq in Hr, Hmi. rewrite Hr, Hmi. simpl.
      now rewrite Hs.
Qed.

(** One malformed line for each case. *)
Lemma malformed_line_raises_builtin_exception_witness :
  parse_line "G00 X1.0" false initial = Err no_match
  /\ parse_line "G01 Xa Y2" false initial = Err (PyExc "ValueError" "a")
  /\ parse_line "G01 X1 Z2" false initial = Err no_match
  /\ parse_line "G01 Z" false initial = Err (PyExc "ValueError" "")
  /\ parse_line "G04" false initial = Err (PyExc "ValueError" "G04")
  /\ parse_line "M06 T1" false initial = Err no_match
  /\ parse_line "M06 T1 (big)" false initial = Err (PyExc "ValueError" "big").
Proof.
  split; [ | split; [ | split; [ | split; [ | split; [ | split ] ] ] ] ].
  - destruct (malformed_line_raises_builtin_exception "G00 X1.0" false initial)
      as (_ & H & _).
    destruct (H eq_refl eq_refl) as [H1 _]. apply H1. reflexivity.
  - destruct (malformed_line_raises_builtin_exception "G01 Xa Y2" false initial)
      as (_ & H & _).
    destruct (H eq_refl eq_refl) as (_ & H2 & _).
    apply (H2 "a" "2" (PyExc "ValueError" "a")); reflexivity.
  - destruct (malformed_line_raises_builtin_exception "G01 X1 Z2" false initial)
      as (_ & _ & H & _).
    destruct (H eq_refl eq_refl) as [H1 _]. apply H1. reflexivity.
  - destruct (malformed_line_raises_builtin_exception "G01 Z" false initial)
      as (_ & _ & H & _).
    destruct (H eq_refl eq_refl) as [_ H2].
    apply (H2 "" (PyExc "ValueError" "")); reflexivity.
  - destruct (malformed_line_raises_builtin_exception "G04" false initial)
      as (_ & _ & _ & H & _).
    apply (H eq_refl (PyExc "ValueError" "G04")). reflexivity.
  - destruct (malformed_line_raises_builtin_exception "M06 T1" false initial)
      as (_ & _ & _ & _ & H).
    destruct (H eq_refl) as [H1 _]. apply H1. reflexivity.
  - destruct (malformed_line_raises_builtin_exception "M06 T1 (big)" false initial)
      as (_ & _ & _ & _ & H).
    destruct (H eq_refl) as [_ H2].
    apply (H2 "1" "big" (PyExc "ValueError" "big"));
      try reflexivity; discriminate.
Defined.

(** C4 fails as stated: a move without its Y operand, a tool change
    without its size, a Z move and a dwell without a number all end with
    a built-in exception, which is not a [ParseError] carrying the line. *)
Lemma missing_operand_counterexample :
  (parse_line "G00 X1.0" false initial = Err no_match
   /\ no_match <> ParseError "G00 X1.0")
  /\ (parse_line "M06 T1" false initial = Err no_match
      /\ no_match <> ParseError "M06 T1")
  /\ (parse_line "G01 Z" false initial = Err (PyExc "ValueError" "")
      /\ PyExc "ValueError" "" <> ParseError "G01 Z")
  /\ (parse_line "G04" false initial = Err (PyExc "ValueError" "G04")
      /\ PyExc "ValueError" "G04" <> ParseError "G04").
Proof. repeat split; discriminate. Qed.

(** ** Sequencing *)

Lemma append_assoc (a b c : string) : (a ++ b) ++ c = a ++ (b ++ c).
Proof. induction a as [ | x a IH ]; simpl; [ reflexivity | now rewrite IH ]. Qed.

Lemma append_nil_r (a : string) : a ++ "" = a.
Proof. induction a as [ | x a IH ]; simpl; [ reflexivity | now rewrite IH ]. Qed.

Lemma run_actions_app (l1 l2 : list action) (st : gen_state) :
  run_actions (l1 ++ l2) st = res_bind (run_actions l1 st) (run_actions l2).
Proof.
  revert st. induction l1 as [ | a l1 IH ]; intros st; simpl; [ reflexivity | ].
  destruct (step a st) as [st' | e]; simpl; [ apply IH | reflexivity ].
Qed.

Lemma run_lines_actions (drill : bool) (ls : list string) (st : gen_state) :
  run_lines drill ls st = run_actions (map (Line drill) ls) st.
Proof.
  revert st. induction ls as [ | raw ls IH ]; intros st; simpl; [ reflexivity | ].
  destruct (run_line drill raw st) as [st' | e]; simpl; [ apply IH | reflexivity ].
Qed.

(** [main] generates the HPGL text by taking the steps of [plan] in
    order. *)
Lemma generate_plan (j : job) :
  generate j = run_actions (plan j) (initial, "").
Proof.
  unfold generate, plan.
  destruct (1 <? Z.of_nat (List.length (drills j))); [ reflexivity | ].
  rewrite run_actions_app. simpl.
  rewrite run_actions_app.
  replace (run_actions match drills j with
                       | [] => []
                       | d :: _ => map (Line true) (lines d)
                       end (write preamble (initial, "")))
    with (drill_phase j (write preamble (initial, "")))
    by (unfold drill_phase; destruct (drills j);
        [ reflexivity | apply run_lines_actions ]).
  destruct (drill_phase j _) as [st1 | e]; simpl; [ | reflexivity ].
  rewrite run_actions_app.
  replace (run_actions match routes j with
                       | [] => []
                       | _ :: _ =>
                           file_actions false (first_on_side (layer j) (routes j))
                             [Tool "M06 T98 (routing )"]
                       end st1)
    with (near_route_phase j st1).
  2:{ unfold near_route_phase. destruct (routes j); [ reflexivity | ].
      destruct (first_on_side _ _) as [f | e]; simpl; [ | reflexivity ].
      apply run_lines_actions. }
  destruct (near_route_phase j st1) as [st2 | e]; simpl; [ | reflexivity ].
  rewrite run_actions_app.
  replace (run_actions (if 1 <? Z.of_nat (List.length (routes j))
                        then file_actions false
                               (first_on_side (olayer j) (routes j)) []
                        else []) (write flip_boundary st2))
    with (far_route_phase j (write flip_boundary st2)).
  2:{ unfold far_route_phase.
      destruct (1 <? Z.of_nat (List.length (routes j))); [ | reflexivity ].
      destruct (first_on_side _ _) as [f | e]; simpl;
        [ apply run_lines_actions | reflexivity ]. }
  destruct (far_route_phase j _) as [st3 | e]; simpl; [ | reflexivity ].
  rewrite run_actions_app.
  replace (run_actions match on_side (olayer j) (mills j) with
                       | [] => []
                       | f :: _ =>
                           Tool "M06 T99 (milling )" :: map (Line false) (lines f)
                       end st3)
    with (mill_phase j st3).
  2:{ unfold mill_phase. destruct (on_side _ _); [ reflexivity | ]. simpl.
      apply run_lines_actions. }
  destruct (mill_phase j st3) as [st4 | e]; reflexivity.
Qed.

(** A line that is an XY move reaches [parse_move]. *)
Lemma run_line_move (drill : bool) (raw g1 g2 : string) (st : gen_state) :
  match_xy (Py.strip raw) = Some (g1, g2) ->
  Py.contains "Z" (Py.strip raw) = false ->
  run_line drill raw st
  = res_bind (parse_move (Py.strip raw) (fst st))
      (fun r => Ok (snd r, snd st ++ fst r)).
Proof.
  intros Hxy Hz. unfold run_line.
  pose proof (match_xy_is_move _ _ _ Hxy) as Hm.
  rewrite (parse_line_move _ drill (fst st) Hm), Hz.
  destruct (is_move_shape _ Hm) as [r [-> | ->]]; reflexivity.
Qed.

(** The phases only add to the text. *)
Lemma run_lines_appends (drill : bool) (ls : list string) (st st' : gen_state) :
  run_lines drill ls st = Ok st' -> exists t, snd st' = snd st ++ t.
Proof.
  revert st. induction ls as [ | raw ls IH ]; intros st; simpl.
  - intros [= <-]. exists "". now rewrite append_nil_r.
  - destruct (run_line drill raw st) as [st1 | e] eqn:H1; simpl; [ | discriminate ].
    intros H. destruct (IH _ H) as [t Ht]. unfold run_line in H1.
    destruct (Py.startswith (Py.strip raw) "(").
    + injection H1 as <-. now exists t.
    + destruct (parse_line _ _ _) as [r | e]; simpl in H1; [ | discriminate ].
      injection H1 as <-. simpl in Ht. exists (fst r ++ t).
      now rewrite Ht, append_assoc.
Qed.

Lemma write_tool_change_appends (gcode : string) (st st' : gen_state) :
  write_tool_change gcode st = Ok st' -> exists t, snd st' = snd st ++ t.
Proof.
  unfold write_tool_change.
  destruct (parse_tool_change _ _) as [r | e]; simpl; [ | discriminate ].
  intros [= <-]. now exists (fst r).
Qed.

Lemma far_route_phase_appends (j : job) (st st' : gen_state) :
  far_route_phase j st = Ok st' -> exists t, snd st' = snd st ++ t.
Proof.
  unfold far_route_phase.
  destruct (1 <? _).
  - destruct (first_on_side _ _) as [f | e]; simpl; [ | discriminate ].
    apply run_lines_appends.
  - intros [= <-]. exists "". now rewrite append_nil_r.
Qed.

Lemma mill_phase_appends (j : job) (st st' : gen_state) :
  mill_phase j st = Ok st' -> exists t, snd st' = snd st ++ t.
Proof.
  unfold mill_phase.
  destruct (on_side _ _) as [ | f l ].
  - intros [= <-]. exists "". now rewrite append_nil_r.
  - destruct (write_tool_change _ st) as [st1 | e] eqn:H1; simpl; [ | discriminate ].
    intros H. apply write_tool_change_appends in H1. destruct H1 as [t1 H1].
    apply run_lines_appends in H. destruct H as [t2 H2].
    exists (t1 ++ t2). now rewrite H2, H1, append_assoc.
Qed.

Lemma generate_near_side (j : job) :
  generate j
  = res_bind (near_side j) (fun st2 =>
      res_bind (far_route_phase j (write flip_boundary st2)) (fun st3 =>
        res_bind (mill_phase j st3) (fun st4 => Ok (write postamble st4)))).
Proof.
  unfold generate, near_side.
  destruct (1 <? _); [ reflexivity | ].
  destruct (drill_phase j _) as [st1 | e]; reflexivity.
Qed.

(** C5, as the code has it. The flip boundary is written for every job,
    with or without a far-side source: the text of a completed generation
    is the text of the near side, the flip boundary, what the far-side
    phases add, and the postamble. Without a far-side source the far-side
    phases add nothing, and the generation completes as soon as the near
    side does. The milling warning is printed exactly when no milling
    file was found at all. *)
Theorem flip_boundary_is_always_written (j : job) :
  (forall st, generate j = Ok st ->
     exists st2 far,
       near_side j = Ok st2
       /\ snd st = snd st2 ++ flip_boundary ++ far ++ postamble)
  /\ (far_side_present j = false ->
      generate j
      = res_bind (near_side j) (fun st2 =>
          Ok (fst st2, snd st2 ++ flip_boundary ++ postamble)))
  /\ (In "No milling layer present." (warnings j) <-> mills j = []).
Proof.
  split; [ | split ].
  3:{ unfold warnings.
      destruct (mills j), (drills j), (routes j); simpl; split;
        intros H; try reflexivity; try discriminate; try tauto;
        repeat (destruct H as [H | H]; try discriminate); contradiction. }
  - intros st. rewrite generate_near_side.
    destruct (near_side j) as [st2 | e]; simpl; [ | discriminate ].
    destruct (far_route_phase j _) as [st3 | e] eqn:H3; simpl; [ | discriminate ].
    destruct (mill_phase j st3) as [st4 | e] eqn:H4; simpl; [ | discriminate ].
    intros [= <-].
    apply far_route_phase_appends in H3. destruct H3 as [t3 H3].
    apply mill_phase_appends in H4. destruct H4 as [t4 H4].
    exists st2, (t3 ++ t4). split; [ reflexivity | ].
    simpl. rewrite H4, H3. simpl. now rewrite !append_assoc.
  - unfold far_side_present. intros H. apply orb_false_iff in H.
    destruct H as [Hr Hm].
    rewrite generate_near_side.
    destruct (near_side j) as [st2 | e]; simpl; [ | reflexivity ].
    unfold far_route_phase, mill_phase. rewrite Hr. simpl.
    destruct (on_side _ _); [ | discriminate ].
    unfold write. simpl. now rewrite append_assoc.
Qed.

(** The job without any file. *)
Lemma flip_boundary_is_always_written_witness :
  generate (mkJob [] [] [])
  = Ok (initial, preamble ++ flip_boundary ++ postamble).
Proof.
  destruct (flip_boundary_is_always_written (mkJob [] [] [])) as (_ & H & _).
  rewrite (H eq_refl). reflexivity.
Defined.

(** C5 fails as stated: a single-sided board, with a drill file and the
    traces of the same side only, has no far-side source, and the flip
    boundary is in its text all the same. *)
Lemma flip_without_far_side_counterexample :
  let j := mkJob [mkFile "b.top.drill.g" ["G00 X1.0 Y2.0"]]
                 [mkFile "b.top.etch.g" ["G01 X2 Y2"]] [] in
  far_side_present j = false
  /\ exists g, generate j
     = Ok (g, preamble ++ "PA146,279;"
              ++ ("PA0,0;" ++ newline ++ "CO " ++ quote
                  ++ "Insert tool #98: size routing" ++ quote ++ newline)
              ++ "PA279,279;" ++ flip_boundary ++ postamble).
Proof. split; [ reflexivity | eexists; vm_compute; reflexivity ]. Qed.

(** [main] once its output file is open: a generation that fails ends
    the run, a generation that completes is read back and replayed. *)
Lemma main_generate_error
    (dry : bool) (out : output) (port : channel) (j : job) (e : exn) :
  open_output out = Ok tt ->
  generate j = Err e ->
  main dry out port j = ([], Some e).
Proof.
  intros Ho Hg. unfold main. unfold generate in Hg.
  destruct (1 <? Z.of_nat (List.length (drills j))) eqn:Hl.
  - now injection Hg as <-.
  - rewrite Ho. unfold generate. rewrite Hl, Hg. reflexivity.
Qed.

Lemma main_generate_ok
    (dry : bool) (out : output) (port : channel) (j : job) (st : gen_state) :
  open_output out = Ok tt ->
  generate j = Ok st ->
  main dry out port j
  = match read_back out (snd st) with
    | Ok hpgl => replay (if dry then SerialDummy else port) hpgl
    | Err e => ([Read (inWaiting (if dry then SerialDummy else port))], Some e)
    end.
Proof.
  intros Ho Hg. unfold main. rewrite Ho, Hg.
  unfold generate in Hg.
  destruct (1 <? Z.of_nat (List.length (drills j))); [ discriminate | reflexivity ].
Qed.

(** C6. When the sequencing reaches an XY move for which a coordinate
    [parse_move] computes is above its bed limit, [parse_move] leaves with
    status 12; whatever lines and phases come after it, the generation
    ends there with that status, and [main], with the temporary file or
    with an output file it could open, ends with it before its replay
    part: nothing is written to the serial object and the operator is not
    prompted. *)
Theorem out_of_bounds_move_aborts_run
    (j : job) (dry : bool) (out : output) (port : channel)
    (pre post : list action)
    (drill : bool) (raw g1 g2 : string) (st : gen_state) (cx cy : Z) :
  plan j = (pre ++ Line drill raw :: post)%list ->
  run_actions pre (initial, "") = Ok st ->
  Py.contains "Z" (Py.strip raw) = false ->
  match_xy (Py.strip raw) = Some (g1, g2) ->
  target (fst st) g1 g2 = Ok (cx, cy) ->
  xmax < cx \/ ymax < cy ->
  parse_move (Py.strip raw) (fst st) = Err (SystemExit 12)
  /\ generate j = Err (SystemExit 12)
  /\ (open_output out = Ok tt ->
      main dry out port j = ([], Some (SystemExit 12))).
Proof.
  intros Hplan Hpre Hz Hxy Ht Hout.
  destruct (parse_move_target _ _ _ _ _ _ Hxy Ht) as [Hexit _].
  specialize (Hexit Hout).
  assert (Hgen : generate j = Err (SystemExit 12)).
  { rewrite generate_plan, Hplan, run_actions_app, Hpre. simpl.
    rewrite (run_line_move drill raw g1 g2 st Hxy Hz), Hexit. reflexivity. }
  split; [ exact Hexit | split; [ exact Hgen | ] ].
  intros Ho. exact (main_generate_error _ _ _ _ _ Ho Hgen).
Qed.

(** The second line of a drill file moves to X = 400 mm, beyond the bed;
    a third line and a routing file follow. *)
Lemma out_of_bounds_move_aborts_run_witness :
  let j := mkJob [mkFile "b.top.drill.g"
                    ["G00 X1.0 Y2.0"; "G00 X400 Y2.0"; "G00 X1 Y1"]]
                 [mkFile "b.top.etch.g" ["G01 X2 Y2"]] [] in
  parse_move "G00 X400 Y2.0" (set_pos initial 146 279) = Err (SystemExit 12)
  /\ generate j = Err (SystemExit 12)
  /\ main false Temp (mkChannel 0 (fun _ => Bytes "")) j
     = ([], Some (SystemExit 12)).
Proof.
  intros j.
  destruct (out_of_bounds_move_aborts_run j false Temp
              (mkChannel 0 (fun _ => Bytes ""))
              [Emit preamble; Line true "G00 X1.0 Y2.0"]
              (tl (tl (tl (plan j))))
              true "G00 X400 Y2.0" "400" "2.0"
              (set_pos initial 146 279, preamble ++ "PA146,279;") 53345 279)
    as (H1 & H2 & H3);
    try (vm_compute; reflexivity).
  - left. vm_compute. reflexivity.
  - split; [ exact H1 | split; [ exact H2 | exact (H3 eq_refl) ] ].
Defined.

(** ** Replay *)

#[local] Arguments Py.startswith : simpl never.
#[local] Arguments Py.contains : simpl never.
#[local] Arguments Py.slice : simpl never.
#[local] Arguments String.eqb : simpl never.

Lemma isascii_app (a b : string) :
  Py.isascii (a ++ b) = Py.isascii a && Py.isascii b.
Proof.
  induction a as [ | c a IH ]; simpl; [ reflexivity | ].
  now rewrite IH, andb_assoc.
Qed.

Lemma append_semicolon_inj (a b : string) : a ++ ";" = b ++ ";" -> a = b.
Proof.
  revert b. induction a as [ | c a IH ]; intros [ | d b ]; simpl; intros H.
  - reflexivity.
  - injection H as _ H. destruct b; discriminate.
  - injection H as _ H. destruct a; discriminate.
  - injection H as -> H. f_equal. now apply IH.
Qed.

Lemma written_app (l1 l2 : list event) (c1 c2 c3 : option exn) :
  written ((l1 ++ l2)%list, c1) = (written (l1, c2) ++ written (l2, c3))%list.
Proof. unfold written. simpl. apply flat_map_app. Qed.

Lemma prompts_app (l1 l2 : list event) (c1 c2 c3 : option exn) :
  prompts ((l1 ++ l2)%list, c1) = (prompts (l1, c2) ++ prompts (l2, c3))%list.
Proof. unfold prompts. simpl. apply flat_map_app. Qed.

Lemma written_and_then (a b : trace) (d : string) :
  In d (written (and_then a b)) -> In d (written a) \/ In d (written b).
Proof.
  unfold and_then. destruct a as [la [e | ]]; simpl; [ now left | ].
  destruct b as [lb cb]. simpl.
  rewrite (written_app la lb cb None cb). apply in_app_or.
Qed.

Lemma written_send_cmd (ser : channel) (n : nat) (hpgl d : string) :
  In d (written (send_cmd ser n hpgl)) -> d = hpgl ++ ";".
Proof.
  unfold send_cmd.
  destruct (Py.isascii (hpgl ++ ";")); [ | intros [] ].
  destruct (replies ser n) as [c | s]; [ destruct (Py.isascii c) | ];
    simpl; intros [H | []]; now symmetry.
Qed.

(** Whatever the serial object replies, the data written is a command of
    the text that is not a marker, followed by a semicolon. *)
Lemma replay_commands_written (ser : channel) (cmds : list string) :
  forall (n : nat) (d : string),
    In d (written (replay_commands ser n cmds)) ->
    exists u, In u cmds /\ u <> "" /\ is_marker u = false /\ d = u ++ ";".
Proof.
  induction cmds as [ | c rest IH ]; intros n d; simpl; [ intros [] | ].
  assert (Hrest : forall m, In d (written (replay_commands ser m rest)) ->
            exists u, (c = u \/ In u rest) /\ u <> "" /\ is_marker u = false
                      /\ d = u ++ ";").
  { intros m H. destruct (IH m d H) as (u & Hu & Hrem). exists u. tauto. }
  destruct (String.eqb_spec c "") as [ | Hne ]; [ apply Hrest | ].
  destruct (Py.startswith c "CO") eqn:Hco.
  - destruct (Py.contains "tool" c).
    + intros H. apply written_and_then in H. destruct H as [[] | H].
      now apply (Hrest n).
    + destruct (Py.contains "flip" c); [ | apply Hrest ].
      intros H. apply written_and_then in H. destruct H as [[] | H].
      now apply (Hrest n).
  - intros H. apply written_and_then in H. destruct H as [H | H].
    + apply written_send_cmd in H. exists c. unfold is_marker. tauto.
    + now apply (Hrest (S n)).
Qed.

Lemma prompt_of_tool (c : string) :
  Py.contains "tool" c = true ->
  prompt_of c
  = Py.slice c (Some (Py.find "034" c + 1)) (Some (Py.rfind "034" c))
    ++ newline ++ "Press enter when done.".
Proof. unfold prompt_of. now intros ->. Qed.

Lemma prompt_of_flip (c : string) :
  Py.contains "tool" c = false -> prompt_of c = flip_prompt.
Proof. unfold prompt_of. now intros ->. Qed.

(** With replies that decode and commands that encode, every command is
    sent and every interactive marker prompts, in order. *)
Lemma replay_commands_healthy (ser : channel) (cmds : list string) :
  replies_decodable ser ->
  Forall (fun u => is_marker u = false -> Py.isascii u = true) cmds ->
  forall n,
    snd (replay_commands ser n cmds) = None
    /\ written (replay_commands ser n cmds)
       = map (fun u => u ++ ";")
           (filter (fun u => negb (is_marker u))
              (filter (fun c => negb (String.eqb c "")) cmds))
    /\ prompts (replay_commands ser n cmds)
       = map prompt_of
           (filter is_interactive
              (filter (fun c => negb (String.eqb c "")) cmds)).
Proof.
  intros Hser Hall. induction Hall as [ | c rest Hc Hall IH ]; intros n.
  - repeat split.
  - simpl. destruct (String.eqb_spec c "") as [ | Hne ]; simpl; [ apply IH | ].
    unfold is_interactive, is_marker.
    destruct (Py.startswith c "CO") eqn:Hco; simpl.
    + destruct (Py.contains "tool" c) eqn:Htool; simpl.
      * destruct (IH n) as (H1 & H2 & H3).
        destruct (replay_commands ser n rest) as [l cr]. simpl in H1. subst cr.
        unfold and_then, tool_change. simpl. repeat split.
        -- exact H2.
        -- unfold prompts in *. simpl in *.
           now rewrite H3, ?(prompt_of_tool c Htool), ?(prompt_of_flip c Htool).
      * destruct (Py.contains "flip" c) eqn:Hflip; simpl; [ | apply IH ].
        destruct (IH n) as (H1 & H2 & H3).
        destruct (replay_commands ser n rest) as [l cr]. simpl in H1. subst cr.
        unfold and_then. simpl. repeat split.
        -- exact H2.
        -- unfold prompts in *. simpl in *.
           now rewrite H3, ?(prompt_of_tool c Htool), ?(prompt_of_flip c Htool).
    + destruct (IH (S n)) as (H1 & H2 & H3).
      destruct (replay_commands ser (S n) rest) as [l cr]. simpl in H1. subst cr.
      unfold send_cmd. rewrite isascii_app, (Hc Hco). simpl.
      destruct (Hser n) as (r & -> & ->).
      unfold and_then. simpl. repeat split.
      * unfold written in *. simpl in *. now rewrite H2.
      * exact H3.
Qed.

Lemma replay_unfold (ser : channel) (hpgl : string) :
  replay ser hpgl
  = match snd (replay_commands ser 0 (commands hpgl)) with
    | Some e => (Read (inWaiting ser) :: fst (replay_commands ser 0 (commands hpgl)), Some e)
    | None =>
        ((Read (inWaiting ser) :: fst (replay_commands ser 0 (commands hpgl)))
           ++ [Input exit_prompt], None)%list
    end.
Proof.
  unfold replay, and_then.
  destruct (replay_commands ser 0 (commands hpgl)) as [l [e | ]]; reflexivity.
Qed.

(** C8, as the code has it. On every serial object, whatever is written
    is a command of the text that is not a marker, with its semicolon, so
    that a marker is never written. When every reply is ASCII bytes and
    the commands are ASCII text, the replay runs to its end, writes every
    command that is not a marker, in order, and prompts the operator at
    every marker with [tool] or [flip] in it, then once more at the end. *)
Theorem markers_are_never_written (ser : channel) (hpgl : string) :
  (forall d, In d (written (replay ser hpgl)) ->
     exists u, In u (units hpgl) /\ is_marker u = false /\ d = u ++ ";")
  /\ (forall u, is_marker u = true -> ~ In (u ++ ";") (written (replay ser hpgl)))
  /\ (replies_decodable ser ->
      Forall (fun u => is_marker u = false -> Py.isascii u = true) (units hpgl) ->
      snd (replay ser hpgl) = None
      /\ written (replay ser hpgl)
         = map (fun u => u ++ ";")
             (filter (fun u => negb (is_marker u)) (units hpgl))
      /\ prompts (replay ser hpgl)
         = (map prompt_of (filter is_interactive (units hpgl))
            ++ [exit_prompt])%list).
Proof.
  assert (Hw : written (replay ser hpgl)
               = written (replay_commands ser 0 (commands hpgl))).
  { rewrite replay_unfold.
    destruct (replay_commands ser 0 (commands hpgl)) as [l [e | ]];
      unfold written; simpl; [ reflexivity | ].
    rewrite flat_map_app. simpl. now rewrite app_nil_r. }
  assert (Hsound : forall d, In d (written (replay ser hpgl)) ->
            exists u, In u (units hpgl) /\ is_marker u = false /\ d = u ++ ";").
  { intros d. rewrite Hw. intros H.
    destruct (replay_commands_written ser _ 0 d H) as (u & Hin & Hne & Hm & ->).
    exists u. repeat split; try assumption.
    unfold units. apply filter_In. split; [ assumption | ].
    apply negb_true_iff. now apply String.eqb_neq. }
  split; [ exact Hsound | split ].
  - intros u Hu Hin. destruct (Hsound _ Hin) as (u' & _ & Hm & Heq).
    apply append_semicolon_inj in Heq. subst u'. congruence.
  - intros Hser Hall.
    assert (Hall' : Forall (fun u => is_marker u = false -> Py.isascii u = true)
                      (commands hpgl)).
    { apply Forall_forall. intros u Hu Hm.
      destruct (String.eqb_spec u "") as [-> | Hne]; [ reflexivity | ].
      rewrite Forall_forall in Hall. apply Hall; [ | assumption ].
      unfold units. apply filter_In. split; [ assumption | ].
      apply negb_true_iff. now apply String.eqb_neq. }
    destruct (replay_commands_healthy ser _ Hser Hall' 0) as (H1 & H2 & H3).
    split; [ | split ].
    + rewrite replay_unfold, H1. reflexivity.
    + now rewrite Hw, H2.
    + rewrite replay_unfold, H1. unfold prompts in *. simpl.
      rewrite flat_map_app, H3. reflexivity.
Qed.

(** A text with a tool change, a move, the flip boundary and a mode
    change, on a port that replies with no bytes. *)
Lemma markers_are_never_written_witness :
  let ser := mkChannel 0 (fun _ => Bytes "") in
  let hpgl := "PA0,0;" ++ newline ++ "CO " ++ quote
              ++ "Insert tool #01: size 0.035" ++ quote ++ newline
              ++ "PA146,279;" ++ flip_boundary ++ sync_marker in
  snd (replay ser hpgl) = None
  /\ written (replay ser hpgl) = ["PA0,0;"; "PA146,279;"; "!RM0;"; "PU;"; "OS;"]
  /\ prompts (replay ser hpgl)
     = ["Insert tool #01: size 0.035" ++ newline ++ "Press enter when done.";
        flip_prompt; exit_prompt].
Proof.
  intros ser hpgl.
  destruct (markers_are_never_written ser hpgl) as (_ & _ & H).
  apply H.
  - intros n. exists "". split; reflexivity.
  - vm_compute. repeat constructor.
Defined.

(** C8 fails as stated: a reply with a byte above 127 ends the replay of
    the text of an empty job at its first command; the second command,
    [!CT1], is not a marker and is never written. *)
Lemma undecodable_reply_counterexample :
  let port := mkChannel 0 (fun _ => Bytes (String "255" "")) in
  let j := mkJob [] [] [] in
  generate j = Ok (initial, preamble ++ flip_boundary ++ postamble)
  /\ In "!CT1" (units (preamble ++ flip_boundary ++ postamble))
  /\ is_marker "!CT1" = false
  /\ main false Temp port j
     = ([Read 0; Write "IN;"; Sleep; Read 128],
        Some (PyExc "UnicodeDecodeError" (String "255" "")))
  /\ ~ In "!CT1;" (written (main false Temp port j)).
Proof.
  intros port j.
  split; [ reflexivity | split; [ | split; [ reflexivity | split; [ reflexivity | ] ] ] ].
  - vm_compute. tauto.
  - vm_compute. intros [H | []]. discriminate.
Qed.

(** The dry run ends in the same way: the reply of [SerialDummy] is a
    [str], which has no [decode]. *)
Lemma dry_run_stops_at_first_reply (port : channel) :
  main true Temp port (mkJob [] [] [])
  = ([Read 0; Write "IN;"; Sleep; Read 128],
     Some (PyExc "AttributeError" "'str' object has no attribute 'decode'")).
Proof. reflexivity. Qed.

Lemma is_marker_nonempty (c : string) : is_marker c = true -> c <> "".
Proof. intros H ->. discriminate. Qed.

Lemma replay_commands_dropped (ser : channel) (n : nat) (u : string) (rest : list string) :
  is_dropped u = true ->
  replay_commands ser n (u :: rest) = replay_commands ser n rest.
Proof.
  unfold is_dropped, is_marker. intros H.
  apply andb_true_iff in H. destruct H as [Hco H].
  apply negb_true_iff, orb_false_iff in H. destruct H as [Ht Hf].
  simpl. rewrite Hco, Ht, Hf. now destruct (String.eqb u "").
Qed.

(** C10. A marker with neither [tool] nor [flip] in it leaves no trace in
    the replay: nothing is written for it and the operator is not
    prompted, the replay goes on with the next command, and the replay of
    a text is the replay of its commands without these markers. The marker
    that [change_mode] writes after [OS] is one of them. *)
Theorem markers_without_keyword_are_dropped
    (ser : channel) (n : nat) (cmds : list string) :
  (forall u rest,
     is_marker u = true ->
     Py.contains "tool" u = false ->
     Py.contains "flip" u = false ->
     replay_commands ser n (u :: rest) = replay_commands ser n rest)
  /\ replay_commands ser n cmds
     = replay_commands ser n (filter (fun c => negb (is_dropped c)) cmds)
  /\ commands sync_marker
     = ["OS"; ""; "CO " ++ quote ++ "wait for position response" ++ quote; ""]
  /\ is_dropped ("CO " ++ quote ++ "wait for position response" ++ quote) = true.
Proof.
  split; [ | split; [ | split; reflexivity ] ].
  - intros u rest Hm Ht Hf. apply replay_commands_dropped.
    unfold is_dropped. now rewrite Hm, Ht, Hf.
  - revert n. induction cmds as [ | c rest IH ]; intros n; [ reflexivity | ].
    cbn [filter]. destruct (is_dropped c) eqn:Hd; cbn [negb].
    + rewrite (replay_commands_dropped ser n c rest Hd). apply IH.
    + cbn [replay_commands]. rewrite <- !IH. reflexivity.
Qed.

(** The marker of [change_mode] before a pen-up command. *)
Lemma markers_without_keyword_are_dropped_witness :
  let ser := mkChannel 0 (fun _ => Bytes "") in
  replay_commands ser 0
    (("CO " ++ quote ++ "wait for position response" ++ quote) :: ["PU"])
  = ([Write "PU;"; Sleep; Read 128; Report false "PU" ""], None).
Proof.
  intros ser.
  destruct (markers_without_keyword_are_dropped ser 0 []) as [H _].
  rewrite H; reflexivity.
Defined.

(** * Further properties of the translator *)

Lemma gtb_false_le (a b : Z) : (a >? b) = false -> a <= b.
Proof. rewrite Z.gtb_ltb. apply Z.ltb_ge. Qed.

(** What a successful [parse_move] has done. *)
Lemma parse_move_ok (gcode hpgl : string) (g g' : globals) :
  parse_move gcode g = Ok (hpgl, g') ->
  exists g1 g2 cx cy,
    match_xy gcode = Some (g1, g2)
    /\ target g g1 g2 = Ok (cx, cy)
    /\ cx <= xmax /\ cy <= ymax
    /\ hpgl = move_command (mode g) cx cy
    /\ mode g' = mode g
    /\ drill_dwell g' = drill_dwell g
    /\ (mode g = Rel -> pos_x g' = cx /\ pos_y g' = cy)
    /\ (mode g = Abs -> pos_x g' = pos_x g + cx /\ pos_y g' = pos_y g + cy).
Proof.
  unfold parse_move, target.
  destruct (match_xy gcode) as [ [g1 g2] | ]; [ | discriminate ].
  destruct (mode g) eqn:Hm.
  - destruct (device_coord xoff g1) as [nx | ] eqn:Hx; simpl; [ | discriminate ].
    destruct (device_coord yoff g2) as [ny | ] eqn:Hy; simpl; [ | discriminate ].
    destruct (nx >? xmax) eqn:Bx; [ discriminate | ].
    destruct (ny >? ymax) eqn:By; [ discriminate | ].
    intros [= <- <-]. exists g1, g2, nx, ny. rewrite Hx, Hy. simpl.
    apply gtb_false_le in Bx, By.
    repeat split; intros; try assumption; try reflexivity; try discriminate.
  - destruct (device_delta g1) as [nx | ] eqn:Hx; simpl; [ | discriminate ].
    destruct (device_delta g2) as [ny | ] eqn:Hy; simpl; [ | discriminate ].
    destruct (pos_x g + nx >? xmax) eqn:Bx; [ discriminate | ].
    destruct (pos_y g + ny >? ymax) eqn:By; [ discriminate | ].
    intros [= <- <-]. exists g1, g2, (pos_x g + nx), (pos_y g + ny).
    rewrite Hx, Hy. simpl.
    apply gtb_false_le in Bx, By.
    repeat split; intros; try assumption; try reflexivity; try discriminate.
Qed.

(** X5. Every move command [parse_move] returns is within the bed on its
    upper side: it is the [PA] or [PR] command of the current mode with
    coordinates that are at most [xmax] and [ymax]; the mode and the dwell
    time are left as they were, and in relative mode the position is left
    at the coordinates of the command. *)
Theorem emitted_move_is_within_limits (gcode hpgl : string) (g g' : globals) :
  parse_move gcode g = Ok (hpgl, g') ->
  exists cx cy,
    hpgl = move_command (mode g) cx cy
    /\ cx <= xmax /\ cy <= ymax
    /\ mode g' = mode g
    /\ drill_dwell g' = drill_dwell g
    /\ (mode g = Rel -> pos_x g' = cx /\ pos_y g' = cy).
Proof.
  intros H. destruct (parse_move_ok _ _ _ _ H)
    as (g1 & g2 & cx & cy & _ & _ & Bx & By & Hh & Hm & Hd & Hr & _).
  exists cx, cy. tauto.
Qed.

(** The last move the bed admits on the X axis. *)
Lemma emitted_move_is_within_limits_witness :
  exists cx cy,
    "PA42000,13;" = move_command Abs cx cy
    /\ cx <= xmax /\ cy <= ymax
    /\ mode (set_pos initial 42000 13) = mode initial
    /\ drill_dwell (set_pos initial 42000 13) = drill_dwell initial
    /\ (mode initial = Rel ->
        pos_x (set_pos initial 42000 13) = cx
        /\ pos_y (set_pos initial 42000 13) = cy).
Proof.
  apply (emitted_move_is_within_limits "G00 X314.908 Y0" "PA42000,13;" initial).
  vm_compute. reflexivity.
Defined.

(** X6. In absolute mode the outcome of a move does not depend on the
    position: from two states in absolute mode the same line gives the
    same command, or the same exception. *)
Theorem absolute_move_ignores_position (gcode : string) (g g' : globals) :
  mode g = Abs ->
  mode g' = Abs ->
  match parse_move gcode g, parse_move gcode g' with
  | Ok r, Ok r' => fst r = fst r'
  | Err e, Err e' => e = e'
  | _, _ => False
  end.
Proof.
  intros Hm Hm'. unfold parse_move. rewrite Hm, Hm'.
  destruct (match_xy gcode) as [ [g1 g2] | ]; [ | reflexivity ].
  destruct (device_coord xoff g1) as [nx | ]; simpl; [ | reflexivity ].
  destruct (device_coord yoff g2) as [ny | ]; simpl; [ | reflexivity ].
  destruct (nx >? xmax); [ reflexivity | ].
  destruct (ny >? ymax); reflexivity.
Qed.

(** The same move from the origin and from the far corner of the bed. *)
Lemma absolute_move_ignores_position_witness :
  match parse_move "G00 X1.0 Y2.0" initial,
        parse_move "G00 X1.0 Y2.0" (set_pos initial 41000 23000) with
  | Ok r, Ok r' => fst r = fst r'
  | Err e, Err e' => e = e'
  | _, _ => False
  end.
Proof.
  apply (absolute_move_ignores_position "G00 X1.0 Y2.0" initial
           (set_pos initial 41000 23000)); reflexivity.
Defined.

(** X3. What a line can change. The mode changes only on a [G90] or [G91]
    line, the dwell time only on an [M06] line, and the position only on
    an XY move; a line that returns its text never changes anything
    else. *)
Theorem parse_line_frame (line hpgl : string) (drill : bool) (g g' : globals) :
  parse_line line drill g = Ok (hpgl, g') ->
  (mode g' = mode g
   \/ Py.startswith line "G90" = true \/ Py.startswith line "G91" = true)
  /\ (drill_dwell g' = drill_dwell g \/ Py.startswith line "M06" = true)
  /\ ((pos_x g' = pos_x g /\ pos_y g' = pos_y g)
      \/ (is_move line = true /\ Py.contains "Z" line = false)).
Proof.
  unfold parse_line, is_move.
  destruct (Py.startswith line "G20"); [ discriminate | ].
  destruct (Py.startswith line "G21"); [ intros [= <- <-]; tauto | ].
  destruct (Py.startswith line "G90").
  { unfold change_mode. destruct (Mode_eqb (mode g) Abs);
      intros [= <- <-]; simpl; tauto. }
  destruct (Py.startswith line "G91").
  { unfold change_mode. destruct (Mode_eqb (mode g) Rel);
      intros [= <- <-]; simpl; tauto. }
  destruct (Py.startswith line "G00" || Py.startswith line "G01").
  { destruct (Py.contains "Z" line).
    - destruct (parse_z line drill g); simpl; [ | discriminate ].
      intros [= <- <-]. tauto.
    - intros H. destruct (parse_move_ok _ _ _ _ H)
        as (_ & _ & _ & _ & _ & _ & _ & _ & _ & Hm & Hd & _).
      tauto. }
  destruct (Py.startswith line "G04").
  { destruct (parse_dwell line); simpl; [ | discriminate ].
    intros [= <- <-]. tauto. }
  destruct (Py.startswith line "M03"); [ intros [= <- <-]; tauto | ].
  destruct (Py.startswith line "M05"); [ intros [= <- <-]; tauto | ].
  destruct (Py.startswith line "M06"); [ | intros [= <- <-]; tauto ].
  unfold parse_tool_change.
  destruct (match_tool line) as [ [g1 g2] | ]; [ | discriminate ].
  destruct (_ || _); [ intros [= <- <-]; tauto | ].
  destruct (of_str _); simpl; [ | discriminate ].
  intros [= <- <-]. simpl. tauto.
Qed.

(** The line [G91] from the initial state. *)
Lemma parse_line_frame_witness :
  (mode (set_mode initial Rel) = mode initial
   \/ Py.startswith "G91" "G90" = true \/ Py.startswith "G91" "G91" = true)
  /\ (drill_dwell (set_mode initial Rel) = drill_dwell initial
      \/ Py.startswith "G91" "M06" = true)
  /\ ((pos_x (set_mode initial Rel) = pos_x initial
       /\ pos_y (set_mode initial Rel) = pos_y initial)
      \/ (is_move "G91" = true /\ Py.contains "Z" "G91" = false)).
Proof.
  apply (parse_line_frame "G91" "" false initial (set_mode initial Rel)).
  reflexivity.
Defined.

(** X4. The [drill] flag only matters for a Z move: any other line gives
    the same result with and without it; on a Z move the text with the
    flag is the text without it, followed by the timed wait of the
    current dwell time when it is the pen-down command. *)
Theorem drill_flag_only_adds_dwell (line : string) (g : globals) :
  (is_move line && Py.contains "Z" line = false ->
   parse_line line true g = parse_line line false g)
  /\ parse_z line true g
     = res_bind (parse_z line false g) (fun hpgl =>
         Ok (if String.eqb hpgl "PD;"
             then hpgl ++ timed_wait (drill_dwell g) else hpgl)).
Proof.
  split.
  - unfold parse_line, is_move.
    destruct (Py.startswith line "G20"); [ reflexivity | ].
    destruct (Py.startswith line "G21"); [ reflexivity | ].
    destruct (Py.startswith line "G90"); [ reflexivity | ].
    destruct (Py.startswith line "G91"); [ reflexivity | ].
    destruct (Py.startswith line "G00" || Py.startswith line "G01");
      [ | reflexivity ].
    simpl. now intros ->.
  - unfold parse_z.
    destruct (match_z line) as [g1 | ]; [ | reflexivity ].
    destruct (of_str g1) as [v | ]; simpl; [ | reflexivity ].
    destruct (le v _); [ reflexivity | ].
    destruct (gt v _); reflexivity.
Qed.

(** A dwell line. *)
Lemma drill_flag_only_adds_dwell_witness :
  parse_line "G04 P0.7" true initial = parse_line "G04 P0.7" false initial.
Proof.
  destruct (drill_flag_only_adds_dwell "G04 P0.7" initial) as [H _].
  apply H. reflexivity.
Defined.

Lemma unrecognized_line (line : string) (drill : bool) (g : globals) :
  unrecognized line = true -> parse_line line drill g = Ok ("", g).
Proof.
  unfold unrecognized, opcodes. cbn [forallb]. intros H.
  repeat (apply andb_true_iff in H;
          let H1 := fresh "H" in destruct H as [H1 H];
          apply negb_true_iff in H1).
  unfold parse_line. now rewrite H0, H1, H2, H3, H4, H5, H6, H7, H8, H9.
Qed.

(** X2. Lines that leave no trace. A line that, once stripped, starts
    with an opening parenthesis (a comment), starts with none of the
    prefixes [parse_line] knows (a blank line among them), or starts with
    [G21], changes neither the globals nor the text written so far, and
    is no error. *)
Theorem ignored_lines_change_nothing (drill : bool) (raw : string) (st : gen_state) :
  Py.startswith (Py.strip raw) "(" = true
  \/ unrecognized (Py.strip raw) = true
  \/ Py.startswith (Py.strip raw) "G21" = true ->
  run_line drill raw st = Ok st.
Proof.
  destruct st as [g buf]. unfold run_line. intros [H | [H | H]].
  - now rewrite H.
  - destruct (Py.startswith (Py.strip raw) "("); [ reflexivity | ].
    rewrite (unrecognized_line _ drill _ H). simpl. now rewrite append_nil_r.
  - destruct (startswith_app _ _ H) as [r ->].
    change (Ok (g, buf ++ "") = Ok (g, buf)). now rewrite append_nil_r.
Qed.

(** A comment, a blank line, a line of an unknown code and the
    millimetre line, each with its end of line. *)
Lemma ignored_lines_change_nothing_witness :
  run_lines true
    ["( drill file )" ++ newline; "  " ++ newline; "T01" ++ newline;
     "G21" ++ newline]
    (initial, preamble)
  = Ok (initial, preamble).
Proof.
  cbn [run_lines].
  do 4 (rewrite ignored_lines_change_nothing by (vm_compute; auto);
        cbn [res_bind]).
  reflexivity.
Defined.

(** X1. An inch line ends the run. When the sequencing reaches a line
    that starts with [G20], the generation ends with the exception
    [inch unit is unsupported], whatever the state and whatever follows,
    and [main], with the temporary file or with an output file it could
    open, ends with it before its replay part. *)
Theorem inch_line_aborts_run
    (j : job) (dry : bool) (out : output) (port : channel)
    (pre post : list action)
    (drill : bool) (raw : string) (st : gen_state) :
  plan j = (pre ++ Line drill raw :: post)%list ->
  run_actions pre (initial, "") = Ok st ->
  Py.startswith (Py.strip raw) "G20" = true ->
  generate j = Err (PyExc "Exception" "inch unit is unsupported")
  /\ (open_output out = Ok tt ->
      main dry out port j
      = ([], Some (PyExc "Exception" "inch unit is unsupported"))).
Proof.
  intros Hplan Hpre H20.
  assert (Hgen : generate j = Err (PyExc "Exception" "inch unit is unsupported")).
  { rewrite generate_plan, Hplan, run_actions_app, Hpre.
    cbn [res_bind run_actions step]. unfold run_line.
    destruct (startswith_app _ _ H20) as [r ->]. reflexivity. }
  split; [ exact Hgen | ].
  intros Ho. exact (main_generate_error _ _ _ _ _ Ho Hgen).
Qed.

(** The inch line is the second line of the routing file, after a whole
    drill file. *)
Lemma inch_line_aborts_run_witness :
  let j := mkJob [mkFile "b.top.drill.g" ["G00 X1.0 Y2.0"]]
                 [mkFile "b.top.etch.g" ["G90"; "G20"; "G01 X2 Y2"]] [] in
  generate j = Err (PyExc "Exception" "inch unit is unsupported")
  /\ main true (File None) SerialDummy j
     = ([], Some (PyExc "Exception" "inch unit is unsupported")).
Proof.
  intros j.
  destruct (inch_line_aborts_run j true (File None) SerialDummy
              (firstn 4 (plan j)) (skipn 5 (plan j)) false "G20"
              (set_pos initial 146 279,
               preamble ++ "PA146,279;"
               ++ "PA0,0;" ++ newline ++ "CO " ++ quote
               ++ "Insert tool #98: size routing" ++ quote ++ newline))
    as (H1 & H2);
    try (vm_compute; reflexivity).
  split; [ exact H1 | exact (H2 eq_refl) ].
Defined.

(** X7. The size of a tool sets the dwell of the holes drilled with it.
    After a tool change whose size is not [routing] or [milling] but the
    text of a number [v], the dwell time is [20 * v], and a pen-down Z
    move of a drill file returns [PD;] followed by the timed wait of
    [20 * v] seconds; after a tool change with a reserved size the dwell
    time is what it was. *)
Theorem tool_size_sets_drill_dwell
    (gcode hpgl g1 g2 : string) (g g' : globals) :
  parse_tool_change gcode g = Ok (hpgl, g') ->
  match_tool gcode = Some (g1, g2) ->
  (Py.strip g2 = "routing" \/ Py.strip g2 = "milling" -> g' = g)
  /\ (forall v, Py.strip g2 <> "routing" -> Py.strip g2 <> "milling" ->
      of_str (Py.strip g2) = Ok v ->
      drill_dwell g' = mul (of_int 20) v
      /\ forall zline zt z,
           match_z zline = Some zt -> of_str zt = Ok z ->
           le z (S754_zero false) = true ->
           parse_z zline true g'
           = Ok ("PD;" ++ timed_wait (mul (of_int 20) v))).
Proof.
  unfold parse_tool_change. intros H Hm. rewrite Hm in H. split.
  - intros Hr.
    assert (E : String.eqb (Py.strip g2) "routing"
                || String.eqb (Py.strip g2) "milling" = true).
    { destruct Hr as [-> | ->]; reflexivity. }
    rewrite E in H. now injection H as _ <-.
  - intros v Hr Hmi Hv.
    apply String.eqb_neq in Hr, Hmi. rewrite Hr, Hmi, Hv in H.
    cbn [orb res_bind] in H. injection H as _ <-. split; [ reflexivity | ].
    intros zline zt z Hz Hzt Hle. unfold parse_z.
    rewrite Hz, Hzt. cbn [res_bind]. now rewrite Hle.
Qed.

(** The 0.035 drill: twenty times 0.035 seconds are 700 milliseconds. *)
Lemma tool_size_sets_drill_dwell_witness :
  parse_z "G01 Z-0.1" true
    (mkGlobals Abs (mul (of_int 20) (of_decimal false 35 (-3))) 0 0)
  = Ok "PD;!TW700;".
Proof.
  destruct (tool_size_sets_drill_dwell "M06 T01 (0.035 )"
              ("PA0,0;" ++ newline ++ "CO " ++ quote
               ++ "Insert tool #01: size 0.035" ++ quote ++ newline)
              "01" "0.035 " initial
              (mkGlobals Abs (mul (of_int 20) (of_decimal false 35 (-3))) 0 0)
              eq_refl eq_refl)
    as [_ H].
  assert (Hr : Py.strip "0.035 " <> "routing") by (vm_compute; discriminate).
  assert (Hm : Py.strip "0.035 " <> "milling") by (vm_compute; discriminate).
  destruct (H (of_decimal false 35 (-3)) Hr Hm eq_refl) as [_ H2].
  exact (H2 "G01 Z-0.1" "-0.1" (of_decimal true 1 (-1)) eq_refl eq_refl eq_refl).
Defined.

Lemma last_cons_default {A : Type} (a d : A) (l : list A) :
  last (a :: l) d = last l a.
Proof.
  revert a d. induction l as [ | b l IH ]; intros a d; [ reflexivity | ].
  change (last (a :: b :: l) d) with (last (b :: l) d).
  now rewrite !IH.
Qed.

(** X16. A run of relative moves. From relative mode, a list of XY move
    lines whose running totals all stay within the limits is translated
    into one [PR] command per line, each carrying the total of the
    position at the start and of all the displacements up to its line;
    the position is left at the last total and the text grows by these
    commands, in order. *)
Theorem relative_moves_accumulate
    (drill : bool) (ls : list string) (ds : list (Z * Z))
    (g : globals) (buf : string) :
  mode g = Rel ->
  Forall2 (fun raw d =>
             Py.contains "Z" (Py.strip raw) = false
             /\ exists g1 g2,
                  match_xy (Py.strip raw) = Some (g1, g2)
                  /\ device_delta g1 = Ok (fst d)
                  /\ device_delta g2 = Ok (snd d)) ls ds ->
  Forall (fun t => fst t <= xmax /\ snd t <= ymax)
         (totals (pos_x g) (pos_y g) ds) ->
  run_lines drill ls (g, buf)
  = Ok (set_pos g (fst (final_total (pos_x g) (pos_y g) ds))
                  (snd (final_total (pos_x g) (pos_y g) ds)),
        buf ++ concat_text
                 (map (fun t => move_command Rel (fst t) (snd t))
                      (totals (pos_x g) (pos_y g) ds))).
Proof.
  intros Hm Hls. revert g buf Hm.
  induction Hls as [ | raw [dx dy] ls ds (Hz & g1 & g2 & Hxy & Hx & Hy) Hls IH ];
    intros g buf Hm Hb.
  - cbn. rewrite append_nil_r. now destruct g.
  - cbn [totals] in Hb. inversion Hb as [ | t l [Bx By] Hb' ]; subst.
    cbn [fst snd] in *.
    cbn [run_lines].
    rewrite (run_line_move drill raw g1 g2 (g, buf) Hxy Hz). cbn [fst snd].
    rewrite (parse_move_rel _ g1 g2 g dx dy Hm Hxy Hx Hy Bx By).
    cbn [res_bind fst snd].
    rewrite (IH (set_pos g (pos_x g + dx) (pos_y g + dy))
                (buf ++ move_command Rel (pos_x g + dx) (pos_y g + dy)) Hm Hb').
    cbn [pos_x pos_y set_pos totals map concat_text fst snd].
    unfold final_total. cbn [totals]. rewrite last_cons_default.
    now rewrite append_assoc.
Qed.

(** Three steps of one millimetre from (146, 279): the commands carry
    279, 412 and 545 on the X axis, not 133. *)
Lemma relative_moves_accumulate_witness :
  run_lines false ["G01 X1 Y1"; "G01 X1 Y0"; "G01 X1 Y-1"]
    (mkGlobals Rel (drill_dwell initial) 146 279, "")
  = Ok (mkGlobals Rel (drill_dwell initial) 545 279,
        "PR279,412;PR412,412;PR545,279;").
Proof.
  apply (relative_moves_accumulate false
           ["G01 X1 Y1"; "G01 X1 Y0"; "G01 X1 Y-1"]
           [(133, 133); (133, 0); (133, -133)]
           (mkGlobals Rel (drill_dwell initial) 146 279) "").
  - reflexivity.
  - repeat constructor; try (eexists; eexists; repeat split; vm_compute; reflexivity).
  - repeat constructor; vm_compute; discriminate.
Defined.

(** * Further properties of the HPGL text *)

Lemma split_cons (c : ascii) (s : string) :
  exists h r, Py.split c s = h :: r.
Proof.
  destruct s as [ | x s ]; simpl; [ now eexists; eexists | ].
  destruct (Ascii.eqb x c); [ now eexists; eexists | ].
  destruct (Py.split c s); now eexists; eexists.
Qed.

(** The two nested splits of the replay loop cut the text at every
    semicolon and every newline. *)
Lemma commands_cons (x : ascii) (s : string) :
  commands (String x s)
  = if is_sep x then "" :: commands s
    else match commands s with
         | h :: r => String x h :: r
         | [] => [String x ""]
         end.
Proof.
  unfold commands, is_sep. cbn [Py.split].
  destruct (split_cons "010" s) as (h & r & Hs). rewrite Hs.
  destruct (Ascii.eqb x "010") eqn:Hn.
  - rewrite orb_true_r. reflexivity.
  - rewrite orb_false_r. cbn [flat_map Py.split].
    destruct (Ascii.eqb x ";"); [ reflexivity | ].
    destruct (split_cons ";" h) as (h' & r' & Hh). rewrite Hh. reflexivity.
Qed.

Lemma commands_nil : commands "" = [""].
Proof. reflexivity. Qed.

Lemma commands_head (s : string) : exists h r, commands s = h :: r.
Proof.
  induction s as [ | x s (h & r & IH) ]; [ now eexists; eexists | ].
  rewrite commands_cons, IH. destruct (is_sep x); now eexists; eexists.
Qed.

Lemma commands_app_sep (a b : string) (c : ascii) :
  is_sep c = true ->
  commands (a ++ String c b) = (commands a ++ commands b)%list.
Proof.
  intros Hc. induction a as [ | x a IH ].
  - cbn [append]. now rewrite commands_cons, Hc.
  - cbn [append]. rewrite !commands_cons, IH.
    destruct (is_sep x); [ reflexivity | ].
    destruct (commands_head a) as (h & r & ->). reflexivity.
Qed.

Lemma commands_no_sep (s : string) : no_sep s = true -> commands s = [s].
Proof.
  induction s as [ | x s IH ]; [ reflexivity | ].
  cbn [no_sep]. intros H. apply andb_true_iff in H. destruct H as [Hx Hs].
  apply negb_true_iff in Hx. now rewrite commands_cons, Hx, (IH Hs).
Qed.

Lemma commands_pieces (s u : string) : In u (commands s) -> no_sep u = true.
Proof.
  revert u. induction s as [ | x s IH ]; intros u.
  - intros [<- | []]. reflexivity.
  - rewrite commands_cons. destruct (is_sep x) eqn:Hx.
    + intros [<- | H]; [ reflexivity | now apply IH ].
    + destruct (commands_head s) as (h & r & Hs). rewrite Hs in *.
      intros [<- | H].
      * cbn [no_sep]. rewrite Hx. apply (IH h). now left.
      * apply IH. now right.
Qed.

Lemma terminated_inv (s : string) :
  terminated s = true ->
  s = "" \/ exists a c, s = a ++ String c "" /\ is_sep c = true.
Proof.
  induction s as [ | x s IH ]; [ now left | ].
  cbn [terminated]. destruct s as [ | y s ].
  - intros Hx. right. now exists "", x.
  - intros H. destruct (IH H) as [ | (a & c & Ha & Hc) ]; [ discriminate | ].
    right. exists (String x a), c. cbn [append]. now rewrite <- Ha.
Qed.

Lemma terminated_app (a b : string) :
  terminated a = true -> terminated b = true -> terminated (a ++ b) = true.
Proof.
  intros Ha Hb. induction a as [ | x a IH ]; [ exact Hb | ].
  cbn [append terminated] in *. destruct a as [ | y a ].
  - cbn [append]. now destruct b.
  - cbn [append] in *. now apply IH.
Qed.

Lemma terminated_snoc (a : string) (c : ascii) :
  is_sep c = true -> terminated (a ++ String c "") = true.
Proof.
  intros Hc. induction a as [ | x a IH ]; [ exact Hc | ].
  cbn [append terminated]. destruct a; exact IH.
Qed.

Lemma terminated_app_r (a b : string) :
  b <> "" -> terminated b = true -> terminated (a ++ b) = true.
Proof.
  intros Hne Hb. induction a as [ | x a IH ]; [ exact Hb | ].
  cbn [append terminated]. destruct (a ++ b) eqn:E; [ | exact IH ].
  destruct a; [ now cbn in E | discriminate ].
Qed.

Lemma units_app_sep (a b : string) (c : ascii) :
  is_sep c = true -> units (a ++ String c b) = (units a ++ units b)%list.
Proof.
  intros Hc. unfold units. rewrite (commands_app_sep a b c Hc).
  apply filter_app.
Qed.

Lemma units_app (a b : string) :
  terminated a = true -> units (a ++ b) = (units a ++ units b)%list.
Proof.
  intros H. destruct (terminated_inv a H) as [-> | (a' & c & -> & Hc)];
    [ reflexivity | ].
  rewrite append_assoc. cbn [append].
  rewrite (units_app_sep a' b c Hc), (units_app_sep a' "" c Hc).
  cbn. now rewrite app_nil_r.
Qed.

(** X9. Concatenation keeps commands apart. The pieces the two nested
    splits of the replay loop cut a text into, on both sides of a
    semicolon or a newline, are the pieces of what is before it followed
    by the pieces of what is after it. So, when a text is empty or ends
    with a semicolon or a newline, the commands the replay loop finds in
    this text followed by another are the commands of the first followed
    by the commands of the second: no command of the one is merged with a
    command of the other. *)
Theorem commands_of_concatenation (a b : string) :
  (forall c, is_sep c = true ->
     commands (a ++ String c b) = (commands a ++ commands b)%list)
  /\ (terminated a = true ->
      units (a ++ b) = (units a ++ units b)%list).
Proof.
  split.
  - intros c Hc. now apply commands_app_sep.
  - apply units_app.
Qed.

(** Two pieces of text, the first ending with a newline. *)
Lemma commands_of_concatenation_witness :
  units (sync_marker ++ "PA146,279;PD;")
  = (units sync_marker ++ ["PA146,279"; "PD"])%list.
Proof.
  destruct (commands_of_concatenation sync_marker "PA146,279;PD;") as [_ H].
  apply H. reflexivity.
Defined.

(** A text that ends with a separator stays so when something is put in
    front of it. *)
Lemma ends_sep_snoc (a : string) (c : ascii) :
  is_sep c = true ->
  terminated (a ++ String c "") = true /\ a ++ String c "" <> "".
Proof.
  intros Hc. split; [ now apply terminated_snoc | destruct a; discriminate ].
Qed.

Lemma ends_sep_app (a b : string) :
  terminated b = true /\ b <> "" ->
  terminated (a ++ b) = true /\ a ++ b <> "".
Proof.
  intros [Hb Hne]. split; [ now apply terminated_app_r | ].
  destruct a; [ exact Hne | discriminate ].
Qed.

Ltac ends_sep :=
  repeat apply ends_sep_app;
  first [ apply ends_sep_snoc; reflexivity
        | split; [ reflexivity | discriminate ] ].

Lemma move_command_terminated (m : Mode) (cx cy : Z) :
  terminated (move_command m cx cy) = true.
Proof. unfold move_command. destruct m; eapply proj1; ends_sep. Qed.

Lemma timed_wait_terminated (t : float) : terminated (timed_wait t) = true.
Proof. unfold timed_wait. eapply proj1. ends_sep. Qed.

Lemma parse_tool_change_terminated (gcode hpgl : string) (g g' : globals) :
  parse_tool_change gcode g = Ok (hpgl, g') -> terminated hpgl = true.
Proof.
  unfold parse_tool_change.
  destruct (match_tool gcode) as [ [g1 g2] | ]; [ | discriminate ].
  assert (T : terminated
                ("PA0,0;" ++ newline ++ "CO " ++ quote ++ "Insert tool #"
                 ++ Py.strip g1 ++ ": size " ++ Py.strip g2 ++ quote ++ newline)
              = true) by (eapply proj1; ends_sep).
  destruct (_ || _); [ now intros [= <- _] | ].
  destruct (of_str _); simpl; [ now intros [= <- _] | discriminate ].
Qed.

(** Every text [parse_line] returns is empty or ends with a semicolon or
    a newline. *)
Lemma parse_line_terminated (line hpgl : string) (drill : bool) (g g' : globals) :
  parse_line line drill g = Ok (hpgl, g') -> terminated hpgl = true.
Proof.
  unfold parse_line.
  destruct (Py.startswith line "G20"); [ discriminate | ].
  destruct (Py.startswith line "G21"); [ now intros [= <- _] | ].
  destruct (Py.startswith line "G90").
  { unfold change_mode. destruct (Mode_eqb (mode g) Abs);
      [ now intros [= <- _] | ].
    destruct (Mode_eqb (mode g) Rel); now intros [= <- _]. }
  destruct (Py.startswith line "G91").
  { unfold change_mode. destruct (Mode_eqb (mode g) Rel);
      now intros [= <- _]. }
  destruct (Py.startswith line "G00" || Py.startswith line "G01").
  { destruct (Py.contains "Z" line).
    - unfold parse_z. destruct (match_z line); [ | discriminate ].
      destruct (of_str _) as [v | ]; simpl; [ | discriminate ].
      destruct (le v _).
      + intros [= <- _]. destruct drill; [ | reflexivity ].
        apply (terminated_app "PD;" (timed_wait (drill_dwell g)));
          [ reflexivity | apply timed_wait_terminated ].
      + destruct (gt v _); [ now intros [= <- _] | discriminate ].
    - intros H. destruct (parse_move_ok _ _ _ _ H)
        as (_ & _ & cx & cy & _ & _ & _ & _ & -> & _).
      apply move_command_terminated. }
  destruct (Py.startswith line "G04").
  { unfold parse_dwell. destruct (of_str _); simpl; [ | discriminate ].
    intros [= <- _]. apply timed_wait_terminated. }
  destruct (Py.startswith line "M03"); [ now intros [= <- _] | ].
  destruct (Py.startswith line "M05"); [ now intros [= <- _] | ].
  destruct (Py.startswith line "M06"); [ | now intros [= <- _] ].
  apply parse_tool_change_terminated.
Qed.

Lemma run_lines_text (drill : bool) (ls : list string) (st st' : gen_state) :
  run_lines drill ls st = Ok st' ->
  exists t, snd st' = snd st ++ t /\ terminated t = true.
Proof.
  revert st. induction ls as [ | raw ls IH ]; intros st; cbn [run_lines].
  - intros [= <-]. exists "". now rewrite append_nil_r.
  - destruct (run_line drill raw st) as [st1 | e] eqn:H1; cbn [res_bind];
      [ | discriminate ].
    intros H. destruct (IH _ H) as (t & Ht & Tt). unfold run_line in H1.
    destruct (Py.startswith (Py.strip raw) "(").
    + injection H1 as <-. now exists t.
    + destruct (parse_line _ _ _) as [ [h g1] | e] eqn:Hp; cbn in H1;
        [ | discriminate ].
      injection H1 as <-. cbn [snd] in Ht. exists (h ++ t).
      split; [ now rewrite Ht, append_assoc | ].
      apply terminated_app; [ | exact Tt ].
      exact (parse_line_terminated _ _ _ _ _ Hp).
Qed.

Lemma write_tool_change_text (gcode : string) (st st' : gen_state) :
  write_tool_change gcode st = Ok st' ->
  exists t, snd st' = snd st ++ t /\ terminated t = true.
Proof.
  unfold write_tool_change.
  destruct (parse_tool_change _ _) as [ [h g1] | e] eqn:Hp; cbn;
    [ | discriminate ].
  intros [= <-]. exists h. split; [ reflexivity | ].
  exact (parse_tool_change_terminated _ _ _ _ Hp).
Qed.

Lemma text_step (s t u a b : string) :
  t = s ++ a -> terminated a = true ->
  u = t ++ b -> terminated b = true ->
  u = s ++ (a ++ b) /\ terminated (a ++ b) = true.
Proof.
  intros -> Ta -> Tb. split; [ apply append_assoc | now apply terminated_app ].
Qed.

Lemma tool_then_lines_text (gcode : string) (ls : list string) (st st' : gen_state) :
  res_bind (write_tool_change gcode st) (run_lines false ls) = Ok st' ->
  exists t, snd st' = snd st ++ t /\ terminated t = true.
Proof.
  destruct (write_tool_change gcode st) as [st1 | e] eqn:H1; cbn [res_bind];
    [ | discriminate ].
  intros H2. apply write_tool_change_text in H1. apply run_lines_text in H2.
  destruct H1 as (a & Ha & Ta), H2 as (b & Hb & Tb).
  exists (a ++ b). exact (text_step _ _ _ _ _ Ha Ta Hb Tb).
Qed.

Lemma phases_text (j : job) :
  (forall st st', drill_phase j st = Ok st' ->
     exists t, snd st' = snd st ++ t /\ terminated t = true)
  /\ (forall st st', near_route_phase j st = Ok st' ->
        exists t, snd st' = snd st ++ t /\ terminated t = true)
  /\ (forall st st', far_route_phase j st = Ok st' ->
        exists t, snd st' = snd st ++ t /\ terminated t = true)
  /\ (forall st st', mill_phase j st = Ok st' ->
        exists t, snd st' = snd st ++ t /\ terminated t = true).
Proof.
  assert (Id : forall st st' : gen_state, Ok st = Ok st' ->
            exists t, snd st' = snd st ++ t /\ terminated t = true).
  { intros st st' [= <-]. exists "". now rewrite append_nil_r. }
  unfold drill_phase, near_route_phase, far_route_phase, mill_phase.
  repeat split; intros st st'.
  - destruct (drills j); [ apply Id | apply run_lines_text ].
  - destruct (routes j); [ apply Id | ].
    destruct (first_on_side _ _); cbn [res_bind]; [ | discriminate ].
    apply tool_then_lines_text.
  - destruct (1 <? _); [ | apply Id ].
    destruct (first_on_side _ _); cbn [res_bind]; [ | discriminate ].
    apply run_lines_text.
  - destruct (on_side _ _); [ apply Id | apply tool_then_lines_text ].
Qed.

(** The text of a completed generation: the preamble, a body that is
    empty or ends with a separator, and the postamble. *)
Lemma generate_text (j : job) (st : gen_state) :
  generate j = Ok st ->
  exists body,
    snd st = preamble ++ body ++ postamble /\ terminated body = true.
Proof.
  destruct (phases_text j) as (Hd & Hn & Hf & Hm).
  unfold generate. destruct (1 <? _); [ discriminate | ].
  destruct (drill_phase j _) as [st1 | ] eqn:H1; cbn [res_bind]; [ | discriminate ].
  destruct (near_route_phase j st1) as [st2 | ] eqn:H2; cbn [res_bind];
    [ | discriminate ].
  destruct (far_route_phase j _) as [st3 | ] eqn:H3; cbn [res_bind];
    [ | discriminate ].
  destruct (mill_phase j st3) as [st4 | ] eqn:H4; cbn [res_bind];
    [ | discriminate ].
  intros [= <-].
  apply Hd in H1. apply Hn in H2. apply Hf in H3. apply Hm in H4.
  destruct H1 as (a & Ha & Ta), H2 as (b & Hb & Tb),
           H3 as (c & Hc & Tc), H4 as (d & Hd' & Td).
  cbn [write fst snd] in *.
  exists (a ++ b ++ flip_boundary ++ c ++ d). split.
  - rewrite Hd', Hc, Hb, Ha. cbn [append]. now rewrite !append_assoc.
  - apply terminated_app; [ assumption | ].
    apply terminated_app; [ assumption | ].
    apply (terminated_app flip_boundary); [ reflexivity | ].
    now apply terminated_app.
Qed.

(** X10. The shape of the HPGL text. The text of a completed generation
    is the preamble, a body and the postamble; it ends with a semicolon,
    and the commands the replay loop finds in it are the nine commands of
    the preamble, the commands of the body and the four commands of the
    postamble, in this order. *)
Theorem generated_text_shape (j : job) (st : gen_state) :
  generate j = Ok st ->
  exists body,
    snd st = preamble ++ body ++ postamble
    /\ terminated (snd st) = true
    /\ units (snd st)
       = (["IN"; "!CT1"; "VS12000"; "!OC"; "!SV140"; "!SM32"; "!WR0,8,8";
           "!CC"; "!CM1"]
          ++ units body ++ ["!OC"; "!RM0"; "!CC"; "PU"])%list.
Proof.
  intros H. destruct (generate_text j st H) as (body & -> & Tb).
  exists body. split; [ reflexivity | split ].
  - apply (terminated_app preamble); [ reflexivity | ].
    apply (terminated_app body postamble); [ assumption | reflexivity ].
  - rewrite (units_app preamble) by reflexivity.
    now rewrite (units_app body) by assumption.
Qed.

(** The job without any file: its body is the flip boundary. *)
Lemma generated_text_shape_witness :
  exists body,
    preamble ++ flip_boundary ++ postamble = preamble ++ body ++ postamble
    /\ terminated (preamble ++ flip_boundary ++ postamble) = true
    /\ units (preamble ++ flip_boundary ++ postamble)
       = (["IN"; "!CT1"; "VS12000"; "!OC"; "!SV140"; "!SM32"; "!WR0,8,8";
           "!CC"; "!CM1"]
          ++ units body ++ ["!OC"; "!RM0"; "!CC"; "PU"])%list.
Proof.
  apply (generated_text_shape (mkJob [] [] [])
           (initial, preamble ++ flip_boundary ++ postamble)).
  reflexivity.
Defined.

(** The replay of a generated text on the [SerialDummy] ends at the reply
    to its first command. *)
Lemma dry_replay_of_generated_text (j : job) (st : gen_state) :
  generate j = Ok st ->
  replay SerialDummy (snd st)
  = ([Read 0; Write "IN;"; Sleep; Read 128],
     Some (PyExc "AttributeError" "'str' object has no attribute 'decode'")).
Proof.
  intros H.
  destruct (generate_text j st H) as (body & -> & _).
  unfold replay.
  change (preamble ++ body ++ postamble)
    with ("IN" ++ String ";"
            (("!CT1;VS" ++ Py.fmt_d mill_feed
              ++ ";!OC;!SV140;!SM32;!WR0,8,8;!CC;!CM1;") ++ body ++ postamble)).
  rewrite commands_app_sep by reflexivity.
  reflexivity.
Qed.

(** X12. A dry run never completes. Whatever the job, the output file and
    the port, [main] with [--dry-run] ends with an exception, never
    prompts the operator and writes nothing but, at most, [IN;]. When the
    generation completes, with the temporary file and a text of at most
    10,000,000 characters, [IN;] is written to the [SerialDummy], and the
    run ends with an [AttributeError], because what the dummy returns is a
    [str] and has no [decode]. With an output file, or a longer text, the
    text cannot be read back, and the run ends before its first write. *)
Theorem dry_run_stops_at_first_command (j : job) (out : output) (port : channel) :
  snd (main true out port j) <> None
  /\ prompts (main true out port j) = []
  /\ (written (main true out port j) = []
      \/ written (main true out port j) = ["IN;"])
  /\ (forall st,
        generate j = Ok st ->
        out = Temp ->
        Py.len (snd st) <= 10000000 ->
        main true out port j
        = ([Read 0; Write "IN;"; Sleep; Read 128],
           Some (PyExc "AttributeError" "'str' object has no attribute 'decode'")))
  /\ (forall st,
        generate j = Ok st ->
        out = File None \/ (out = Temp /\ 10000000 < Py.len (snd st)) ->
        main true out port j = ([Read 0], Some (PyExc "UnsupportedOperation" "not readable"))).
Proof.
  assert (Hok : forall st, generate j = Ok st -> open_output out = Ok tt ->
            main true out port j
            = match read_back out (snd st) with
              | Ok hpgl => replay SerialDummy hpgl
              | Err e => ([Read 0], Some e)
              end).
  { intros st Hg Ho. exact (main_generate_ok true out port j st Ho Hg). }
  assert (Hshort : forall st, generate j = Ok st -> out = Temp ->
            Py.len (snd st) <= max_size ->
            main true out port j
            = ([Read 0; Write "IN;"; Sleep; Read 128],
               Some (PyExc "AttributeError"
                       "'str' object has no attribute 'decode'"))).
  { intros st Hg -> Hl. rewrite (Hok st Hg eq_refl). unfold read_back.
    replace (max_size <? Py.len (snd st)) with false
      by (symmetry; apply Z.ltb_ge; exact Hl).
    exact (dry_replay_of_generated_text j st Hg). }
  assert (Hlong : forall st, generate j = Ok st ->
            out = File None \/ (out = Temp /\ max_size < Py.len (snd st)) ->
            main true out port j = ([Read 0], Some not_readable)).
  { intros st Hg [-> | [-> Hl]]; rewrite (Hok st Hg eq_refl); unfold read_back.
    - reflexivity.
    - replace (max_size <? Py.len (snd st)) with true
        by (symmetry; apply Z.ltb_lt; exact Hl).
      reflexivity. }
  assert (Hall : (exists e, main true out port j = ([], Some e))
                 \/ main true out port j = ([Read 0], Some not_readable)
                 \/ main true out port j
                    = ([Read 0; Write "IN;"; Sleep; Read 128],
                       Some (PyExc "AttributeError"
                               "'str' object has no attribute 'decode'"))).
  { destruct (open_output out) as [ [] | e0 ] eqn:Ho.
    - destruct (generate j) as [st | e] eqn:Hg.
      + destruct out as [ | [e1 | ] ]; [ | discriminate Ho | ].
        * destruct (Z.le_gt_cases (Py.len (snd st)) max_size) as [Hl | Hl].
          -- right. right. exact (Hshort st eq_refl eq_refl Hl).
          -- right. left. apply (Hlong st eq_refl). right. split; [ reflexivity | lia ].
        * right. left. apply (Hlong st eq_refl). now left.
      + left. exists e. exact (main_generate_error true out port j e Ho Hg).
    - left. unfold main. rewrite Ho.
      destruct (1 <? _); eexists; reflexivity. }
  split; [ | split; [ | split; [ | split; [ exact Hshort | exact Hlong ] ] ] ].
  - destruct Hall as [[e ->] | [-> | ->]]; discriminate.
  - destruct Hall as [[e ->] | [-> | ->]]; reflexivity.
  - destruct Hall as [[e ->] | [-> | ->]]; [ now left | now left | now right ].
Qed.

(** A job with a drill file and the traces of both sides, with the
    temporary file and with an output file. *)
Lemma dry_run_stops_at_first_command_witness :
  let j := mkJob [mkFile "b.top.drill.g" ["G90"; "G00 X1.0 Y2.0"; "G01 Z-0.1"]]
                 [mkFile "b.bot.etch.g" ["G01 X3 Y3"];
                  mkFile "b.top.etch.g" ["G01 X2 Y2"]] [] in
  main true Temp (mkChannel 0 (fun _ => Bytes "")) j
  = ([Read 0; Write "IN;"; Sleep; Read 128],
     Some (PyExc "AttributeError" "'str' object has no attribute 'decode'"))
  /\ main true (File None) (mkChannel 0 (fun _ => Bytes "")) j
     = ([Read 0], Some (PyExc "UnsupportedOperation" "not readable")).
Proof.
  intros j.
  destruct (generate j) as [st | e] eqn:H; [ | vm_compute in H; discriminate ].
  split.
  - destruct (dry_run_stops_at_first_command j Temp
                (mkChannel 0 (fun _ => Bytes ""))) as (_ & _ & _ & Hs & _).
    apply (Hs st H eq_refl).
    vm_compute in H. injection H as <-. vm_compute. discriminate.
  - destruct (dry_run_stops_at_first_command j (File None)
                (mkChannel 0 (fun _ => Bytes ""))) as (_ & _ & _ & _ & Hs).
    apply (Hs st H). now left.
Defined.

(** * Further properties of the replay *)

Lemma written_replay (ser : channel) (hpgl : string) :
  written (replay ser hpgl) = written (replay_commands ser 0 (commands hpgl)).
Proof.
  rewrite replay_unfold.
  destruct (replay_commands ser 0 (commands hpgl)) as [l [e | ]];
    unfold written; simpl; [ reflexivity | ].
  rewrite flat_map_app. simpl. now rewrite app_nil_r.
Qed.

(** X14. One command per write. Whatever the serial object replies, each
    piece of data written during the replay of a text is one non-empty
    command of the text that is not a marker, followed by one semicolon;
    the command itself has neither a semicolon nor a newline in it. *)
Theorem every_write_is_one_command (ser : channel) (hpgl d : string) :
  In d (written (replay ser hpgl)) ->
  exists u,
    d = u ++ ";" /\ u <> "" /\ no_sep u = true /\ is_marker u = false
    /\ In u (commands hpgl).
Proof.
  rewrite written_replay. intros H.
  destruct (replay_commands_written ser _ 0 d H) as (u & Hin & Hne & Hm & ->).
  exists u. repeat split; try assumption.
  exact (commands_pieces _ _ Hin).
Qed.

(** The second write of the replay of the flip boundary. *)
Lemma every_write_is_one_command_witness :
  exists u,
    "PU;" = u ++ ";" /\ u <> "" /\ no_sep u = true /\ is_marker u = false
    /\ In u (commands flip_boundary).
Proof.
  apply (every_write_is_one_command (mkChannel 0 (fun _ => Bytes ""))).
  vm_compute. tauto.
Defined.

Lemma paced_app_bounded (n : nat) :
  forall a b, (List.length a <= n)%nat ->
    paced a = true -> paced b = true -> paced (a ++ b) = true.
Proof.
  induction n as [ | n IH ]; intros a b Hl Ha Hb.
  - destruct a; [ exact Hb | simpl in Hl; lia ].
  - destruct a as [ | e a ]; [ exact Hb | ].
    simpl in Hl.
    destruct e; cbn [app paced] in *; try discriminate;
      try (apply IH; [ lia | assumption | assumption ]).
    destruct a as [ | [ | | | | ] [ | [ | | | | ] a ] ]; try discriminate.
    cbn [app] in *. apply andb_true_iff in Ha. destruct Ha as [Hc Ha].
    rewrite Hc. cbn [andb]. apply IH; [ simpl in Hl; lia | assumption | assumption ].
Qed.

Lemma paced_app (a b : list event) :
  paced a = true -> paced b = true -> paced (a ++ b) = true.
Proof. apply (paced_app_bounded (List.length a)). lia. Qed.

Lemma paced_and_then (a b : trace) :
  paced (fst a) = true -> paced (fst b) = true ->
  paced (fst (and_then a b)) = true.
Proof.
  unfold and_then. destruct a as [la [e | ]]; cbn [fst snd]; [ tauto | ].
  apply paced_app.
Qed.

Lemma paced_send_cmd (ser : channel) (n : nat) (hpgl : string) :
  paced (fst (send_cmd ser n hpgl)) = true.
Proof.
  unfold send_cmd. destruct (Py.isascii _); [ | reflexivity ].
  destruct (replies ser n) as [c | s]; [ destruct (Py.isascii c) | ];
    reflexivity.
Qed.

Lemma paced_replay_commands (ser : channel) (cmds : list string) :
  forall n, paced (fst (replay_commands ser n cmds)) = true.
Proof.
  induction cmds as [ | c rest IH ]; intros n; [ reflexivity | ].
  cbn [replay_commands].
  destruct (String.eqb c ""); [ apply IH | ].
  destruct (Py.startswith c "CO").
  - destruct (Py.contains "tool" c);
      [ apply paced_and_then; [ reflexivity | apply IH ] | ].
    destruct (Py.contains "flip" c);
      [ apply paced_and_then; [ reflexivity | apply IH ] | apply IH ].
  - apply paced_and_then; [ apply paced_send_cmd | apply IH ].
Qed.

(** X15. The replay is paced. In the events of the replay of any text,
    on any serial object and also when the replay ends with an exception,
    every write is followed at once by the pause and by a read of 128
    bytes: two commands are never written without a read between them. *)
Theorem replay_is_paced (ser : channel) (hpgl : string) :
  paced (fst (replay ser hpgl)) = true.
Proof.
  unfold replay.
  apply paced_and_then; [ reflexivity | ].
  apply paced_and_then; [ apply paced_replay_commands | reflexivity ].
Qed.

(** * Further properties of the sequencing *)

Lemma run_lines_error (drill : bool) (ls : list string) (st : gen_state) (e : exn) :
  run_lines drill ls st = Err e -> translator_exn e.
Proof.
  revert st. induction ls as [ | raw ls IH ]; intros st; cbn [run_lines];
    [ discriminate | ].
  destruct (run_line drill raw st) as [st1 | e1] eqn:H1; cbn [res_bind];
    [ apply IH | ].
  intros [= <-]. unfold run_line in H1.
  destruct (Py.startswith _ "("); [ discriminate | ].
  destruct (parse_line _ _ _) as [r | e2] eqn:Hp; cbn in H1; [ discriminate | ].
  injection H1 as <-. exact (parse_line_error _ _ _ _ Hp).
Qed.

Lemma tool_then_lines_error (gcode : string) (ls : list string) (st : gen_state) (e : exn) :
  res_bind (write_tool_change gcode st) (run_lines false ls) = Err e ->
  translator_exn e.
Proof.
  unfold write_tool_change.
  destruct (parse_tool_change gcode (fst st)) as [r | e1] eqn:Hp;
    cbn [res_bind].
  - apply run_lines_error.
  - intros [= <-]. exact (parse_tool_change_error _ _ _ Hp).
Qed.

Lemma first_on_side_error (side : string) (files : list gfile) (e : exn) :
  first_on_side side files = Err e ->
  e = PyExc "IndexError" "list index out of range" /\ on_side side files = [].
Proof.
  unfold first_on_side. destruct (on_side side files); [ | discriminate ].
  now intros [= <-].
Qed.

(** The exceptions of the phases: those of the translator, or the
    [IndexError] of a routing file that is not there. *)
Lemma generate_error (j : job) (e : exn) :
  generate j = Err e ->
  (e = SystemExit 10 /\ (2 <= List.length (drills j))%nat)
  \/ ((List.length (drills j) <= 1)%nat
      /\ (translator_exn e
          \/ (e = PyExc "IndexError" "list index out of range"
              /\ routes j <> []
              /\ (on_side (layer j) (routes j) = []
                  \/ on_side (olayer j) (routes j) = [])))).
Proof.
  unfold generate.
  destruct (1 <? Z.of_nat (List.length (drills j))) eqn:Hl.
  { intros [= <-]. left. apply Z.ltb_lt in Hl. split; [ reflexivity | lia ]. }
  apply Z.ltb_ge in Hl. intros H. right. split; [ lia | ].
  destruct (drill_phase j _) as [st1 | e1] eqn:H1; cbn [res_bind] in H.
  2:{ injection H as <-. left. unfold drill_phase in H1.
      destruct (drills j); [ discriminate | ].
      exact (run_lines_error _ _ _ _ H1). }
  destruct (near_route_phase j st1) as [st2 | e2] eqn:H2; cbn [res_bind] in H.
  2:{ injection H as <-. unfold near_route_phase in H2.
      destruct (routes j) eqn:Hr; [ discriminate | ].
      destruct (first_on_side _ _) as [f | e3] eqn:Hf; cbn [res_bind] in H2.
      - left. exact (tool_then_lines_error _ _ _ _ H2).
      - injection H2 as <-. right.
        destruct (first_on_side_error _ _ _ Hf) as [-> Hs].
        split; [ reflexivity | split; [ discriminate | now left ] ]. }
  destruct (far_route_phase j _) as [st3 | e3] eqn:H3; cbn [res_bind] in H.
  2:{ injection H as <-. unfold far_route_phase in H3.
      destruct (1 <? _) eqn:Hr; [ | discriminate ].
      destruct (first_on_side _ _) as [f | e4] eqn:Hf; cbn [res_bind] in H3.
      - left. exact (run_lines_error _ _ _ _ H3).
      - injection H3 as <-. right.
        destruct (first_on_side_error _ _ _ Hf) as [-> Hs].
        split; [ reflexivity | split; [ | now right ] ].
        intros E. rewrite E in Hr. discriminate. }
  destruct (mill_phase j st3) as [st4 | e4] eqn:H4; cbn [res_bind] in H;
    [ discriminate | ].
  injection H as <-. left. unfold mill_phase in H4.
  destruct (on_side _ _); [ discriminate | ].
  exact (tool_then_lines_error _ _ _ _ H4).
Qed.

(** X11. Exit status 10 and the missing routing file. The generation of
    [main] ends with status 10 exactly when [glob] found two drill files
    or more, whatever the files hold, and [main] then ends with it
    whatever its output file, which it has not opened yet; with one drill
    file at most, an output file that cannot be opened ends [main] with
    the exception of [open], before any line is translated. The
    generation ends with the [IndexError] of
    [[...][0]] only when there are routing files, none of them for the
    first side or none for the other; and it does end with it when the
    drill file has been translated and there are routing files, none of
    them for the first side. What [parse_line] raises on a line is the
    exception of the inch line, an [AttributeError], a [ValueError], an
    [OverflowError], an [UnboundLocalError], or exit status 12. *)
Theorem generation_failures (j : job) :
  (generate j = Err (SystemExit 10) <-> (2 <= List.length (drills j))%nat)
  /\ (generate j = Err (PyExc "IndexError" "list index out of range") ->
      routes j <> []
      /\ (on_side (layer j) (routes j) = []
          \/ on_side (olayer j) (routes j) = []))
  /\ (forall st1,
        (List.length (drills j) <= 1)%nat ->
        drill_phase j (write preamble (initial, "")) = Ok st1 ->
        routes j <> [] ->
        on_side (layer j) (routes j) = [] ->
        generate j = Err (PyExc "IndexError" "list index out of range"))
  /\ (forall line drill g e,
        parse_line line drill g = Err e -> translator_exn e)
  /\ (forall dry out port,
        (2 <= List.length (drills j))%nat ->
        main dry out port j = ([], Some (SystemExit 10)))
  /\ (forall dry e port,
        (List.length (drills j) <= 1)%nat ->
        main dry (File (Some e)) port j = ([], Some e)).
Proof.
  split; [ | split; [ | split; [ | split; [ | split ] ] ] ].
  5:{ intros dry out port Hl. unfold main.
      assert (E : (1 <? Z.of_nat (List.length (drills j))) = true)
        by (apply Z.ltb_lt; lia).
      now rewrite E. }
  5:{ intros dry e port Hl. unfold main.
      assert (E : (1 <? Z.of_nat (List.length (drills j))) = false)
        by (apply Z.ltb_ge; lia).
      now rewrite E. }
  - split.
    + intros H.
      destruct (generate_error j _ H) as [[_ Hl] | [_ [Ht | [He _]]]];
        [ exact Hl | discriminate Ht | discriminate He ].
    + intros Hl. unfold generate.
      assert (E : (1 <? Z.of_nat (List.length (drills j))) = true)
        by (apply Z.ltb_lt; lia).
      now rewrite E.
  - intros H.
    destruct (generate_error j _ H) as [[He _] | [_ [Ht | [_ Hr]]]];
      [ discriminate He | | exact Hr ].
    cbn in Ht. repeat (destruct Ht as [Ht | Ht]; try discriminate).
    contradiction.
  - intros st1 Hl H1 Hr Hs. unfold generate.
    assert (E : (1 <? Z.of_nat (List.length (drills j))) = false)
      by (apply Z.ltb_ge; lia).
    rewrite E, H1. cbn [res_bind]. unfold near_route_phase, first_on_side.
    destruct (routes j); [ contradiction | ].
    rewrite Hs. reflexivity.
  - exact parse_line_error.
Qed.

(** Two drill files; and the traces of the bottom side alone, with a
    drill file of the top side. *)
Lemma generation_failures_witness :
  generate (mkJob [mkFile "a.top.drill.g" []; mkFile "b.top.drill.g" []] [] [])
  = Err (SystemExit 10)
  /\ generate (mkJob [mkFile "b.top.drill.g" ["G00 X1.0 Y2.0"]]
                     [mkFile "b.bot.etch.g" []] [])
     = Err (PyExc "IndexError" "list index out of range").
Proof.
  split.
  - destruct (generation_failures
                (mkJob [mkFile "a.top.drill.g" []; mkFile "b.top.drill.g" []]
                       [] [])) as (H & _ & _ & _ & _ & _).
    apply H. simpl. lia.
  - destruct (generation_failures
                (mkJob [mkFile "b.top.drill.g" ["G00 X1.0 Y2.0"]]
                       [mkFile "b.bot.etch.g" []] []))
      as (_ & _ & H & _ & _ & _).
    apply (H (set_pos initial 146 279, preamble ++ "PA146,279;")).
    + simpl. lia.
    + vm_compute. reflexivity.
    + discriminate.
    + reflexivity.
Defined.

(** ** Slices *)

Lemma length_append (a b : string) :
  String.length (a ++ b) = (String.length a + String.length b)%nat.
Proof. induction a as [ | x a IH ]; cbn; [ reflexivity | now rewrite IH ]. Qed.

Lemma substring_skip (a s : string) (m : nat) :
  String.substring (String.length a) m (a ++ s) = String.substring 0 m s.
Proof. induction a as [ | x a IH ]; [ reflexivity | exact IH ]. Qed.

Lemma substring_take (a b : string) :
  String.substring 0 (String.length a) (a ++ b) = a.
Proof.
  induction a as [ | x a IH ]; cbn; [ now destruct b | now rewrite IH ].
Qed.

(** The slice between two negative bounds that fall on the ends of the
    middle one of three pieces. *)
Lemma slice_middle_from_end (a m b : string) :
  (0 < String.length b)%nat ->
  Py.slice (a ++ m ++ b)
    (Some (- Z.of_nat (String.length m + String.length b)))
    (Some (- Z.of_nat (String.length b)))
  = m.
Proof.
  intros Hb. unfold Py.slice, Py.clip, Py.len. rewrite !length_append.
  set (la := String.length a). set (lm := String.length m).
  set (lb := String.length b) in *.
  replace (- Z.of_nat (lm + lb) <? 0) with true by (symmetry; apply Z.ltb_lt; lia).
  replace (- Z.of_nat lb <? 0) with true by (symmetry; apply Z.ltb_lt; lia).
  replace (Z.to_nat (Z.max (Z.of_nat (la + (lm + lb)) + - Z.of_nat lb) 0
                     - Z.max (Z.of_nat (la + (lm + lb)) + - Z.of_nat (lm + lb)) 0))
    with lm by lia.
  replace (Z.to_nat (Z.max (Z.of_nat (la + (lm + lb)) + - Z.of_nat (lm + lb)) 0))
    with la by lia.
  unfold la, lm. rewrite substring_skip. apply substring_take.
Qed.

(** X13. The first side is read off the name of the drill file. When the
    path of the drill file ends with three characters followed by eight
    more, as in [.top.drill.g] and [.bot.drill.g], these three characters
    are the layer routed before the flip; the layer after the flip is
    [bot] when they are [top] and [top] otherwise, never the same. *)
Theorem first_side_from_drill_name
    (dir side tail : string) (ls : list string) (rs ms : list gfile) :
  String.length side = 3%nat ->
  String.length tail = 8%nat ->
  let j := mkJob [mkFile (dir ++ side ++ tail) ls] rs ms in
  layer j = side
  /\ olayer j = (if String.eqb side "top" then "bot" else "top")
  /\ olayer j <> layer j.
Proof.
  intros Hs Ht j.
  assert (L : layer j = side).
  { unfold layer, j. cbn [drills path].
    assert (Hp : (0 < String.length tail)%nat) by lia.
    pose proof (slice_middle_from_end dir side tail Hp) as H.
    rewrite Hs, Ht in H. exact H. }
  unfold olayer. cbn [j drills]. fold j. rewrite L.
  split; [ reflexivity | split; [ reflexivity | ] ].
  destruct (String.eqb_spec side "top") as [-> | Hne]; [ discriminate | ].
  congruence.
Qed.

(** A drill file of the bottom side. *)
Lemma first_side_from_drill_name_witness :
  let j := mkJob [mkFile "boards/amp.bot.drill.g" []] [] [] in
  layer j = "bot"
  /\ olayer j = (if String.eqb "bot" "top" then "bot" else "top")
  /\ olayer j <> layer j.
Proof.
  apply (first_side_from_drill_name "boards/amp." "bot" ".drill.g" [] [] []);
    reflexivity.
Defined.

Lemma slice_middle (a m b : string) :
  Py.slice (a ++ m ++ b)
    (Some (Z.of_nat (String.length a)))
    (Some (Z.of_nat (String.length a + String.length m)))
  = m.
Proof.
  unfold Py.slice, Py.clip, Py.len. rewrite !length_append.
  set (la := String.length a). set (lm := String.length m).
  set (lb := String.length b).
  replace (Z.of_nat la <? 0) with false by (symmetry; apply Z.ltb_ge; lia).
  replace (Z.of_nat (la + lm) <? 0) with false by (symmetry; apply Z.ltb_ge; lia).
  replace (Z.to_nat (Z.min (Z.of_nat (la + lm)) (Z.of_nat (la + (lm + lb)))
                     - Z.min (Z.of_nat la) (Z.of_nat (la + (lm + lb)))))
    with lm by lia.
  replace (Z.to_nat (Z.min (Z.of_nat la) (Z.of_nat (la + (lm + lb)))))
    with la by lia.
  unfold la, lm. rewrite substring_skip. apply substring_take.
Qed.

Lemma rfind_snoc (c : ascii) (a : string) :
  Py.rfind c (a ++ String c "") = Z.of_nat (String.length a).
Proof.
  induction a as [ | x a IH ].
  - cbn. now rewrite Ascii.eqb_refl.
  - cbn [append Py.rfind String.length]. rewrite IH.
    replace (0 <=? Z.of_nat (String.length a)) with true
      by (symmetry; apply Z.leb_le; lia).
    lia.
Qed.

(** The message between the quotes of a marker is what [tool_change]
    shows, whatever it is. *)
Lemma tool_change_marker (msg : string) :
  tool_change ("CO " ++ quote ++ msg ++ quote)
  = ([Input (msg ++ newline ++ "Press enter when done.")], None).
Proof.
  unfold tool_change.
  replace (Py.find "034" ("CO " ++ quote ++ msg ++ quote) + 1)
    with (Z.of_nat (String.length ("CO " ++ quote))) by reflexivity.
  replace (Py.rfind "034" ("CO " ++ quote ++ msg ++ quote))
    with (Z.of_nat (String.length ("CO " ++ quote) + String.length msg)).
  - change ("CO " ++ quote ++ msg ++ quote)
      with (("CO " ++ quote) ++ msg ++ quote).
    now rewrite slice_middle.
  - change ("CO " ++ quote ++ msg ++ quote)
      with ((("CO " ++ quote) ++ msg) ++ String "034" "").
    now rewrite rfind_snoc, length_append.
Qed.

Lemma no_sep_app (a b : string) : no_sep (a ++ b) = no_sep a && no_sep b.
Proof.
  induction a as [ | x a IH ]; cbn [append no_sep]; [ reflexivity | ].
  now rewrite IH, andb_assoc.
Qed.

Lemma isdigit_not_sep (c : ascii) : Py.isdigit c = true -> is_sep c = false.
Proof.
  destruct c as [[] [] [] [] [] [] [] []]; vm_compute; congruence.
Qed.

Lemma span_digits_no_sep (s : string) :
  no_sep (fst (Py.span Py.isdigit s)) = true.
Proof.
  induction s as [ | c s IH ]; [ reflexivity | ].
  cbn [Py.span]. destruct (Py.isdigit c) eqn:Hc; [ | reflexivity ].
  destruct (Py.span Py.isdigit s) as [a b]. cbn [fst no_sep] in *.
  now rewrite (isdigit_not_sep c Hc), IH.
Qed.

Lemma no_sep_lstrip (s : string) : no_sep s = true -> no_sep (Py.lstrip s) = true.
Proof.
  induction s as [ | c s IH ]; [ reflexivity | ].
  cbn [Py.lstrip]. destruct (Py.isspace c); [ | tauto ].
  cbn [no_sep]. intros H. apply andb_true_iff in H. now apply IH.
Qed.

Lemma no_sep_rstrip (s : string) : no_sep s = true -> no_sep (Py.rstrip s) = true.
Proof.
  induction s as [ | c s IH ]; [ reflexivity | ].
  cbn [Py.rstrip no_sep]. intros H. apply andb_true_iff in H.
  destruct H as [Hc Hs]. specialize (IH Hs).
  destruct (Py.rstrip s).
  - destruct (Py.isspace c); [ reflexivity | ]. cbn [no_sep]. now rewrite Hc.
  - cbn [no_sep] in *. now rewrite Hc.
Qed.

Lemma match_tool_number (gcode g1 g2 : string) :
  match_tool gcode = Some (g1, g2) -> no_sep (Py.strip g1) = true.
Proof.
  unfold match_tool. destruct (Py.strip_prefix "M06 T" gcode) as [r | ];
    [ | discriminate ].
  pose proof (span_digits_no_sep r) as Hd.
  destruct (Py.span Py.isdigit r) as [d r1]. cbn [fst] in Hd.
  destruct (Py.strip_prefix " (" r1); [ | discriminate ].
  destruct (_ <? 0); [ discriminate | ].
  intros [= <- _]. unfold Py.strip. now apply no_sep_rstrip, no_sep_lstrip.
Qed.

(** * The texts [float] accepts *)

Ltac by_cases_on c :=
  destruct c as [[] [] [] [] [] [] [] []]; vm_compute; intros;
  try discriminate; repeat split; try reflexivity; try congruence.

Lemma number_char_plain (c : ascii) :
  number_char c = true ->
  (Py.code c <? 128) = true /\ is_sep c = false.
Proof. by_cases_on c. Qed.

Lemma digit_number_char (c : ascii) : Py.isdigit c = true -> number_char c = true.
Proof. by_cases_on c. Qed.

Lemma lower_number_char (c : ascii) : number_char (lower c) = number_char c.
Proof. by_cases_on c. Qed.

Lemma lower_e_number_char (c : ascii) :
  Ascii.eqb (lower c) "e" = true -> number_char c = true.
Proof. by_cases_on c. Qed.

Lemma to_ascii_number_char (c : ascii) :
  number_char (to_ascii c) = true -> number_char c = true.
Proof. by_cases_on c. Qed.

Lemma to_ascii_not_space (c : ascii) :
  Py.isspace c = false -> c_isspace (to_ascii c) = false.
Proof. by_cases_on c. Qed.

Lemma underscore_number_char (c : ascii) :
  Ascii.eqb c "_" = true -> number_char c = true.
Proof. by_cases_on c. Qed.

Lemma allc_app (p : ascii -> bool) (a b : string) :
  allc p (a ++ b) = allc p a && allc p b.
Proof.
  induction a as [ | x a IH ]; cbn [append allc]; [ reflexivity | ].
  now rewrite IH, andb_assoc.
Qed.

Lemma allc_impl (p q : ascii -> bool) (s : string) :
  (forall c, p c = true -> q c = true) -> allc p s = true -> allc q s = true.
Proof.
  intros Hpq. induction s as [ | c s IH ]; [ reflexivity | ].
  cbn [allc]. intros H. apply andb_true_iff in H. destruct H as [Hc Hs].
  now rewrite (Hpq c Hc), IH.
Qed.

Lemma span_spec (p : ascii -> bool) (s a b : string) :
  Py.span p s = (a, b) -> s = a ++ b /\ allc p a = true.
Proof.
  revert a b. induction s as [ | c s IH ]; intros a b; cbn [Py.span].
  - now intros [= <- <-].
  - destruct (p c) eqn:Hc; [ | now intros [= <- <-] ].
    destruct (Py.span p s) as [a' b']. intros [= <- <-].
    destruct (IH a' b' eq_refl) as [-> Ha]. cbn [append allc].
    now rewrite Hc, Ha.
Qed.

Lemma allc_lower (s : string) :
  allc number_char (lower_str s) = allc number_char s.
Proof.
  induction s as [ | c s IH ]; [ reflexivity | ].
  cbn [lower_str allc]. now rewrite lower_number_char, IH.
Qed.

Lemma take_sign_spec (s : string) :
  snd (take_sign s) = s
  \/ s = String "-" (snd (take_sign s))
  \/ s = String "+" (snd (take_sign s)).
Proof.
  destruct s as [ | x t ]; [ now left | ].
  destruct x as [[] [] [] [] [] [] [] []]; cbn; auto.
Qed.

Lemma take_sign_chars (s : string) :
  allc number_char (snd (take_sign s)) = true -> allc number_char s = true.
Proof.
  destruct (take_sign_spec s) as [E | [E | E]].
  - now rewrite E.
  - rewrite E at 2. cbn [allc]. now intros ->.
  - rewrite E at 2. cbn [allc]. now intros ->.
Qed.

Lemma parse_exponent_chars (s : string) (ex : Z) :
  parse_exponent s = Some ex -> allc number_char s = true.
Proof.
  unfold parse_exponent. destruct s as [ | c t ]; [ reflexivity | ].
  destruct (Ascii.eqb (lower c) "e") eqn:He; [ | discriminate ].
  pose proof (take_sign_chars t) as Hs.
  destruct (take_sign t) as [neg t1]. cbn [snd] in Hs.
  destruct (Py.span Py.isdigit t1) as [ds t2] eqn:Hd.
  destruct (span_spec _ _ _ _ Hd) as [-> Hds].
  destruct ds; [ discriminate | ]. destruct t2; [ | discriminate ].
  intros _. cbn [allc]. rewrite (lower_e_number_char c He). cbn [andb].
  apply Hs. rewrite append_nil_r.
  exact (allc_impl _ _ _ digit_number_char Hds).
Qed.

Lemma fraction_chars (t1 fp t2 : string) :
  match t1 with
  | String "." r => Py.span Py.isdigit r
  | _ => (EmptyString, t1)
  end = (fp, t2) ->
  allc number_char t2 = true -> allc number_char t1 = true.
Proof.
  destruct t1 as [ | c r ]; [ now intros [= <- <-] | ].
  destruct (Ascii.eqb_spec c ".") as [-> | Hne].
  - intros H. apply span_spec in H. destruct H as [-> Hfp]. intros Ht2.
    cbn [allc]. rewrite allc_app, Ht2.
    now rewrite (allc_impl _ _ _ digit_number_char Hfp).
  - destruct c as [[] [] [] [] [] [] [] []];
      try (now intros [= <- <-]); now contradiction Hne.
Qed.

Lemma parse_number_chars (s : string) (v : float) :
  parse_number s = Some v -> allc number_char s = true.
Proof.
  unfold parse_number. intros H. apply take_sign_chars.
  destruct (take_sign s) as [neg t]. cbn [snd].
  destruct (String.eqb_spec (lower_str t) "inf") as [E | _];
    [ now rewrite <- allc_lower, E | ].
  destruct (String.eqb_spec (lower_str t) "infinity") as [E | _];
    [ now rewrite <- allc_lower, E | ].
  cbn [orb] in H.
  destruct (String.eqb_spec (lower_str t) "nan") as [E | _];
    [ now rewrite <- allc_lower, E | ].
  destruct (Py.span Py.isdigit t) as [ip t1] eqn:Hip.
  destruct (span_spec _ _ _ _ Hip) as [-> Hd].
  destruct (match t1 with
            | String "." r => Py.span Py.isdigit r
            | _ => (EmptyString, t1)
            end) as [fp t2] eqn:Hfp.
  rewrite allc_app, (allc_impl _ _ _ digit_number_char Hd). cbn [andb].
  apply (fraction_chars _ _ _ Hfp).
  destruct (ip ++ fp); [ discriminate | ].
  destruct (parse_exponent t2) as [ex | ] eqn:He; [ | discriminate ].
  exact (parse_exponent_chars _ _ He).
Qed.

Lemma lstrip_c_id (t : string) : head_is c_isspace t = false -> lstrip_c t = t.
Proof. destruct t as [ | c t ]; [ reflexivity | ]. cbn. now intros ->. Qed.

Lemma rstrip_c_id (t : string) : last_is c_isspace t = false -> rstrip_c t = t.
Proof.
  induction t as [ | c t IH ]; [ reflexivity | ].
  cbn [last_is rstrip_c]. destruct t as [ | d t ].
  - cbn. now intros ->.
  - intros H. now rewrite (IH H).
Qed.

Lemma drop_underscores_nil (prev : ascii) (s : string) :
  drop_underscores prev s = Some "" -> s = "".
Proof.
  revert prev. induction s as [ | c s IH ]; intros prev; [ reflexivity | ].
  cbn [drop_underscores].
  destruct (Ascii.eqb_spec c "_") as [-> | ].
  - destruct (Py.isdigit prev); [ | discriminate ].
    intros H. pose proof (IH _ H) as E. subst s. discriminate H.
  - destruct (_ && _); [ discriminate | ].
    destruct (drop_underscores c s); discriminate.
Qed.

Lemma drop_underscores_edges (p : ascii -> bool) (s t : string) :
  drop_underscores "000" s = Some t ->
  head_is p t = head_is p s /\ last_is p t = last_is p s.
Proof.
  intros H. split.
  - destruct s as [ | c s ]; cbn [drop_underscores] in H.
    + now injection H as <-.
    + destruct (Ascii.eqb c "_"); [ discriminate | ].
      destruct (_ && _); [ discriminate | ].
      destruct (drop_underscores c s); [ | discriminate ].
      now injection H as <-.
  - revert t H. generalize "000"%char as prev.
    induction s as [ | c s IH ]; intros prev t; cbn [drop_underscores].
    + destruct (Ascii.eqb prev "_"); [ discriminate | now intros [= <-] ].
    + destruct (Ascii.eqb_spec c "_") as [-> | ].
      * destruct (Py.isdigit prev); [ | discriminate ].
        intros H. rewrite (IH _ _ H).
        destruct s; [ discriminate H | reflexivity ].
      * destruct (_ && _); [ discriminate | ].
        destruct (drop_underscores c s) as [r | ] eqn:Hr; [ | discriminate ].
        intros [= <-]. cbn [last_is]. rewrite <- (IH _ _ Hr).
        destruct r.
        -- apply drop_underscores_nil in Hr. now subst s.
        -- destruct s; [ | reflexivity ].
           cbn in Hr. destruct (Ascii.eqb c "_"); discriminate Hr.
Qed.

Lemma drop_underscores_chars (prev : ascii) (s t : string) :
  drop_underscores prev s = Some t ->
  allc number_char t = true -> allc number_char s = true.
Proof.
  revert prev t. induction s as [ | c s IH ]; intros prev t; [ reflexivity | ].
  cbn [drop_underscores allc].
  destruct (Ascii.eqb c "_") eqn:Hc.
  - destruct (Py.isdigit prev); [ | discriminate ].
    intros H Ht. now rewrite (underscore_number_char c Hc), (IH _ _ H Ht).
  - destruct (_ && _); [ discriminate | ].
    destruct (drop_underscores c s) as [r | ] eqn:Hr; [ | discriminate ].
    intros [= <-]. cbn [allc]. intros H. apply andb_true_iff in H.
    destruct H as [-> Hr']. now rewrite (IH _ _ Hr Hr').
Qed.

Lemma to_ascii_str_chars (s : string) :
  allc number_char (to_ascii_str s) = true -> allc number_char s = true.
Proof.
  induction s as [ | c s IH ]; [ reflexivity | ].
  cbn [to_ascii_str allc]. intros H. apply andb_true_iff in H.
  destruct H as [Hc Hs]. now rewrite (to_ascii_number_char c Hc), IH.
Qed.

Lemma to_ascii_str_edges (s : string) :
  (head_is Py.isspace s = false -> head_is c_isspace (to_ascii_str s) = false)
  /\ (last_is Py.isspace s = false -> last_is c_isspace (to_ascii_str s) = false).
Proof.
  split.
  - destruct s as [ | c s ]; [ reflexivity | ]. apply to_ascii_not_space.
  - induction s as [ | c s IH ]; [ reflexivity | ].
    cbn [last_is to_ascii_str]. destruct s as [ | d s ].
    + apply to_ascii_not_space.
    + exact IH.
Qed.

(** A text [float] accepts that has no space at either end is made of
    number characters. *)
Lemma of_str_chars (s : string) (v : float) :
  of_str s = Ok v ->
  head_is Py.isspace s = false ->
  last_is Py.isspace s = false ->
  allc number_char s = true.
Proof.
  unfold of_str. intros H Hh Hl.
  destruct (drop_underscores "000" (to_ascii_str s)) as [t | ] eqn:Hd;
    [ | discriminate ].
  destruct (drop_underscores_edges c_isspace _ _ Hd) as [Eh El].
  destruct (to_ascii_str_edges s) as [Ah Al].
  rewrite (Ah Hh) in Eh. rewrite (Al Hl) in El.
  rewrite (lstrip_c_id t Eh), (rstrip_c_id t El) in H.
  destruct (parse_number t) as [x | ] eqn:Hp; [ | discriminate ].
  apply to_ascii_str_chars. apply (drop_underscores_chars _ _ _ Hd).
  exact (parse_number_chars _ _ Hp).
Qed.

Lemma strip_edges (s : string) :
  head_is Py.isspace (Py.strip s) = false
  /\ last_is Py.isspace (Py.strip s) = false.
Proof.
  unfold Py.strip.
  assert (Hh : head_is Py.isspace (Py.lstrip s) = false).
  { induction s as [ | c s IH ]; [ reflexivity | ].
    cbn [Py.lstrip]. destruct (Py.isspace c) eqn:Hc; [ exact IH | exact Hc ]. }
  generalize (Py.lstrip s) Hh. clear. intros t. split.
  - destruct t as [ | c t ]; [ reflexivity | ].
    cbn [head_is] in Hh. cbn [Py.rstrip].
    destruct (Py.rstrip t); [ now rewrite Hh | exact Hh ].
  - clear Hh. induction t as [ | c t IH ]; [ reflexivity | ].
    cbn [Py.rstrip]. destruct (Py.rstrip t) as [ | d r ].
    + destruct (Py.isspace c) eqn:Hc; [ reflexivity | exact Hc ].
    + exact IH.
Qed.

Lemma allc_strip (p : ascii -> bool) (s : string) :
  allc p s = true -> allc p (Py.strip s) = true.
Proof.
  unfold Py.strip. intros H.
  assert (Hl : allc p (Py.lstrip s) = true).
  { induction s as [ | c s IH ]; [ reflexivity | ].
    cbn [Py.lstrip]. destruct (Py.isspace c); [ | exact H ].
    cbn [allc] in H. apply andb_true_iff in H. now apply IH. }
  generalize (Py.lstrip s) Hl. clear. intros t.
  induction t as [ | c t IH ]; [ reflexivity | ].
  cbn [allc Py.rstrip]. intros H. apply andb_true_iff in H.
  destruct H as [Hc Ht]. specialize (IH Ht).
  destruct (Py.rstrip t).
  - destruct (Py.isspace c); [ reflexivity | ]. cbn [allc]. now rewrite Hc.
  - cbn [allc] in *. now rewrite Hc.
Qed.

Lemma number_chars_plain (s : string) :
  allc number_char s = true -> Py.isascii s = true /\ no_sep s = true.
Proof.
  induction s as [ | c s IH ]; [ now split | ].
  cbn [allc Py.isascii no_sep]. intros H. apply andb_true_iff in H.
  destruct H as [Hc Hs]. destruct (IH Hs) as [-> ->].
  destruct (number_char_plain c Hc) as [-> ->]. now split.
Qed.

(** The tool number and the size of an accepted tool change are ASCII
    texts without separator. *)
Lemma accepted_tool_change (gcode hpgl g1 g2 : string) (g g' : globals) :
  parse_tool_change gcode g = Ok (hpgl, g') ->
  match_tool gcode = Some (g1, g2) ->
  (Py.isascii (Py.strip g1) = true /\ no_sep (Py.strip g1) = true)
  /\ (Py.isascii (Py.strip g2) = true /\ no_sep (Py.strip g2) = true).
Proof.
  intros H Hm. split.
  - apply number_chars_plain, allc_strip.
    unfold match_tool in Hm.
    destruct (Py.strip_prefix "M06 T" gcode) as [r | ]; [ | discriminate ].
    destruct (Py.span Py.isdigit r) as [d r1] eqn:Hd.
    destruct (span_spec _ _ _ _ Hd) as [_ Hall].
    destruct (Py.strip_prefix " (" r1); [ | discriminate ].
    destruct (_ <? 0); [ discriminate | ].
    injection Hm as <- _.
    exact (allc_impl _ _ _ digit_number_char Hall).
  - unfold parse_tool_change in H. rewrite Hm in H.
    destruct (String.eqb_spec (Py.strip g2) "routing") as [-> | _];
      [ now split | ].
    destruct (String.eqb_spec (Py.strip g2) "milling") as [-> | _];
      [ now split | ].
    cbn [orb] in H.
    destruct (of_str (Py.strip g2)) as [v | ] eqn:Hv; [ | discriminate ].
    destruct (strip_edges g2) as [Hh Hl].
    apply number_chars_plain. exact (of_str_chars _ _ Hv Hh Hl).
Qed.

(** X8. A tool change reaches the operator as it was written. For every
    tool-change line that [parse_tool_change] accepts, the replay of the
    text it returns first sends the move to the origin [PA0,0] and then,
    unless [send_cmd] raised, stops at one prompt that reads
    [Insert tool #], the tool number, [: size ] and the size: an accepted
    size never has a semicolon or a newline in it that would cut the
    marker in two. *)
Theorem tool_change_is_replayed_as_prompt
    (gcode hpgl g1 g2 : string) (g g' : globals) (ser : channel) (n : nat) :
  parse_tool_change gcode g = Ok (hpgl, g') ->
  match_tool gcode = Some (g1, g2) ->
  replay_commands ser n (commands hpgl)
  = and_then (send_cmd ser n "PA0,0")
      ([Input ("Insert tool #" ++ Py.strip g1 ++ ": size " ++ Py.strip g2
               ++ newline ++ "Press enter when done.")], None).
Proof.
  intros H Hm.
  destruct (accepted_tool_change _ _ _ _ _ _ H Hm) as [[_ Hs1] [_ Hs2]].
  set (msg := "Insert tool #" ++ Py.strip g1 ++ ": size " ++ Py.strip g2).
  assert (Hh : hpgl = "PA0,0" ++ String ";"
                        ("" ++ String "010"
                           (("CO " ++ quote ++ msg ++ quote) ++ String "010" ""))).
  { unfold parse_tool_change in H. rewrite Hm in H.
    destruct (_ || _); [ | destruct (of_str _); [ | discriminate ] ];
      cbn [res_bind] in H; injection H as <- _; cbn;
      unfold msg; now rewrite !append_assoc. }
  assert (Hn : no_sep ("CO " ++ quote ++ msg ++ quote) = true).
  { unfold msg. rewrite !no_sep_app, Hs1, Hs2. reflexivity. }
  rewrite Hh, !commands_app_sep by reflexivity.
  rewrite (commands_no_sep _ Hn).
  change (commands "PA0,0") with ["PA0,0"].
  change (commands "") with [""]. cbn [app].
  cbn [replay_commands].
  change (String.eqb "PA0,0" "") with false.
  change (Py.startswith "PA0,0" "CO") with false.
  change (String.eqb "" "") with true.
  change (String.eqb ("CO " ++ quote ++ msg ++ quote) "") with false.
  change (Py.startswith ("CO " ++ quote ++ msg ++ quote) "CO") with true.
  change (Py.contains "tool" ("CO " ++ quote ++ msg ++ quote)) with true.
  cbn iota. rewrite tool_change_marker.
  unfold msg. now rewrite !append_assoc.
Qed.

(** The first tool of a drill file. *)
Lemma tool_change_is_replayed_as_prompt_witness :
  replay_commands (mkChannel 0 (fun _ => Bytes "")) 0
    (commands ("PA0,0;" ++ newline ++ "CO " ++ quote
               ++ "Insert tool #01: size 0.035" ++ quote ++ newline))
  = ([Write "PA0,0;"; Sleep; Read 128; Report false "PA0,0" "";
      Input ("Insert tool #01: size 0.035" ++ newline
             ++ "Press enter when done.")], None).
Proof.
  exact (tool_change_is_replayed_as_prompt "M06 T01 (0.035 )" _ "01" "0.035 "
           initial
           (mkGlobals Abs (mul (of_int 20) (of_decimal false 35 (-3))) 0 0)
           (mkChannel 0 (fun _ => Bytes "")) 0 eq_refl eq_refl).
Defined.

(** * Invariants of the generated text *)

Lemma fmt_d_ascii (n : Z) : Py.isascii (Py.fmt_d n) = true.
Proof.
  unfold Py.fmt_d.
  assert (U : forall d, Py.isascii (NilEmpty.string_of_uint d) = true)
    by (induction d; cbn; auto).
  assert (V : forall d, Py.isascii (NilZero.string_of_uint d) = true)
    by (intros d; destruct d; try reflexivity; apply (U _)).
  destruct (Z.to_int n); cbn; [ apply V | ]. apply V.
Qed.

Lemma fmt_0f_ascii (x : float) : Py.isascii (fmt_0f x) = true.
Proof.
  destruct x as [[] | [] | | [] m e]; try reflexivity; cbn [fmt_0f];
    rewrite isascii_app, fmt_d_ascii; reflexivity.
Qed.

(** A property of texts that the empty text has, that concatenation
    keeps, and that every text the parse functions return has, holds of
    the body of every generated text. *)
Section TextInvariant.

Variable P : string -> bool.
Hypothesis P_nil : P "" = true.
Hypothesis P_app : forall a b, P a = true -> P b = true -> P (a ++ b) = true.
Hypothesis P_line :
  forall line hpgl drill g g',
    parse_line line drill g = Ok (hpgl, g') -> P hpgl = true.
Hypothesis P_tool :
  forall gcode hpgl g g',
    parse_tool_change gcode g = Ok (hpgl, g') -> P hpgl = true.
Hypothesis P_flip : P flip_boundary = true.

Lemma run_lines_invariant (drill : bool) (ls : list string) (st st' : gen_state) :
  run_lines drill ls st = Ok st' ->
  exists t, snd st' = snd st ++ t /\ P t = true.
Proof.
  revert st. induction ls as [ | raw ls IH ]; intros st; cbn [run_lines].
  - intros [= <-]. exists "". now rewrite append_nil_r.
  - destruct (run_line drill raw st) as [st1 | e] eqn:H1; cbn [res_bind];
      [ | discriminate ].
    intros H. destruct (IH _ H) as (t & Ht & Tt). unfold run_line in H1.
    destruct (Py.startswith (Py.strip raw) "(").
    + injection H1 as <-. now exists t.
    + destruct (parse_line _ _ _) as [ [h g1] | e] eqn:Hp; cbn in H1;
        [ | discriminate ].
      injection H1 as <-. cbn [snd] in Ht. exists (h ++ t).
      split; [ now rewrite Ht, append_assoc | ].
      apply P_app; [ | exact Tt ]. exact (P_line _ _ _ _ _ Hp).
Qed.

Lemma tool_then_lines_invariant (gcode : string) (ls : list string) (st st' : gen_state) :
  res_bind (write_tool_change gcode st) (run_lines false ls) = Ok st' ->
  exists t, snd st' = snd st ++ t /\ P t = true.
Proof.
  unfold write_tool_change.
  destruct (parse_tool_change gcode (fst st)) as [ [h g1] | e] eqn:Hp;
    cbn [res_bind]; [ | discriminate ].
  intros H. apply run_lines_invariant in H. destruct H as (t & Ht & Tt).
  cbn [fst snd] in Ht. exists (h ++ t).
  split; [ now rewrite Ht, append_assoc | ].
  apply P_app; [ | exact Tt ]. exact (P_tool _ _ _ _ Hp).
Qed.

Lemma generate_invariant (j : job) (st : gen_state) :
  generate j = Ok st ->
  exists body, snd st = preamble ++ body ++ postamble /\ P body = true.
Proof.
  assert (Id : forall s s' : gen_state, Ok s = Ok s' ->
            exists t, snd s' = snd s ++ t /\ P t = true).
  { intros s s' [= <-]. exists "". now rewrite append_nil_r. }
  unfold generate. destruct (1 <? _); [ discriminate | ].
  destruct (drill_phase j _) as [st1 | ] eqn:H1; cbn [res_bind]; [ | discriminate ].
  destruct (near_route_phase j st1) as [st2 | ] eqn:H2; cbn [res_bind];
    [ | discriminate ].
  destruct (far_route_phase j _) as [st3 | ] eqn:H3; cbn [res_bind];
    [ | discriminate ].
  destruct (mill_phase j st3) as [st4 | ] eqn:H4; cbn [res_bind];
    [ | discriminate ].
  intros [= <-].
  assert (A1 : exists t, snd st1 = snd (write preamble (initial, "")) ++ t
                         /\ P t = true).
  { unfold drill_phase in H1. destruct (drills j); [ now apply Id | ].
    exact (run_lines_invariant _ _ _ _ H1). }
  assert (A2 : exists t, snd st2 = snd st1 ++ t /\ P t = true).
  { unfold near_route_phase in H2. destruct (routes j); [ now apply Id | ].
    destruct (first_on_side _ _) as [f | ]; cbn [res_bind] in H2;
      [ | discriminate ].
    exact (tool_then_lines_invariant _ _ _ _ H2). }
  assert (A3 : exists t, snd st3 = snd (write flip_boundary st2) ++ t
                         /\ P t = true).
  { unfold far_route_phase in H3. destruct (1 <? _); [ | now apply Id ].
    destruct (first_on_side _ _) as [f | ]; cbn [res_bind] in H3;
      [ | discriminate ].
    exact (run_lines_invariant _ _ _ _ H3). }
  assert (A4 : exists t, snd st4 = snd st3 ++ t /\ P t = true).
  { unfold mill_phase in H4. destruct (on_side _ _); [ now apply Id | ].
    exact (tool_then_lines_invariant _ _ _ _ H4). }
  destruct A1 as (a & Ha & Ta), A2 as (b & Hb & Tb),
           A3 as (c & Hc & Tc), A4 as (d & Hd & Td).
  cbn [write fst snd] in *.
  exists (a ++ b ++ flip_boundary ++ c ++ d). split.
  - rewrite Hd, Hc, Hb, Ha. cbn [append]. now rewrite !append_assoc.
  - apply P_app; [ assumption | ]. apply P_app; [ assumption | ].
    apply P_app; [ exact P_flip | ]. now apply P_app.
Qed.

End TextInvariant.

(** * The markers of a generated text *)

Lemma fmt_d_chars (n : Z) : allc number_char (Py.fmt_d n) = true.
Proof.
  unfold Py.fmt_d.
  assert (U : forall d, allc number_char (NilEmpty.string_of_uint d) = true)
    by (induction d; cbn; auto).
  assert (V : forall d, allc number_char (NilZero.string_of_uint d) = true)
    by (intros d; destruct d; try reflexivity; apply (U _)).
  destruct (Z.to_int n); cbn; [ apply V | ]. apply V.
Qed.

Lemma fmt_0f_chars (x : float) : allc number_char (fmt_0f x) = true.
Proof.
  destruct x as [[] | [] | | [] m e]; try reflexivity; cbn [fmt_0f];
    rewrite allc_app, fmt_d_chars; reflexivity.
Qed.

Lemma units_one (x : string) :
  no_sep x = true -> x <> "" -> units (x ++ ";") = [x].
Proof.
  intros Hx Hne. unfold units.
  rewrite (commands_app_sep x "" ";" eq_refl), (commands_no_sep x Hx).
  cbn. apply String.eqb_neq in Hne. now rewrite Hne.
Qed.

Lemma phase_text_app (a b : string) :
  phase_text a = true -> phase_text b = true -> phase_text (a ++ b) = true.
Proof.
  unfold phase_text. intros Ha Hb.
  apply andb_true_iff in Ha, Hb. destruct Ha as [Ta Ua], Hb as [Tb Ub].
  rewrite (terminated_app a b Ta Tb), (units_app a b Ta), forallb_app, Ua, Ub.
  reflexivity.
Qed.

Lemma move_command_phase_text (m : Mode) (cx cy : Z) :
  phase_text (move_command m cx cy) = true.
Proof.
  unfold phase_text. rewrite move_command_terminated. cbn [andb].
  unfold move_command.
  set (x := (match m with Abs => "PA" | Rel => "PR" end)
            ++ Py.fmt_d cx ++ "," ++ Py.fmt_d cy).
  assert (E : (match m with Abs => "PA" | Rel => "PR" end)
              ++ Py.fmt_d cx ++ "," ++ Py.fmt_d cy ++ ";" = x ++ ";")
    by (unfold x; now rewrite !append_assoc).
  rewrite E.
  assert (Hx : no_sep x = true).
  { unfold x. rewrite !no_sep_app.
    destruct (number_chars_plain _ (fmt_d_chars cx)) as [_ ->].
    destruct (number_chars_plain _ (fmt_d_chars cy)) as [_ ->].
    now destruct m. }
  assert (Hne : x <> "") by (unfold x; now destruct m).
  rewrite (units_one x Hx Hne). cbn [forallb]. unfold phase_unit, is_marker.
  replace (Py.startswith x "CO") with false by (unfold x; now destruct m).
  reflexivity.
Qed.

Lemma timed_wait_phase_text (t : float) : phase_text (timed_wait t) = true.
Proof.
  unfold phase_text. rewrite timed_wait_terminated. cbn [andb].
  unfold timed_wait.
  set (x := "!TW" ++ fmt_0f (mul t (of_int 1000))).
  assert (E : "!TW" ++ fmt_0f (mul t (of_int 1000)) ++ ";" = x ++ ";")
    by (unfold x; now rewrite !append_assoc).
  rewrite E.
  assert (Hx : no_sep x = true).
  { unfold x. rewrite no_sep_app.
    now destruct (number_chars_plain _ (fmt_0f_chars (mul t (of_int 1000))))
      as [_ ->]. }
  assert (Hne : x <> "") by (unfold x; discriminate).
  rewrite (units_one x Hx Hne). reflexivity.
Qed.

(** The pieces of the text of a tool change. *)
Lemma tool_change_commands (gcode hpgl g1 g2 : string) (g g' : globals) :
  parse_tool_change gcode g = Ok (hpgl, g') ->
  match_tool gcode = Some (g1, g2) ->
  commands hpgl
  = ["PA0,0"; "";
     "CO " ++ quote
     ++ ("Insert tool #" ++ Py.strip g1 ++ ": size " ++ Py.strip g2) ++ quote;
     ""].
Proof.
  intros H Hm.
  destruct (accepted_tool_change _ _ _ _ _ _ H Hm) as [[_ Hs1] [_ Hs2]].
  set (msg := "Insert tool #" ++ Py.strip g1 ++ ": size " ++ Py.strip g2).
  assert (Hh : hpgl = "PA0,0" ++ String ";"
                        ("" ++ String "010"
                           (("CO " ++ quote ++ msg ++ quote) ++ String "010" ""))).
  { unfold parse_tool_change in H. rewrite Hm in H.
    destruct (_ || _); [ | destruct (of_str _); [ | discriminate ] ];
      cbn [res_bind] in H; injection H as <- _; cbn;
      unfold msg; now rewrite !append_assoc. }
  assert (Hn : no_sep ("CO " ++ quote ++ msg ++ quote) = true).
  { unfold msg. rewrite !no_sep_app, Hs1, Hs2. reflexivity. }
  rewrite Hh, !commands_app_sep by reflexivity.
  now rewrite (commands_no_sep _ Hn).
Qed.

Lemma parse_tool_change_phase_text (gcode hpgl : string) (g g' : globals) :
  parse_tool_change gcode g = Ok (hpgl, g') -> phase_text hpgl = true.
Proof.
  intros H. unfold phase_text.
  rewrite (parse_tool_change_terminated _ _ _ _ H). cbn [andb].
  destruct (match_tool gcode) as [ [g1 g2] | ] eqn:Hm.
  - unfold units. rewrite (tool_change_commands _ _ _ _ _ _ H Hm). reflexivity.
  - unfold parse_tool_change in H. rewrite Hm in H. discriminate.
Qed.

Lemma parse_line_phase_text (line hpgl : string) (drill : bool) (g g' : globals) :
  parse_line line drill g = Ok (hpgl, g') -> phase_text hpgl = true.
Proof.
  unfold parse_line.
  destruct (Py.startswith line "G20"); [ discriminate | ].
  destruct (Py.startswith line "G21"); [ now intros [= <- _] | ].
  destruct (Py.startswith line "G90").
  { unfold change_mode. destruct (Mode_eqb (mode g) Abs);
      [ now intros [= <- _] | ].
    destruct (Mode_eqb (mode g) Rel); now intros [= <- _]. }
  destruct (Py.startswith line "G91").
  { unfold change_mode. destruct (Mode_eqb (mode g) Rel);
      now intros [= <- _]. }
  destruct (Py.startswith line "G00" || Py.startswith line "G01").
  { destruct (Py.contains "Z" line).
    - unfold parse_z. destruct (match_z line); [ | discriminate ].
      destruct (of_str _) as [v | ]; simpl; [ | discriminate ].
      destruct (le v _).
      + intros [= <- _]. destruct drill; [ | reflexivity ].
        apply (phase_text_app "PD;" (timed_wait (drill_dwell g)));
          [ reflexivity | apply timed_wait_phase_text ].
      + destruct (gt v _); [ now intros [= <- _] | discriminate ].
    - intros H. destruct (parse_move_ok _ _ _ _ H)
        as (_ & _ & cx & cy & _ & _ & _ & _ & -> & _).
      apply move_command_phase_text. }
  destruct (Py.startswith line "G04").
  { unfold parse_dwell. destruct (of_str _); simpl; [ | discriminate ].
    intros [= <- _]. apply timed_wait_phase_text. }
  destruct (Py.startswith line "M03"); [ now intros [= <- _] | ].
  destruct (Py.startswith line "M05"); [ now intros [= <- _] | ].
  destruct (Py.startswith line "M06"); [ | now intros [= <- _] ].
  apply parse_tool_change_phase_text.
Qed.

(** The text before and the text after the flip boundary. *)
Section PhaseInvariant.

Variable P : string -> bool.
Hypothesis P_nil : P "" = true.
Hypothesis P_app : forall a b, P a = true -> P b = true -> P (a ++ b) = true.
Hypothesis P_line :
  forall line hpgl drill g g',
    parse_line line drill g = Ok (hpgl, g') -> P hpgl = true.
Hypothesis P_tool :
  forall gcode hpgl g g',
    parse_tool_change gcode g = Ok (hpgl, g') -> P hpgl = true.

Lemma generate_sides (j : job) (st : gen_state) :
  generate j = Ok st ->
  exists near far,
    snd st = preamble ++ near ++ flip_boundary ++ far ++ postamble
    /\ P near = true /\ P far = true.
Proof.
  assert (Id : forall s s' : gen_state, Ok s = Ok s' ->
            exists t, snd s' = snd s ++ t /\ P t = true).
  { intros s s' [= <-]. exists "". now rewrite append_nil_r. }
  unfold generate. destruct (1 <? _); [ discriminate | ].
  destruct (drill_phase j _) as [st1 | ] eqn:H1; cbn [res_bind]; [ | discriminate ].
  destruct (near_route_phase j st1) as [st2 | ] eqn:H2; cbn [res_bind];
    [ | discriminate ].
  destruct (far_route_phase j _) as [st3 | ] eqn:H3; cbn [res_bind];
    [ | discriminate ].
  destruct (mill_phase j st3) as [st4 | ] eqn:H4; cbn [res_bind];
    [ | discriminate ].
  intros [= <-].
  assert (A1 : exists t, snd st1 = snd (write preamble (initial, "")) ++ t
                         /\ P t = true).
  { unfold drill_phase in H1. destruct (drills j); [ now apply Id | ].
    exact (run_lines_invariant P P_nil P_app P_line _ _ _ _ H1). }
  assert (A2 : exists t, snd st2 = snd st1 ++ t /\ P t = true).
  { unfold near_route_phase in H2. destruct (routes j); [ now apply Id | ].
    destruct (first_on_side _ _) as [f | ]; cbn [res_bind] in H2;
      [ | discriminate ].
    exact (tool_then_lines_invariant P P_nil P_app P_line P_tool _ _ _ _ H2). }
  assert (A3 : exists t, snd st3 = snd (write flip_boundary st2) ++ t
                         /\ P t = true).
  { unfold far_route_phase in H3. destruct (1 <? _); [ | now apply Id ].
    destruct (first_on_side _ _) as [f | ]; cbn [res_bind] in H3;
      [ | discriminate ].
    exact (run_lines_invariant P P_nil P_app P_line _ _ _ _ H3). }
  assert (A4 : exists t, snd st4 = snd st3 ++ t /\ P t = true).
  { unfold mill_phase in H4. destruct (on_side _ _); [ now apply Id | ].
    exact (tool_then_lines_invariant P P_nil P_app P_line P_tool _ _ _ _ H4). }
  destruct A1 as (a & Ha & Ta), A2 as (b & Hb & Tb),
           A3 as (c & Hc & Tc), A4 as (d & Hd & Td).
  cbn [write fst snd] in *.
  exists (a ++ b), (c ++ d). split; [ | split; now apply P_app ].
  rewrite Hd, Hc, Hb, Ha. cbn [append]. now rewrite !append_assoc.
Qed.

End PhaseInvariant.

(** X18. The board is flipped once, and every marker is known. The text
    of a completed generation is the preamble, the text of the first
    side, the flip boundary, the text of the other side and the
    postamble. Every command of the two sides is a device command, a
    marker with [tool] in it, or the marker [change_mode] writes; so the
    replay loop takes its flip branch at exactly one command of the whole
    text, the marker of the flip boundary, after all commands of the
    first side and before all commands of the other. *)
Theorem board_is_flipped_once (j : job) (st : gen_state) :
  generate j = Ok st ->
  exists near far,
    snd st = preamble ++ near ++ flip_boundary ++ far ++ postamble
    /\ units (snd st)
       = (units preamble ++ units near ++ ["!RM0"; "PU"; flip_unit]
          ++ units far ++ units postamble)%list
    /\ forallb phase_unit (units near) = true
    /\ forallb phase_unit (units far) = true
    /\ filter takes_flip_branch (units (snd st)) = [flip_unit].
Proof.
  intros H.
  destruct (generate_sides phase_text eq_refl phase_text_app
              parse_line_phase_text parse_tool_change_phase_text j st H)
    as (near & far & Hs & Hn & Hf).
  unfold phase_text in Hn, Hf. apply andb_true_iff in Hn, Hf.
  destruct Hn as [Tn Un], Hf as [Tf Uf].
  exists near, far.
  assert (Hu : units (snd st)
               = (units preamble ++ units near ++ ["!RM0"; "PU"; flip_unit]
                  ++ units far ++ units postamble)%list).
  { rewrite Hs.
    rewrite (units_app preamble) by reflexivity.
    rewrite (units_app near) by assumption.
    rewrite (units_app flip_boundary) by reflexivity.
    now rewrite (units_app far) by assumption. }
  assert (Hno : forall l, forallb phase_unit l = true ->
                  filter takes_flip_branch l = []).
  { induction l as [ | u l IH ]; [ reflexivity | ].
    cbn [forallb filter]. intros Hl. apply andb_true_iff in Hl.
    destruct Hl as [Hu' Hl]. rewrite (IH Hl).
    unfold phase_unit in Hu'. unfold takes_flip_branch.
    destruct (is_marker u); [ | reflexivity ].
    destruct (Py.contains "tool" u); [ reflexivity | ].
    cbn [negb orb andb] in *. apply String.eqb_eq in Hu'. now subst u. }
  repeat split; try assumption.
  rewrite Hu, !filter_app, (Hno _ Un), (Hno _ Uf). reflexivity.
Qed.

(** A board drilled in relative mode with traces on both sides. *)
Lemma board_is_flipped_once_witness :
  let j := mkJob [mkFile "b.top.drill.g"
                    ["G91"; "M06 T01 (0.035 )"; "G00 X1.0 Y2.0"; "G90"]]
                 [mkFile "b.bot.etch.g" ["G01 X3 Y3"];
                  mkFile "b.top.etch.g" ["G01 X2 Y2"]] [] in
  exists st, generate j = Ok st
    /\ filter takes_flip_branch (units (snd st)) = [flip_unit].
Proof.
  intros j.
  destruct (generate j) as [st | e] eqn:H; [ | vm_compute in H; discriminate ].
  exists st. split; [ reflexivity | ].
  destruct (board_is_flipped_once j st H) as (near & far & _ & _ & _ & _ & Hf).
  exact Hf.
Defined.

(** * The commands of a generated text can be sent *)

Lemma sendable_text_app (a b : string) :
  sendable_text a = true -> sendable_text b = true ->
  sendable_text (a ++ b) = true.
Proof.
  unfold sendable_text. intros Ha Hb.
  apply andb_true_iff in Ha, Hb. destruct Ha as [Ta Ua], Hb as [Tb Ub].
  rewrite (terminated_app a b Ta Tb), (units_app a b Ta), forallb_app, Ua, Ub.
  reflexivity.
Qed.

Lemma move_command_sendable (m : Mode) (cx cy : Z) :
  sendable_text (move_command m cx cy) = true.
Proof.
  unfold sendable_text. rewrite move_command_terminated. cbn [andb].
  unfold move_command.
  set (x := (match m with Abs => "PA" | Rel => "PR" end)
            ++ Py.fmt_d cx ++ "," ++ Py.fmt_d cy).
  assert (E : (match m with Abs => "PA" | Rel => "PR" end)
              ++ Py.fmt_d cx ++ "," ++ Py.fmt_d cy ++ ";" = x ++ ";")
    by (unfold x; now rewrite !append_assoc).
  rewrite E.
  assert (Hx : no_sep x = true).
  { unfold x. rewrite !no_sep_app.
    destruct (number_chars_plain _ (fmt_d_chars cx)) as [_ ->].
    destruct (number_chars_plain _ (fmt_d_chars cy)) as [_ ->].
    now destruct m. }
  assert (Hne : x <> "") by (unfold x; now destruct m).
  assert (Ha : Py.isascii x = true).
  { unfold x. rewrite !isascii_app, !fmt_d_ascii. now destruct m. }
  rewrite (units_one x Hx Hne). cbn [forallb]. unfold sendable.
  rewrite Ha. now rewrite orb_true_r.
Qed.

Lemma timed_wait_sendable (t : float) : sendable_text (timed_wait t) = true.
Proof.
  unfold sendable_text. rewrite timed_wait_terminated. cbn [andb].
  unfold timed_wait.
  set (x := "!TW" ++ fmt_0f (mul t (of_int 1000))).
  assert (E : "!TW" ++ fmt_0f (mul t (of_int 1000)) ++ ";" = x ++ ";")
    by (unfold x; now rewrite !append_assoc).
  rewrite E.
  assert (Hx : no_sep x = true).
  { unfold x. rewrite no_sep_app.
    now destruct (number_chars_plain _ (fmt_0f_chars (mul t (of_int 1000))))
      as [_ ->]. }
  assert (Hne : x <> "") by (unfold x; discriminate).
  assert (Ha : Py.isascii x = true).
  { unfold x. now rewrite isascii_app, fmt_0f_ascii. }
  rewrite (units_one x Hx Hne). cbn [forallb]. unfold sendable.
  rewrite Ha. now rewrite orb_true_r.
Qed.

(** The text of a tool change is a move to the origin and a marker,
    whatever the tool number and the size are made of. *)
Lemma parse_tool_change_sendable (gcode hpgl : string) (g g' : globals) :
  parse_tool_change gcode g = Ok (hpgl, g') -> sendable_text hpgl = true.
Proof.
  intros H. unfold sendable_text.
  rewrite (parse_tool_change_terminated _ _ _ _ H). cbn [andb].
  destruct (match_tool gcode) as [ [g1 g2] | ] eqn:Hm.
  - unfold units. rewrite (tool_change_commands _ _ _ _ _ _ H Hm). reflexivity.
  - unfold parse_tool_change in H. rewrite Hm in H. discriminate.
Qed.

Lemma parse_line_sendable (line hpgl : string) (drill : bool) (g g' : globals) :
  parse_line line drill g = Ok (hpgl, g') -> sendable_text hpgl = true.
Proof.
  unfold parse_line.
  destruct (Py.startswith line "G20"); [ discriminate | ].
  destruct (Py.startswith line "G21"); [ now intros [= <- _] | ].
  destruct (Py.startswith line "G90").
  { unfold change_mode. destruct (Mode_eqb (mode g) Abs);
      [ now intros [= <- _] | ].
    destruct (Mode_eqb (mode g) Rel); now intros [= <- _]. }
  destruct (Py.startswith line "G91").
  { unfold change_mode. destruct (Mode_eqb (mode g) Rel);
      now intros [= <- _]. }
  destruct (Py.startswith line "G00" || Py.startswith line "G01").
  { destruct (Py.contains "Z" line).
    - unfold parse_z. destruct (match_z line); [ | discriminate ].
      destruct (of_str _) as [v | ]; simpl; [ | discriminate ].
      destruct (le v _).
      + intros [= <- _]. destruct drill; [ | reflexivity ].
        apply (sendable_text_app "PD;" (timed_wait (drill_dwell g)));
          [ reflexivity | apply timed_wait_sendable ].
      + destruct (gt v _); [ now intros [= <- _] | discriminate ].
    - intros H. destruct (parse_move_ok _ _ _ _ H)
        as (_ & _ & cx & cy & _ & _ & _ & _ & -> & _).
      apply move_command_sendable. }
  destruct (Py.startswith line "G04").
  { unfold parse_dwell. destruct (of_str _); simpl; [ | discriminate ].
    intros [= <- _]. apply timed_wait_sendable. }
  destruct (Py.startswith line "M03"); [ now intros [= <- _] | ].
  destruct (Py.startswith line "M05"); [ now intros [= <- _] | ].
  destruct (Py.startswith line "M06"); [ | now intros [= <- _] ].
  apply parse_tool_change_sendable.
Qed.

(** Every command of a generated text is a marker or ASCII text. *)
Lemma generated_units_sendable (j : job) (st : gen_state) :
  generate j = Ok st -> forallb sendable (units (snd st)) = true.
Proof.
  intros H.
  destruct (generate_invariant sendable_text eq_refl sendable_text_app
              parse_line_sendable parse_tool_change_sendable eq_refl j st H)
    as (body & Hs & Hb).
  assert (Ht : sendable_text (snd st) = true).
  { rewrite Hs. apply (sendable_text_app preamble); [ reflexivity | ].
    apply (sendable_text_app body postamble); [ exact Hb | reflexivity ]. }
  unfold sendable_text in Ht. apply andb_true_iff in Ht. now destruct Ht.
Qed.

Lemma generated_commands_sendable (j : job) (st : gen_state) :
  generate j = Ok st ->
  Forall (fun u => is_marker u = false -> Py.isascii u = true)
    (commands (snd st)).
Proof.
  intros H. pose proof (generated_units_sendable j st H) as Hu.
  rewrite forallb_forall in Hu.
  apply Forall_forall. intros u Hin Hm.
  destruct (String.eqb_spec u "") as [-> | Hne]; [ reflexivity | ].
  assert (Hin' : In u (units (snd st))).
  { unfold units. apply filter_In. split; [ exact Hin | ].
    apply negb_true_iff. now apply String.eqb_neq. }
  specialize (Hu u Hin'). unfold sendable in Hu. rewrite Hm in Hu. exact Hu.
Qed.

(** X17. On a port that answers with ASCII bytes, a run never fails
    after the generation. For every job whose generation completes, with
    the temporary file and a text of at most 10,000,000 characters,
    [main] without [--dry-run] runs to its end: it writes each command of
    the text that is not a marker, with its semicolon, in order, from
    [IN;] to the [PU;] of the postamble, and it prompts the operator at
    every marker with [tool] or [flip] in it and once more at the end.
    No command fails to be encoded: every command of the text is a
    marker, which is not sent, or ASCII text. *)
Theorem run_completes_on_decodable_port
    (j : job) (st : gen_state) (port : channel) :
  generate j = Ok st ->
  Py.len (snd st) <= 10000000 ->
  replies_decodable port ->
  forallb sendable (units (snd st)) = true
  /\ snd (main false Temp port j) = None
  /\ written (main false Temp port j)
     = map (fun u => u ++ ";")
         (filter (fun u => negb (is_marker u)) (units (snd st)))
  /\ prompts (main false Temp port j)
     = (map prompt_of (filter is_interactive (units (snd st)))
        ++ [exit_prompt])%list
  /\ exists body,
       snd st = preamble ++ body ++ postamble
       /\ written (main false Temp port j)
          = (["IN;"; "!CT1;"; "VS12000;"; "!OC;"; "!SV140;"; "!SM32;";
              "!WR0,8,8;"; "!CC;"; "!CM1;"]
             ++ map (fun u => (u ++ ";")%string)
                  (filter (fun u => negb (is_marker u)) (units body))
             ++ ["!OC;"; "!RM0;"; "!CC;"; "PU;"])%list.
Proof.
  intros H Hl Hport.
  pose proof (generated_commands_sendable j st H) as Hall.
  destruct (replay_commands_healthy port _ Hport Hall 0) as (H1 & H2 & H3).
  rewrite (main_generate_ok false Temp port j st eq_refl H).
  unfold read_back.
  replace (max_size <? Py.len (snd st)) with false
    by (symmetry; apply Z.ltb_ge; exact Hl).
  assert (Hw : written (replay port (snd st))
               = map (fun u => u ++ ";")
                   (filter (fun u => negb (is_marker u)) (units (snd st)))).
  { now rewrite written_replay, H2. }
  split; [ exact (generated_units_sendable j st H) | ].
  split; [ | split; [ exact Hw | split ] ].
  - rewrite replay_unfold, H1. reflexivity.
  - rewrite replay_unfold, H1. unfold prompts in *. cbn [fst flat_map app].
    rewrite flat_map_app, H3. reflexivity.
  - destruct (generate_text j st H) as (body & Hb & Tb).
    exists body. split; [ exact Hb | ].
    rewrite Hw, Hb.
    rewrite (units_app preamble) by reflexivity.
    rewrite (units_app body) by assumption.
    rewrite !filter_app, !map_app. reflexivity.
Qed.

(** A board with holes, traces on both sides and an outline to mill. *)
Lemma run_completes_on_decodable_port_witness :
  let j := mkJob [mkFile "b.top.drill.g"
                    ["G90"; "M06 T01 (0.035 )"; "G00 X1.0 Y2.0"; "G01 Z-0.1"]]
                 [mkFile "b.bot.etch.g" ["G01 X3 Y3"];
                  mkFile "b.top.etch.g" ["G01 X2 Y2"]]
                 [mkFile "b.bot.mill.g" ["G01 X5 Y5"]] in
  snd (main false Temp (mkChannel 0 (fun _ => Bytes "E1")) j) = None.
Proof.
  intros j.
  destruct (generate j) as [st | e] eqn:H; [ | vm_compute in H; discriminate ].
  destruct (run_completes_on_decodable_port j st
              (mkChannel 0 (fun _ => Bytes "E1")) H) as (_ & Hc & _).
  - vm_compute in H. injection H as <-. vm_compute. discriminate.
  - intros n. exists "E1". split; reflexivity.
  - exact Hc.
Defined.
